(** * Range-bound hedging strategies: a shallow embedding of the decision core

  The repository holds two variants of one QuantConnect strategy,

  - [Pips_And_Lots_Implementation/PipsAndLotsExample.py] (the basic variant),
  - [Trailing_Stop_Loss/TrailingStopWalkthroughExample.py] (the enhanced one),

  each made of a class [RangeBoundHedgingAlgorithm] and a risk model
  [RangeBoundRiskManagement].  Every method of the two files is transcribed
  below as a function over an explicit record of the object's attributes.

  Numbers.  The Python code computes with [int] and [float].  They are
  modelled by the rationals [Q] with exact arithmetic, a decimal literal
  standing for its decimal value; rounding, infinities and NaN are outside
  the model.  Division raises on a zero divisor, as in Python.

  Platform.  The QuantConnect objects the code reads ([Portfolio],
  indicators, [Securities], [Transactions], [Time]) are gathered in a
  read-only record handed to each handler; the orders, liquidations and plots
  the code requests are appended to a log kept next to the object. *)

From Stdlib Require Import QArith Qabs Qminmax ZArith List String Bool Lia Lqa.
Import ListNotations.

Local Open Scope Q_scope.

(** ** Python primitives *)

Module Py.

Inductive exn : Type :=
| ZeroDivisionError
| TypeError
| AttributeError
| KeyError.

Inductive result (A : Type) : Type :=
| Ok (a : A)
| Raise (e : exn).

Arguments Ok {A} a.
Arguments Raise {A} e.

(** [x < y], [x <= y], [x > y], [x >= y], [x == y] on numbers. *)
Definition lt (x y : Q) : bool := negb (Qle_bool y x).
Definition le (x y : Q) : bool := Qle_bool x y.
Definition gt (x y : Q) : bool := lt y x.
Definition ge (x y : Q) : bool := le y x.
Definition eq (x y : Q) : bool := Qeq_bool x y.

(** [x / y]: true division, [ZeroDivisionError] on a zero divisor. *)
Definition div (x y : Q) : result Q :=
  if Qeq_bool y 0 then Raise ZeroDivisionError else Ok (x / y).

(** [min(a, b)]: the first argument unless the second is strictly smaller. *)
Definition min (a b : Q) : Q := if lt b a then b else a.

Definition abs (x : Q) : Q := Qabs x.

(** [a - b] where [a] may be [None]: [TypeError] on [None]. *)
Definition num (x : option Q) : result Q :=
  match x with
  | Some v => Ok v
  | None => Raise TypeError
  end.

(** State and exception monad: a method body run on the object state [S]. *)
Definition M (S A : Type) : Type := S -> result (A * S).

Definition ret {S A} (a : A) : M S A := fun s => Ok (a, s).

Definition bind {S A B} (c : M S A) (k : A -> M S B) : M S B :=
  fun s =>
    match c s with
    | Ok (a, s') => k a s'
    | Raise e => Raise e
    end.

Definition get {S} : M S S := fun s => Ok (s, s).
Definition modify {S} (f : S -> S) : M S unit := fun s => Ok (tt, f s).
Definition raise {S A} (e : exn) : M S A := fun _ => Raise e.
Definition lift {S A} (r : result A) : M S A :=
  fun s =>
    match r with
    | Ok a => Ok (a, s)
    | Raise e => Raise e
    end.

(** A call of a method that reads the object and leaves it as it is. *)
Definition call {S A} (f : S -> result A) : M S A := fun s => lift (f s) s.

(** Sequencing of computations that may raise. *)
Definition and_then {A B} (r : result A) (k : A -> result B) : result B :=
  match r with
  | Ok a => k a
  | Raise e => Raise e
  end.

(** [try: ... except Exception: ...] around a computation. *)
Definition try_except {A} (r : result A) (handler : exn -> A) : A :=
  match r with
  | Ok a => a
  | Raise e => handler e
  end.

Definition is_None {A} (x : option A) : bool :=
  match x with
  | None => true
  | Some _ => false
  end.

End Py.

Import Py.

Declare Scope py_scope.
Delimit Scope py_scope with py.
Notation "x <- c ;; k" := (Py.bind c (fun x => k))
(at level 61, c at next level, right associativity) : py_scope.
Notation "c ;;; k" := (Py.bind c (fun _ => k))
(at level 61, right associativity) : py_scope.
Notation "x <-- r ;; k" := (Py.and_then r (fun x => k))
(at level 61, r at next level, right associativity).

(** ** The platform, as far as the strategies touch it *)

Module QC.

Inductive OrderStatus : Type :=
| New | Submitted | PartiallyFilled | Filled | Canceled
| NoStatus | Invalid | CancelPending | UpdateSubmitted.

Definition OrderStatus_eqb (a b : OrderStatus) : bool :=
  match a, b with
  | New, New | Submitted, Submitted | PartiallyFilled, PartiallyFilled
  | Filled, Filled | Canceled, Canceled | NoStatus, NoStatus
  | Invalid, Invalid | CancelPending, CancelPending
  | UpdateSubmitted, UpdateSubmitted => true
  | _, _ => false
  end.

Inductive OrderDirection : Type := Buy | Sell | Hold.

Definition OrderDirection_eqb (a b : OrderDirection) : bool :=
  match a, b with
  | Buy, Buy | Sell, Sell | Hold, Hold => true
  | _, _ => false
  end.

Record Order : Type := {
  Direction : OrderDirection;
  Quantity : Q
}.

Record OrderEvent : Type := {
  Status : OrderStatus;
  OrderId : Z
}.

(** What the strategy asks of the platform. *)
Inductive Request : Type :=
| MarketOrder (symbol : string) (quantity : Q)
| StopMarketOrder (symbol : string) (quantity stopPrice : Q)
| LimitOrder (symbol : string) (quantity limitPrice : Q)
| Liquidate
| Plot (chart series : string) (value : Q).

Record Indicator : Type := {
  IsReady : bool;
  Current_Value : Q
}.

Record BollingerBands : Type := {
  bb_IsReady : bool;
  UpperBand : Q;
  MiddleBand : Q;
  LowerBand : Q
}.

Record Portfolio : Type := {
  TotalPortfolioValue : Q;
  TotalUnrealizedProfit : Q;
  MarginRemaining : Q
}.

(** The platform as seen during one handler call.  [MarketOrder_Status] is
    the status of the ticket a market order of the given quantity comes back
    with; [Time] counts microseconds from [datetime.min]. *)
Record Platform : Type := {
  IsWarmingUp : bool;
  Time : Z;
  portfolio : Portfolio;
  Securities_Keys : list string;
  Securities_Price : string -> Q;
  sma : Indicator;
  atr : Indicator;
  atr_Window : list (option Q);
  high : Indicator;
  low : Indicator;
  bb : BollingerBands;
  OpenOrders : nat;
  MarketOrder_Status : string -> Q -> OrderStatus;
  GetOrderById : Z -> option Order
}.

(** A data slice: the close of the bar of each symbol it contains. *)
Definition Slice : Type := string -> option Q.

Definition ContainsKey (data : Slice) (symbol : string) : bool :=
  negb (is_None (data symbol)).

(** [data[symbol].Close] *)
Definition Close (data : Slice) (symbol : string) : result Q :=
  match data symbol with
  | Some close => Ok close
  | None => Raise KeyError
  end.

Record PortfolioTarget : Type := {
  target_Symbol : string;
  target_Quantity : Q
}.

End QC.

Import QC.

(** ** [class RangeBoundRiskManagement(RiskManagementModel)]

  The class is the same, line for line, in both files. *)

Module RangeBoundRiskManagement.

Record t : Type := {
  maximum_drawdown_percent : Q;
  exit_triggered : bool
}.

Definition __init__ (maximum_drawdown_percent : Q) : t :=
  {| maximum_drawdown_percent := maximum_drawdown_percent;
     exit_triggered := false |}.

Definition set_exit_triggered (b : bool) (self : t) : t :=
  {| maximum_drawdown_percent := maximum_drawdown_percent self;
     exit_triggered := b |}.

Definition flatten (algorithm : Platform) : list PortfolioTarget :=
  map (fun symbol => {| target_Symbol := symbol; target_Quantity := 0 |})
      (Securities_Keys algorithm).

Definition ManageRisk (algorithm : Platform) (targets : list PortfolioTarget)
  : M t (list PortfolioTarget) :=
  (total_unrealized_profit_pct <-
     lift (Py.div (TotalUnrealizedProfit (portfolio algorithm))
                  (TotalPortfolioValue (portfolio algorithm))) ;;
   self <- get ;;
   if Py.lt total_unrealized_profit_pct (- maximum_drawdown_percent self)
   then
     modify (set_exit_triggered true) ;;;
     ret (flatten algorithm)
   else
     (if exit_triggered self && Py.ge total_unrealized_profit_pct 0
      then modify (set_exit_triggered false)
      else ret tt) ;;;
     ret targets)%py.

End RangeBoundRiskManagement.

(** ** [PipsAndLotsExample.py]: the basic variant *)

Module PipsAndLotsExample.

(** The attributes [Initialize] gives the object, and [sent], the requests the
    object has made of the platform so far (oldest first). *)
Record RangeBoundHedgingAlgorithm : Type := {
  symbol : string;
  r2r : Q;
  buyLine : option Q;
  sellLine : option Q;
  maxDrawdown : Q;
  positionSize : Q;
  openBuyLots : Q;
  openSellLots : Q;
  sent : list Request
}.

Definition Self : Type := RangeBoundHedgingAlgorithm.

Definition Initialize : Self :=
  {| symbol := "EURUSD";
     r2r := 2;
     buyLine := None;
     sellLine := None;
     maxDrawdown := 0.02;
     positionSize := 0.01;
     openBuyLots := 0;
     openSellLots := 0;
     sent := [] |}.

(** [self.SetRiskManagement(RangeBoundRiskManagement(self.maxDrawdown))] *)
Definition Initialize_RiskManagement : RangeBoundRiskManagement.t :=
  RangeBoundRiskManagement.__init__ (maxDrawdown Initialize).

(** [self.SetCash(1000000)] *)
Definition Initialize_Cash : Q := 1000000.

Definition set_buyLine (v : option Q) (self : Self) : Self :=
  {| symbol := symbol self; r2r := r2r self;
     buyLine := v; sellLine := sellLine self;
     maxDrawdown := maxDrawdown self; positionSize := positionSize self;
     openBuyLots := openBuyLots self; openSellLots := openSellLots self;
     sent := sent self |}.

Definition set_sellLine (v : option Q) (self : Self) : Self :=
  {| symbol := symbol self; r2r := r2r self;
     buyLine := buyLine self; sellLine := v;
     maxDrawdown := maxDrawdown self; positionSize := positionSize self;
     openBuyLots := openBuyLots self; openSellLots := openSellLots self;
     sent := sent self |}.

Definition set_openBuyLots (v : Q) (self : Self) : Self :=
  {| symbol := symbol self; r2r := r2r self;
     buyLine := buyLine self; sellLine := sellLine self;
     maxDrawdown := maxDrawdown self; positionSize := positionSize self;
     openBuyLots := v; openSellLots := openSellLots self;
     sent := sent self |}.

Definition set_openSellLots (v : Q) (self : Self) : Self :=
  {| symbol := symbol self; r2r := r2r self;
     buyLine := buyLine self; sellLine := sellLine self;
     maxDrawdown := maxDrawdown self; positionSize := positionSize self;
     openBuyLots := openBuyLots self; openSellLots := v;
     sent := sent self |}.

Definition set_positionSize (v : Q) (self : Self) : Self :=
  {| symbol := symbol self; r2r := r2r self;
     buyLine := buyLine self; sellLine := sellLine self;
     maxDrawdown := maxDrawdown self; positionSize := v;
     openBuyLots := openBuyLots self; openSellLots := openSellLots self;
     sent := sent self |}.

(** A call into the platform: the request joins the log. *)
Definition send (r : Request) : M Self unit :=
  modify (fun self =>
    {| symbol := symbol self; r2r := r2r self;
       buyLine := buyLine self; sellLine := sellLine self;
       maxDrawdown := maxDrawdown self; positionSize := positionSize self;
       openBuyLots := openBuyLots self; openSellLots := openSellLots self;
       sent := sent self ++ [r] |}).

Definition OnOrderEvent (qc : Platform) (orderEvent : OrderEvent) : M Self unit :=
  (if OrderStatus_eqb (Status orderEvent) Filled then
     match GetOrderById qc (OrderId orderEvent) with
     | None => raise AttributeError
     | Some order =>
         if OrderDirection_eqb (Direction order) Buy then
           modify (fun self =>
             set_openBuyLots (openBuyLots self + Py.abs (Quantity order)) self)
         else
           modify (fun self =>
             set_openSellLots (openSellLots self + Py.abs (Quantity order)) self)
     end
   else ret tt)%py.

Definition LiquidatePositions : M Self unit :=
  (send Liquidate ;;;
   modify (set_openBuyLots 0) ;;;
   modify (set_openSellLots 0))%py.

Definition CalculateBuyLots (qc : Platform) (self : Self) : result Q :=
  if Py.eq (openBuyLots self) 0 && Py.eq (openSellLots self) 0 then
    Ok (TotalPortfolioValue (portfolio qc) * positionSize self)
  else
    ratio <-- Py.div (r2r self + 1) (r2r self) ;;
    let base_lots := (ratio * openSellLots self - openBuyLots self) * 1.1 in
    Ok (Py.min base_lots (TotalPortfolioValue (portfolio qc) * positionSize self)).

Definition CalculateSellLots (qc : Platform) (self : Self) : result Q :=
  if Py.eq (openBuyLots self) 0 && Py.eq (openSellLots self) 0 then
    Ok (TotalPortfolioValue (portfolio qc) * positionSize self)
  else
    ratio <-- Py.div (r2r self + 1) (r2r self) ;;
    let base_lots := (ratio * openBuyLots self - openSellLots self) * 1.1 in
    Ok (Py.min base_lots (TotalPortfolioValue (portfolio qc) * positionSize self)).

Definition ExecuteBuyOrder (qc : Platform) (lots : Q) : M Self unit :=
  (self <- get ;;
   line <- lift (Py.num (buyLine self)) ;;
   let stop_price := line - Current_Value (atr qc) in
   let take_profit := line + (Current_Value (atr qc) * r2r self) in
   send (MarketOrder (symbol self) lots) ;;;
   if OrderStatus_eqb (MarketOrder_Status qc (symbol self) lots) Filled then
     modify (fun self => set_openBuyLots (openBuyLots self + lots) self) ;;;
     send (StopMarketOrder (symbol self) (- lots) stop_price) ;;;
     send (LimitOrder (symbol self) (- lots) take_profit)
   else ret tt)%py.

Definition ExecuteSellOrder (qc : Platform) (lots : Q) : M Self unit :=
  (self <- get ;;
   line <- lift (Py.num (sellLine self)) ;;
   let stop_price := line + Current_Value (atr qc) in
   let take_profit := line - (Current_Value (atr qc) * r2r self) in
   send (MarketOrder (symbol self) (- lots)) ;;;
   if OrderStatus_eqb (MarketOrder_Status qc (symbol self) (- lots)) Filled then
     modify (fun self => set_openSellLots (openSellLots self + lots) self) ;;;
     send (StopMarketOrder (symbol self) lots stop_price) ;;;
     send (LimitOrder (symbol self) lots take_profit)
   else ret tt)%py.

Definition IsExcessiveDrawdown (qc : Platform) (self : Self) : result bool :=
  total_unrealized_profit_pct <--
    Py.div (TotalUnrealizedProfit (portfolio qc))
           (TotalPortfolioValue (portfolio qc)) ;;
  Ok (Py.lt total_unrealized_profit_pct (- maxDrawdown self)).

Definition IsVolatilityHigh (qc : Platform) : bool :=
  Py.gt (Current_Value (atr qc)) (Current_Value (atr qc) * 1.5).

(** [a and not b() and not c()], evaluated left to right, stopping early. *)
Definition CanTrade (qc : Platform) (self : Self) : result bool :=
  if Py.gt (MarginRemaining (portfolio qc))
           (TotalPortfolioValue (portfolio qc) * 0.25)
  then
    drawdown <-- IsExcessiveDrawdown qc self ;;
    if negb drawdown then Ok (negb (IsVolatilityHigh qc)) else Ok false
  else Ok false.

Definition UpdateRangeLevels (qc : Platform) : M Self unit :=
  (if negb (forallb (fun b => b)
              [IsReady (high qc); IsReady (low qc); IsReady (atr qc)])
   then ret tt
   else
     self <- get ;;
     if is_None (buyLine self) || is_None (sellLine self) then
       modify (set_buyLine (Some (Current_Value (low qc)))) ;;;
       modify (set_sellLine (Some (Current_Value (high qc)))) ;;;
       let range_buffer := Current_Value (atr qc) * 0.5 in
       b <- call (fun self => Py.num (buyLine self)) ;;
       modify (set_buyLine (Some (b - range_buffer))) ;;;
       s <- call (fun self => Py.num (sellLine self)) ;;
       modify (set_sellLine (Some (s + range_buffer))) ;;;
       b <- call (fun self => Py.num (buyLine self)) ;;
       send (Plot "Range Levels" "Support" b) ;;;
       s <- call (fun self => Py.num (sellLine self)) ;;
       send (Plot "Range Levels" "Resistance" s)
     else ret tt)%py.

Definition OnData (qc : Platform) (data : Slice) : M Self unit :=
  (self <- get ;;
   if IsWarmingUp qc || negb (ContainsKey data (symbol self)) then ret tt
   else
     UpdateRangeLevels qc ;;;
     self <- get ;;
     match buyLine self, sellLine self with
     | Some buy, Some sell =>
       current_price <- lift (Close data (symbol self)) ;;
       drawdown <- call (IsExcessiveDrawdown qc) ;;
       if drawdown || IsVolatilityHigh qc then LiquidatePositions
       else if Py.le current_price buy then
         buy_lots <- call (CalculateBuyLots qc) ;;
         if Py.gt buy_lots 0 then
           ok <- call (CanTrade qc) ;;
           if ok then ExecuteBuyOrder qc buy_lots else ret tt
         else ret tt
       else if Py.ge current_price sell then
         sell_lots <- call (CalculateSellLots qc) ;;
         if Py.gt sell_lots 0 then
           ok <- call (CanTrade qc) ;;
           if ok then ExecuteSellOrder qc sell_lots else ret tt
         else ret tt
       else ret tt
     | _, _ => ret tt
     end)%py.

(** The calls that touch the exposure counters from outside the tick handler:
    a fill notification from the platform, or a liquidation. *)
Inductive Transition : Type :=
| Fill (qc : Platform) (orderEvent : OrderEvent)
| Liquidation.

Definition is_Liquidation (t : Transition) : bool :=
  match t with
  | Liquidation => true
  | Fill _ _ => false
  end.

Definition step (t : Transition) : M Self unit :=
  match t with
  | Fill qc orderEvent => OnOrderEvent qc orderEvent
  | Liquidation => LiquidatePositions
  end.

Fixpoint run (ts : list Transition) : M Self unit :=
  match ts with
  | [] => ret tt
  | t :: rest => (step t ;;; run rest)%py
  end.

(** The platform hands the handler only events of orders it knows. *)
Definition known (t : Transition) : Prop :=
  match t with
  | Fill qc orderEvent => GetOrderById qc (OrderId orderEvent) <> None
  | Liquidation => True
  end.


End PipsAndLotsExample.

(** ** [TrailingStopWalkthroughExample.py]: the enhanced variant *)

Module TrailingStopWalkthroughExample.

Record RangeBoundHedgingAlgorithm : Type := {
  symbol : string;
  r2r : Q;
  buyLine : option Q;
  sellLine : option Q;
  maxDrawdown : Q;
  positionSize : Q;
  openBuyLots : Q;
  openSellLots : Q;
  range_bound_threshold : Q;
  range_period : Z;
  last_range_update : Z;
  range_update_interval : Z;
  sent : list Request
}.

Definition Self : Type := RangeBoundHedgingAlgorithm.

(** [datetime.min] is the origin of [Time]; [timedelta(hours=4)] in
    microseconds. *)
Definition Initialize : Self :=
  {| symbol := "EURUSD";
     r2r := 2;
     buyLine := None;
     sellLine := None;
     maxDrawdown := 0.02;
     positionSize := 0.1;
     openBuyLots := 0;
     openSellLots := 0;
     range_bound_threshold := 0.8;
     range_period := 20;
     last_range_update := 0;
     range_update_interval := 4 * 3600 * 1000000;
     sent := [] |}.

Definition Initialize_RiskManagement : RangeBoundRiskManagement.t :=
  RangeBoundRiskManagement.__init__ (maxDrawdown Initialize).

(** [self.SetCash(100000)] *)
Definition Initialize_Cash : Q := 100000.

Definition set_buyLine (v : option Q) (self : Self) : Self :=
  {| symbol := symbol self; r2r := r2r self;
     buyLine := v; sellLine := sellLine self;
     maxDrawdown := maxDrawdown self; positionSize := positionSize self;
     openBuyLots := openBuyLots self; openSellLots := openSellLots self;
     range_bound_threshold := range_bound_threshold self;
     range_period := range_period self;
     last_range_update := last_range_update self;
     range_update_interval := range_update_interval self;
     sent := sent self |}.

Definition set_sellLine (v : option Q) (self : Self) : Self :=
  {| symbol := symbol self; r2r := r2r self;
     buyLine := buyLine self; sellLine := v;
     maxDrawdown := maxDrawdown self; positionSize := positionSize self;
     openBuyLots := openBuyLots self; openSellLots := openSellLots self;
     range_bound_threshold := range_bound_threshold self;
     range_period := range_period self;
     last_range_update := last_range_update self;
     range_update_interval := range_update_interval self;
     sent := sent self |}.

Definition set_openBuyLots (v : Q) (self : Self) : Self :=
  {| symbol := symbol self; r2r := r2r self;
     buyLine := buyLine self; sellLine := sellLine self;
     maxDrawdown := maxDrawdown self; positionSize := positionSize self;
     openBuyLots := v; openSellLots := openSellLots self;
     range_bound_threshold := range_bound_threshold self;
     range_period := range_period self;
     last_range_update := last_range_update self;
     range_update_interval := range_update_interval self;
     sent := sent self |}.

Definition set_openSellLots (v : Q) (self : Self) : Self :=
  {| symbol := symbol self; r2r := r2r self;
     buyLine := buyLine self; sellLine := sellLine self;
     maxDrawdown := maxDrawdown self; positionSize := positionSize self;
     openBuyLots := openBuyLots self; openSellLots := v;
     range_bound_threshold := range_bound_threshold self;
     range_period := range_period self;
     last_range_update := last_range_update self;
     range_update_interval := range_update_interval self;
     sent := sent self |}.

Definition set_positionSize (v : Q) (self : Self) : Self :=
  {| symbol := symbol self; r2r := r2r self;
     buyLine := buyLine self; sellLine := sellLine self;
     maxDrawdown := maxDrawdown self; positionSize := v;
     openBuyLots := openBuyLots self; openSellLots := openSellLots self;
     range_bound_threshold := range_bound_threshold self;
     range_period := range_period self;
     last_range_update := last_range_update self;
     range_update_interval := range_update_interval self;
     sent := sent self |}.

Definition set_last_range_update (v : Z) (self : Self) : Self :=
  {| symbol := symbol self; r2r := r2r self;
     buyLine := buyLine self; sellLine := sellLine self;
     maxDrawdown := maxDrawdown self; positionSize := positionSize self;
     openBuyLots := openBuyLots self; openSellLots := openSellLots self;
     range_bound_threshold := range_bound_threshold self;
     range_period := range_period self;
     last_range_update := v;
     range_update_interval := range_update_interval self;
     sent := sent self |}.

Definition send (r : Request) : M Self unit :=
  modify (fun self =>
    {| symbol := symbol self; r2r := r2r self;
       buyLine := buyLine self; sellLine := sellLine self;
       maxDrawdown := maxDrawdown self; positionSize := positionSize self;
       openBuyLots := openBuyLots self; openSellLots := openSellLots self;
       range_bound_threshold := range_bound_threshold self;
       range_period := range_period self;
       last_range_update := last_range_update self;
       range_update_interval := range_update_interval self;
       sent := sent self ++ [r] |}).

Definition IsRangeBound (qc : Platform) (self : Self) : result bool :=
  if negb (bb_IsReady (bb qc)) then Ok false
  else
    let price := Securities_Price qc (symbol self) in
    let upper_band := UpperBand (bb qc) in
    let lower_band := LowerBand (bb qc) in
    let middle_band := MiddleBand (bb qc) in
    let band_difference := upper_band - lower_band in
    if Py.lt (Py.abs band_difference) 0.00001 then Ok false
    else
      band_width <-- Py.div band_difference middle_band ;;
      let is_range := Py.lt 0.0005 band_width && Py.lt band_width 0.01 in
      price_position <-- Py.div (price - lower_band) band_difference ;;
      let within_bands :=
        Py.lt 0.1 price_position && Py.lt price_position 0.9 in
      let is_flat :=
        Py.lt (Py.abs (Current_Value (sma qc) - middle_band))
              (Current_Value (atr qc) * 0.5) in
      Ok (is_range && within_bands && is_flat).

Definition OnOrderEvent (qc : Platform) (orderEvent : OrderEvent) : M Self unit :=
  (if OrderStatus_eqb (Status orderEvent) Filled then
     match GetOrderById qc (OrderId orderEvent) with
     | None => raise AttributeError
     | Some order =>
         if OrderDirection_eqb (Direction order) Buy then
           modify (fun self =>
             set_openBuyLots (openBuyLots self + Py.abs (Quantity order)) self)
         else
           modify (fun self =>
             set_openSellLots (openSellLots self + Py.abs (Quantity order)) self)
     end
   else ret tt)%py.

Definition LiquidatePositions : M Self unit :=
  (send Liquidate ;;;
   modify (set_openBuyLots 0) ;;;
   modify (set_openSellLots 0))%py.

Definition CalculateBuyLots (qc : Platform) (self : Self) : result Q :=
  let base_size := TotalPortfolioValue (portfolio qc) * 0.02 in
  if Py.eq (openBuyLots self) 0 && Py.eq (openSellLots self) 0 then
    Ok base_size
  else
    ratio <-- Py.div (r2r self + 1) (r2r self) ;;
    let base_lots := (ratio * openSellLots self - openBuyLots self) * 1.1 in
    Ok (Py.min base_lots base_size).

Definition CalculateSellLots (qc : Platform) (self : Self) : result Q :=
  let base_size := TotalPortfolioValue (portfolio qc) * 0.02 in
  if Py.eq (openBuyLots self) 0 && Py.eq (openSellLots self) 0 then
    Ok base_size
  else
    ratio <-- Py.div (r2r self + 1) (r2r self) ;;
    let base_lots := (ratio * openBuyLots self - openSellLots self) * 1.1 in
    Ok (Py.min base_lots base_size).

Definition ExecuteBuyOrder (qc : Platform) (lots : Q) : M Self unit :=
  (self <- get ;;
   line <- lift (Py.num (buyLine self)) ;;
   let stop_price := line - Current_Value (atr qc) in
   let take_profit := line + (Current_Value (atr qc) * r2r self) in
   send (MarketOrder (symbol self) lots) ;;;
   if OrderStatus_eqb (MarketOrder_Status qc (symbol self) lots) Filled then
     modify (fun self => set_openBuyLots (openBuyLots self + lots) self) ;;;
     send (StopMarketOrder (symbol self) (- lots) stop_price) ;;;
     send (LimitOrder (symbol self) (- lots) take_profit)
   else ret tt)%py.

Definition ExecuteSellOrder (qc : Platform) (lots : Q) : M Self unit :=
  (self <- get ;;
   line <- lift (Py.num (sellLine self)) ;;
   let stop_price := line + Current_Value (atr qc) in
   let take_profit := line - (Current_Value (atr qc) * r2r self) in
   send (MarketOrder (symbol self) (- lots)) ;;;
   if OrderStatus_eqb (MarketOrder_Status qc (symbol self) (- lots)) Filled then
     modify (fun self => set_openSellLots (openSellLots self + lots) self) ;;;
     send (StopMarketOrder (symbol self) lots stop_price) ;;;
     send (LimitOrder (symbol self) lots take_profit)
   else ret tt)%py.

Definition IsExcessiveDrawdown (qc : Platform) (self : Self) : result bool :=
  total_unrealized_profit_pct <--
    Py.div (TotalUnrealizedProfit (portfolio qc))
           (TotalPortfolioValue (portfolio qc)) ;;
  Ok (Py.lt total_unrealized_profit_pct (- maxDrawdown self)).

(** [[x for x in self.atr.Window if x is not None]], each kept as its
    [Value]. *)
Fixpoint window_values (window : list (option Q)) : list Q :=
  match window with
  | [] => []
  | Some x :: rest => x :: window_values rest
  | None :: rest => window_values rest
  end.

(** [sum(...)]: from [0], left to right. *)
Definition sum (xs : list Q) : Q := fold_left Qplus xs 0.

Definition IsVolatilityHigh (qc : Platform) : bool :=
  if negb (IsReady (atr qc)) then false
  else
    Py.try_except
      (let current_atr := Current_Value (atr qc) in
       let values := window_values (atr_Window qc) in
       if (List.length values <? 20)%nat then Ok false
       else
         avg_atr <-- Py.div (sum (firstn 20 values)) 20 ;;
         Ok (Py.gt current_atr (avg_atr * 1.2)))
      (fun _ => false).

Definition CanTrade (qc : Platform) (self : Self) : result bool :=
  if Py.gt (MarginRemaining (portfolio qc))
           (TotalPortfolioValue (portfolio qc) * 0.4)
  then
    drawdown <-- IsExcessiveDrawdown qc self ;;
    if negb drawdown then
      if negb (IsVolatilityHigh qc) then
        range_bound <-- IsRangeBound qc self ;;
        if range_bound then Ok (OpenOrders qc <? 6)%nat else Ok false
      else Ok false
    else Ok false
  else Ok false.

Definition UpdateRangeLevels (qc : Platform) : M Self unit :=
  (if negb (forallb (fun b => b)
              [IsReady (high qc); IsReady (low qc); IsReady (atr qc)])
   then ret tt
   else
     let current_time := Time qc in
     self <- get ;;
     if is_None (buyLine self) || is_None (sellLine self)
        || (range_update_interval self
              <=? current_time - last_range_update self)%Z
     then
       modify (set_buyLine (Some (Current_Value (low qc)))) ;;;
       modify (set_sellLine (Some (Current_Value (high qc)))) ;;;
       let range_buffer := Current_Value (atr qc) * 1.0 in
       b <- call (fun self => Py.num (buyLine self)) ;;
       modify (set_buyLine (Some (b - range_buffer))) ;;;
       s <- call (fun self => Py.num (sellLine self)) ;;
       modify (set_sellLine (Some (s + range_buffer))) ;;;
       modify (set_last_range_update current_time) ;;;
       b <- call (fun self => Py.num (buyLine self)) ;;
       send (Plot "Range Levels" "Support" b) ;;;
       s <- call (fun self => Py.num (sellLine self)) ;;
       send (Plot "Range Levels" "Resistance" s)
     else ret tt)%py.

Definition OnData (qc : Platform) (data : Slice) : M Self unit :=
  (self <- get ;;
   if IsWarmingUp qc || negb (ContainsKey data (symbol self)) then ret tt
   else
     range_bound <- call (IsRangeBound qc) ;;
     if negb range_bound then ret tt
     else
       UpdateRangeLevels qc ;;;
       self <- get ;;
       match buyLine self, sellLine self with
       | Some buy, Some sell =>
         current_price <- lift (Close data (symbol self)) ;;
         drawdown <- call (IsExcessiveDrawdown qc) ;;
         if drawdown || IsVolatilityHigh qc then LiquidatePositions
         else if Py.le current_price buy then
           buy_lots <- call (CalculateBuyLots qc) ;;
           if Py.gt buy_lots 0 then
             ok <- call (CanTrade qc) ;;
             if ok then ExecuteBuyOrder qc buy_lots else ret tt
           else ret tt
         else if Py.ge current_price sell then
           sell_lots <- call (CalculateSellLots qc) ;;
           if Py.gt sell_lots 0 then
             ok <- call (CanTrade qc) ;;
             if ok then ExecuteSellOrder qc sell_lots else ret tt
           else ret tt
         else ret tt
       | _, _ => ret tt
       end)%py.

(** The calls that touch the exposure counters from outside the tick handler:
    a fill notification from the platform, or a liquidation. *)
Inductive Transition : Type :=
| Fill (qc : Platform) (orderEvent : OrderEvent)
| Liquidation.

Definition is_Liquidation (t : Transition) : bool :=
  match t with
  | Liquidation => true
  | Fill _ _ => false
  end.

Definition step (t : Transition) : M Self unit :=
  match t with
  | Fill qc orderEvent => OnOrderEvent qc orderEvent
  | Liquidation => LiquidatePositions
  end.

Fixpoint run (ts : list Transition) : M Self unit :=
  match ts with
  | [] => ret tt
  | t :: rest => (step t ;;; run rest)%py
  end.

(** The platform hands the handler only events of orders it knows. *)
Definition known (t : Transition) : Prop :=
  match t with
  | Fill qc orderEvent => GetOrderById qc (OrderId orderEvent) <> None
  | Liquidation => True
  end.

(** [s2] is [s1] but for the value of [positionSize]. *)
Definition differ_only_in_positionSize (s1 s2 : Self) : Prop :=
  s2 = set_positionSize (positionSize s2) s1.


End TrailingStopWalkthroughExample.

Module Basic := PipsAndLotsExample.
Module Enhanced := TrailingStopWalkthroughExample.
Module Risk := RangeBoundRiskManagement.

(** ** Concrete platforms and objects used in the examples *)

Module Scenario.

Definition no_bands : BollingerBands :=
  {| bb_IsReady := false; UpperBand := 0; MiddleBand := 0; LowerBand := 0 |}.

Definition unready : Indicator := {| IsReady := false; Current_Value := 0 |}.

Definition ready (v : Q) : Indicator := {| IsReady := true; Current_Value := v |}.

(** A platform with the given account, range indicators and Bollinger bands,
    quoting [price], answering market orders with [status], and knowing the
    order [order] under every id. *)
Definition platform (value profit margin : Q) (hi lo range : Indicator)
    (bands : BollingerBands) (average price : Q) (status : OrderStatus)
    (order : option Order) (now : Z) : Platform :=
  {| IsWarmingUp := false;
     Time := now;
     portfolio := {| TotalPortfolioValue := value;
                     TotalUnrealizedProfit := profit;
                     MarginRemaining := margin |};
     Securities_Keys := ["EURUSD"%string];
     Securities_Price := fun _ => price;
     sma := ready average;
     atr := range;
     atr_Window := [];
     high := hi;
     low := lo;
     bb := bands;
     OpenOrders := 0;
     MarketOrder_Status := fun _ _ => status;
     GetOrderById := fun _ => order |}.

(** An account of [value] with unrealized profit [profit], nothing else
    of note. *)
Definition account (value profit : Q) : Platform :=
  platform value profit value unready unready unready no_bands 0 0
           Invalid None 0.

(** The overlay after a breach: the latch is set. *)
Definition latched : Risk.t :=
  Risk.set_exit_triggered true Basic.Initialize_RiskManagement.

Definition proposed : list PortfolioTarget :=
  [{| target_Symbol := "EURUSD"; target_Quantity := 5000 |}].

(** A market buy of 10,000 lots and a market sell of 10,000 lots, as the
    platform records them. *)
Definition buy_of_10000 : Order := {| Direction := Buy; Quantity := 10000 |}.

Definition sell_of_10000 : Order := {| Direction := Sell; Quantity := -10000 |}.

(** A platform that knows [order] under every id and fills market orders. *)
Definition knowing (order : Order) : Platform :=
  platform 1000000 0 1000000 unready unready unready no_bands 0 0
           Filled (Some order) 0.

Definition filled : OrderEvent := {| Status := Filled; OrderId := 1 |}.

(** Scenario B: 10,000 lots bought so far, nothing sold. *)
Definition basic_long_10000 : Basic.Self :=
  Basic.set_openBuyLots 10000 Basic.Initialize.

Definition enhanced_long_10000 : Enhanced.Self :=
  Enhanced.set_openBuyLots 10000 Enhanced.Initialize.

(** A buy fill followed by a sell fill. *)
Definition two_fills : list Basic.Transition :=
  [Basic.Fill (knowing buy_of_10000) filled;
   Basic.Fill (knowing sell_of_10000) filled].

(** Scenario C: rolling low 1.1000, rolling high 1.1050, ATR 0.0010, all
    ready. *)
Definition ranging : Platform :=
  platform 1000000 0 1000000 (ready 1.1050) (ready 1.1000) (ready 0.0010)
           no_bands 0 0 Invalid None 0.


(** A platform in range (Scenario C) whose market orders come back filled,
    and the basic object once its lines are set from it. *)
Definition filling : Platform :=
  platform 1000000 0 1000000 (ready 1.1050) (ready 1.1000) (ready 0.0010)
           no_bands 0 0 Filled None 0.

Definition basic_ranged : Basic.Self :=
  Basic.set_sellLine (Some 1.1055) (Basic.set_buyLine (Some 1.0995)
    Basic.Initialize).

(** The enhanced object with another [positionSize]. *)
Definition enhanced_half : Enhanced.Self :=
  Enhanced.set_positionSize 0.5 Enhanced.Initialize.

(** A slice holding one EURUSD bar with the given close. *)
Definition bar (close : Q) : Slice :=
  fun symbol => if String.eqb symbol "EURUSD" then Some close else None.

(** A quiet market around 1 whose market orders fill: bands 0.001 wide,
    rolling range 0.9990 to 1.0010, ATR 0.0010, an account of 100,000. *)
Definition quiet_market : Platform :=
  platform 100000 0 100000 (ready 1.0010) (ready 0.9990) (ready 0.0010)
           {| bb_IsReady := true;
              UpperBand := 1 + 0.001 / 2;
              MiddleBand := 1;
              LowerBand := 1 - 0.001 / 2 |}
           1 1 Filled None 0.

(** The platform with another ATR window. *)
Definition with_atr_Window (window : list (option Q)) (qc : Platform)
  : Platform :=
  {| IsWarmingUp := IsWarmingUp qc;
     Time := Time qc;
     portfolio := portfolio qc;
     Securities_Keys := Securities_Keys qc;
     Securities_Price := Securities_Price qc;
     sma := sma qc;
     atr := atr qc;
     atr_Window := window;
     high := high qc;
     low := low qc;
     bb := bb qc;
     OpenOrders := OpenOrders qc;
     MarketOrder_Status := MarketOrder_Status qc;
     GetOrderById := GetOrderById qc |}.

(** Twenty readings of 0.0010 with a gap among them; a calm window. *)
Definition calm_window : list (option Q) :=
  None :: repeat (Some 0.0010) 20.

(** Nineteen readings and a gap: one short of what the check needs. *)
Definition short_window : list (option Q) :=
  None :: repeat (Some 0.0010) 19.

End Scenario.

(** ** The calls the platform makes on the algorithm object

    After [Initialize] the platform drives the object through two entry
    points only: [OnData] on every slice and [OnOrderEvent] on every order
    event.  [LiquidatePositions], the sizing and the order methods are reached
    from [OnData]. *)

(** The support is not above the resistance, once both are set. *)
Definition lines_ordered (buy sell : option Q) : Prop :=
  match buy, sell with
  | Some b, Some s => b <= s
  | _, _ => True
  end.

(** Both lines are set or neither is. *)
Definition lines_paired (buy sell : option Q) : Prop :=
  is_None buy = is_None sell.

(** Indicator readings as the platform computes them: the rolling low is not
    above the rolling high and the ATR is not negative. *)
Definition sound_range (qc : Platform) : Prop :=
  Current_Value (low qc) <= Current_Value (high qc)
  /\ 0 <= Current_Value (atr qc).

Module BasicCalls.

Import PipsAndLotsExample.

Inductive Call : Type :=
| Data (qc : Platform) (data : Slice)
| Notice (qc : Platform) (orderEvent : OrderEvent).

Definition handle (c : Call) : M Self unit :=
  match c with
  | Data qc data => OnData qc data
  | Notice qc orderEvent => OnOrderEvent qc orderEvent
  end.

Fixpoint serve (cs : list Call) : M Self unit :=
  match cs with
  | [] => ret tt
  | c :: rest => (handle c ;;; serve rest)%py
  end.

Definition sound (c : Call) : Prop :=
  match c with
  | Data qc _ => sound_range qc
  | Notice _ _ => True
  end.

(** The attributes no handler assigns after [Initialize]. *)
Definition same_configuration (s s' : Self) : Prop :=
  symbol s' = symbol s
  /\ r2r s' = r2r s
  /\ maxDrawdown s' = maxDrawdown s
  /\ positionSize s' = positionSize s.

End BasicCalls.

Module EnhancedCalls.

Import TrailingStopWalkthroughExample.

Inductive Call : Type :=
| Data (qc : Platform) (data : Slice)
| Notice (qc : Platform) (orderEvent : OrderEvent).

Definition handle (c : Call) : M Self unit :=
  match c with
  | Data qc data => OnData qc data
  | Notice qc orderEvent => OnOrderEvent qc orderEvent
  end.

Fixpoint serve (cs : list Call) : M Self unit :=
  match cs with
  | [] => ret tt
  | c :: rest => (handle c ;;; serve rest)%py
  end.

Definition sound (c : Call) : Prop :=
  match c with
  | Data qc _ => sound_range qc
  | Notice _ _ => True
  end.

(** The attributes no handler assigns after [Initialize]. *)
Definition same_configuration (s s' : Self) : Prop :=
  symbol s' = symbol s
  /\ r2r s' = r2r s
  /\ maxDrawdown s' = maxDrawdown s
  /\ positionSize s' = positionSize s
  /\ range_bound_threshold s' = range_bound_threshold s
  /\ range_period s' = range_period s
  /\ range_update_interval s' = range_update_interval s.

End EnhancedCalls.

(** What a method call hands back, the object left aside. *)
Definition answer {S A : Type} (r : result (A * S)) : result A :=
  match r with
  | Ok (a, _) => Ok a
  | Raise e => Raise e
  end.

(** The requests of one entry: the market order alone, or the market order
    followed by its stop and its limit, both of the opposite quantity. *)
Definition entry_requests (symbol : string) (quantity : Q)
    (requests : list Request) : Prop :=
  requests = [MarketOrder symbol quantity]
  \/ exists opposite stop_price take_profit,
       opposite == - quantity
       /\ requests = [MarketOrder symbol quantity;
                      StopMarketOrder symbol opposite stop_price;
                      LimitOrder symbol opposite take_profit].

(** What one tick may ask of the platform after its plots: nothing, a
    liquidation, or one entry whose quantity is not zero and at most [cap]
    in absolute value. *)
Definition tick_action (symbol : string) (cap : Q) (requests : list Request)
  : Prop :=
  requests = []
  \/ requests = [Liquidate]
  \/ exists quantity,
       0 < Qabs quantity <= cap /\ entry_requests symbol quantity requests.

(** The plots of one tick: none, or the support and the resistance. *)
Definition tick_plots (requests : list Request) : Prop :=
  requests = []
  \/ exists support resistance,
       requests = [Plot "Range Levels" "Support" support;
                   Plot "Range Levels" "Resistance" resistance].

(** ** Sessions used in the examples *)

Module Replay.

(** Basic variant: a tick below the support, the fill notice of the buy it
    places, and a tick above the resistance. *)
Definition basic_calls : list BasicCalls.Call :=
  [BasicCalls.Data Scenario.filling (Scenario.bar 1.0990);
   BasicCalls.Notice (Scenario.knowing Scenario.buy_of_10000) Scenario.filled;
   BasicCalls.Data Scenario.filling (Scenario.bar 1.1060)].

(** Enhanced variant: the same in the quiet market. *)
Definition enhanced_calls : list EnhancedCalls.Call :=
  [EnhancedCalls.Data Scenario.quiet_market (Scenario.bar 0.9975);
   EnhancedCalls.Notice (Scenario.knowing Scenario.buy_of_10000)
                        Scenario.filled;
   EnhancedCalls.Data Scenario.quiet_market (Scenario.bar 1.0025)].

(** Scenario C with an unrealized loss of 25,000 on 1,000,000; the Bollinger
    bands are not ready. *)
Definition losing : Platform :=
  Scenario.platform 1000000 (-25000) 1000000
    (Scenario.ready 1.1050) (Scenario.ready 1.1000) (Scenario.ready 0.0010)
    Scenario.no_bands 0 0 Filled None 0.

(** The quiet market on an account that has lost 3,000 of 100,000. *)
Definition quiet_losing : Platform :=
  Scenario.platform 100000 (-3000) 100000
    (Scenario.ready 1.0010) (Scenario.ready 0.9990) (Scenario.ready 0.0010)
    (bb Scenario.quiet_market) 1 1 Filled None 0.

(** Scenario C on an account of value zero. *)
Definition emptied : Platform :=
  Scenario.platform 0 0 0
    (Scenario.ready 1.1050) (Scenario.ready 1.1000) (Scenario.ready 0.0010)
    Scenario.no_bands 0 0 Filled None 0.

(** The platform before its indicators are ready, on the same empty
    account. *)
Definition early : Platform := Scenario.account 0 0.

(** The enhanced object with its lines set around the quiet market. *)
Definition enhanced_ranged : Enhanced.Self :=
  Enhanced.set_sellLine (Some 1.0020) (Enhanced.set_buyLine (Some 0.9980)
    Enhanced.Initialize).

(** The quiet market five minutes (in microseconds) after [Time = 0]. *)
Definition quiet_later : Platform :=
  Scenario.platform 100000 0 100000
    (Scenario.ready 1.0030) (Scenario.ready 0.9970) (Scenario.ready 0.0020)
    (bb Scenario.quiet_market) 1 1 Filled None 300000000.

(** The basic object with its lines set and 10,000 lots bought. *)
Definition basic_exposed : Basic.Self :=
  Basic.set_openBuyLots 10000 Scenario.basic_ranged.

(** An order event that is not a complete fill. *)
Definition partial : OrderEvent :=
  {| Status := PartiallyFilled; OrderId := 1 |}.

End Replay.

(** * Properties *)

(** ** Python comparisons and [min] against the order of [Q] *)

Lemma lt_true_iff (x y : Q) : Py.lt x y = true <-> x < y.
Proof.
  unfold Py.lt. rewrite negb_true_iff.
  destruct (Qle_bool y x) eqn:E.
  - apply Qle_bool_iff in E. split; [discriminate | intro; lra].
  - split; [intros _ | reflexivity].
    destruct (Qlt_le_dec x y) as [H | H]; [exact H |].
    apply Qle_bool_iff in H. congruence.
Qed.

Lemma lt_false_iff (x y : Q) : Py.lt x y = false <-> y <= x.
Proof.
  unfold Py.lt. rewrite negb_false_iff. apply Qle_bool_iff.
Qed.

Lemma le_true_iff (x y : Q) : Py.le x y = true <-> x <= y.
Proof. apply Qle_bool_iff. Qed.

Lemma ge_true_iff (x y : Q) : Py.ge x y = true <-> y <= x.
Proof. apply Qle_bool_iff. Qed.

Lemma gt_true_iff (x y : Q) : Py.gt x y = true <-> y < x.
Proof. apply lt_true_iff. Qed.

Lemma gt_false_iff (x y : Q) : Py.gt x y = false <-> x <= y.
Proof. apply lt_false_iff. Qed.

Lemma eq_true_iff (x y : Q) : Py.eq x y = true <-> x == y.
Proof. apply Qeq_bool_iff. Qed.

Lemma eq_false_iff (x y : Q) : Py.eq x y = false <-> ~ x == y.
Proof.
  unfold Py.eq. split.
  - apply Qeq_bool_neq.
  - intro H. destruct (Qeq_bool x y) eqn:E; [| reflexivity].
    apply Qeq_bool_iff in E. contradiction.
Qed.

Lemma div_nonzero (x y : Q) : ~ y == 0 -> Py.div x y = Ok (x / y).
Proof.
  intro H. unfold Py.div. apply eq_false_iff in H. unfold Py.eq in H.
  now rewrite H.
Qed.

Lemma div_zero (x y : Q) : y == 0 -> Py.div x y = Raise ZeroDivisionError.
Proof.
  intro H. unfold Py.div. apply Qeq_bool_iff in H. now rewrite H.
Qed.

Lemma min_Qmin (a b : Q) : Py.min a b == Qmin a b.
Proof.
  unfold Py.min. destruct (Py.lt b a) eqn:E.
  - apply lt_true_iff in E. symmetry. apply Q.min_r. lra.
  - apply lt_false_iff in E. symmetry. now apply Q.min_l.
Qed.

(** ** The portfolio-level overlay *)

Section Overlay.

Variable algorithm : Platform.
Variable targets : list PortfolioTarget.
Variable self : Risk.t.

Let value := TotalPortfolioValue (portfolio algorithm).
Let ratio := TotalUnrealizedProfit (portfolio algorithm) / value.

Hypothesis funded : ~ value == 0.


(** Between the threshold and zero the object is left as it is, latch
    included, and the targets of the platform are handed back. *)
Lemma ManageRisk_band :
  - Risk.maximum_drawdown_percent self <= ratio < 0 ->
  Risk.ManageRisk algorithm targets self = Ok (targets, self).
Proof.
  intros [Hlo Hhi]. unfold Risk.ManageRisk, bind, lift, get.
  rewrite (div_nonzero _ _ funded). fold value. fold ratio.
  apply lt_false_iff in Hlo. rewrite Hlo.
  assert (E : Py.ge ratio 0 = false).
  { destruct (Py.ge ratio 0) eqn:E; [| reflexivity].
    apply ge_true_iff in E. lra. }
  rewrite E, andb_false_r. reflexivity.
Qed.

(** At a non-negative ratio a set latch is cleared and the targets pass. *)
Lemma ManageRisk_recovered :
  Risk.exit_triggered self = true ->
  0 <= ratio ->
  0 <= Risk.maximum_drawdown_percent self ->
  Risk.ManageRisk algorithm targets self
  = Ok (targets, Risk.set_exit_triggered false self).
Proof.
  intros Hlatch Hpos Hthr. unfold Risk.ManageRisk, bind, lift, get.
  rewrite (div_nonzero _ _ funded). fold value. fold ratio.
  assert (E : Py.lt ratio (- Risk.maximum_drawdown_percent self) = false).
  { apply lt_false_iff. lra. }
  rewrite E, Hlatch. apply ge_true_iff in Hpos. rewrite Hpos. reflexivity.
Qed.

End Overlay.

(** C1 (the latch, at a concrete input).  The overlay has tripped earlier
    ([exit_triggered] is set, threshold 0.02); the account of 1,000,000 now
    shows an unrealized loss of 10,000, a ratio of -0.01 inside
    [-0.02, 0).  [ManageRisk] returns the targets the platform proposed
    (5000 EURUSD), not the flatten targets, and leaves the latch set:
    nothing in [ManageRisk] reads [exit_triggered] when it builds its
    result. *)
Theorem ManageRisk_latched_inside_band_returns_proposed_targets :
  let algorithm := Scenario.account 1000000 (-10000) in
  let ratio := TotalUnrealizedProfit (portfolio algorithm)
               / TotalPortfolioValue (portfolio algorithm) in
  Risk.exit_triggered Scenario.latched = true
  /\ - Risk.maximum_drawdown_percent Scenario.latched <= ratio < 0
  /\ Risk.ManageRisk algorithm Scenario.proposed Scenario.latched
     = Ok (Scenario.proposed, Scenario.latched)
  /\ Scenario.proposed <> Risk.flatten algorithm.
Proof.
  cbv zeta. split; [| split; [split |]; [| | split]].
  - reflexivity.
  - vm_compute. discriminate.
  - vm_compute. reflexivity.
  - vm_compute. reflexivity.
  - vm_compute. discriminate.
Qed.

(** What the latch does do: after a breach, the first call at a non-negative
    ratio clears it, and every call outside a breach hands the proposed
    targets back. *)
Lemma ManageRisk_latch_cycle (algorithm : Platform)
    (targets : list PortfolioTarget) (self : Risk.t) :
  let value := TotalPortfolioValue (portfolio algorithm) in
  let ratio := TotalUnrealizedProfit (portfolio algorithm) / value in
  ~ value == 0 ->
  0 <= Risk.maximum_drawdown_percent self ->
  Risk.exit_triggered self = true ->
  (- Risk.maximum_drawdown_percent self <= ratio < 0 ->
   Risk.ManageRisk algorithm targets self = Ok (targets, self))
  /\ (0 <= ratio ->
      exists self',
        Risk.ManageRisk algorithm targets self = Ok (targets, self')
        /\ Risk.exit_triggered self' = false).
Proof.
  intros value ratio Hv Hthr Hlatch. split.
  - intro H. now apply ManageRisk_band.
  - intro H. eexists. split.
    + now apply ManageRisk_recovered.
    + reflexivity.
Qed.

(** ** Exposure bookkeeping *)

Ltac run_method :=
  unfold Py.bind, Py.ret, Py.modify, Py.get, Py.lift, Py.call,
    Py.raise, Py.and_then in *.

Section BasicExposure.

Import PipsAndLotsExample.

Lemma Basic_LiquidatePositions_resets (self : Self) :
  exists self',
    LiquidatePositions self = Ok (tt, self')
    /\ openBuyLots self' = 0 /\ openSellLots self' = 0
    /\ sent self' = sent self ++ [Liquidate].
Proof.
  eexists. unfold LiquidatePositions, send. run_method.
  split; [reflexivity |]. simpl. auto.
Qed.

(** A fill of a known order adds the absolute quantity to the counter of the
    order's direction, [Buy] to the buy side and anything else to the sell
    side, and touches nothing else. *)
Lemma Basic_OnOrderEvent_filled (qc : Platform) (e : OrderEvent)
    (order : Order) (self : Self) :
  Status e = Filled ->
  GetOrderById qc (OrderId e) = Some order ->
  OnOrderEvent qc e self
  = Ok (tt,
        match Direction order with
        | Buy =>
            set_openBuyLots (openBuyLots self + Qabs (Quantity order)) self
        | _ =>
            set_openSellLots (openSellLots self + Qabs (Quantity order)) self
        end).
Proof.
  intros Hs Ho. unfold OnOrderEvent. rewrite Hs, Ho. simpl.
  destruct (Direction order); reflexivity.
Qed.

Lemma Basic_OnOrderEvent_not_filled (qc : Platform) (e : OrderEvent)
    (self : Self) :
  Status e <> Filled -> OnOrderEvent qc e self = Ok (tt, self).
Proof.
  intro Hs. unfold OnOrderEvent.
  destruct (Status e); try reflexivity. congruence.
Qed.

Lemma Basic_OnOrderEvent_grows (qc : Platform) (e : OrderEvent)
    (self self' : Self) :
  OnOrderEvent qc e self = Ok (tt, self') ->
  openBuyLots self <= openBuyLots self'
  /\ openSellLots self <= openSellLots self'.
Proof.
  unfold OnOrderEvent. run_method.
  destruct (OrderStatus_eqb (Status e) Filled).
  - destruct (GetOrderById qc (OrderId e)) as [order |]; [| discriminate].
    pose proof (Qabs_nonneg (Quantity order)) as Hq. unfold Py.abs.
    destruct (OrderDirection_eqb (Direction order) Buy);
      intro H; injection H as <-; simpl; split; lra.
  - intro H; injection H as <-. split; lra.
Qed.

Lemma Basic_OnOrderEvent_returns (qc : Platform) (e : OrderEvent) (self : Self) :
  GetOrderById qc (OrderId e) <> None ->
  exists self', OnOrderEvent qc e self = Ok (tt, self').
Proof.
  intro Hk. unfold OnOrderEvent. run_method.
  destruct (OrderStatus_eqb (Status e) Filled); [| eauto].
  destruct (GetOrderById qc (OrderId e)) as [order |]; [| congruence].
  destruct (OrderDirection_eqb (Direction order) Buy); eauto.
Qed.

Lemma Basic_run_app (pre post : list Transition) (self : Self) :
  run (pre ++ post) self
  = match run pre self with
    | Ok (_, mid) => run post mid
    | Raise e => Raise e
    end.
Proof.
  revert self. induction pre as [| t pre IH]; intro self; simpl.
  - reflexivity.
  - unfold Py.bind. destruct (step t self) as [[[] mid] | e]; [| reflexivity].
    apply IH.
Qed.

Lemma Basic_run_returns (ts : list Transition) (self : Self) :
  Forall known ts -> exists self', run ts self = Ok (tt, self').
Proof.
  intro H. revert self. induction H as [| t ts Ht _ IH]; intro self; simpl.
  - unfold Py.ret. eauto.
  - unfold Py.bind.
    assert (Hs : exists mid, step t self = Ok (tt, mid)).
    { destruct t as [qc e |]; simpl.
      - now apply Basic_OnOrderEvent_returns.
      - destruct (Basic_LiquidatePositions_resets self) as [m [E _]]. eauto. }
    destruct Hs as [mid ->]. apply IH.
Qed.

Lemma Basic_run_grows (ts : list Transition) (self self' : Self) :
  existsb is_Liquidation ts = false ->
  run ts self = Ok (tt, self') ->
  openBuyLots self <= openBuyLots self'
  /\ openSellLots self <= openSellLots self'.
Proof.
  revert self. induction ts as [| t ts IH]; intros self Hno; simpl.
  - unfold Py.ret. intro H; injection H as <-. split; lra.
  - simpl in Hno. apply orb_false_iff in Hno as [Ht Hts].
    unfold Py.bind. destruct (step t self) as [[[] mid] | e] eqn:E;
      [| discriminate].
    intro Hrun. destruct t as [qc ev |]; [| discriminate].
    simpl in E. apply Basic_OnOrderEvent_grows in E.
    destruct (IH mid Hts Hrun). split; lra.
Qed.

Lemma Basic_run_liquidated (pre : list Transition) (self self' : Self) :
  run (pre ++ [Liquidation]) self = Ok (tt, self') ->
  openBuyLots self' = 0 /\ openSellLots self' = 0.
Proof.
  rewrite Basic_run_app.
  destruct (run pre self) as [[[] mid] | e]; [| discriminate].
  simpl. unfold Py.bind.
  destruct (Basic_LiquidatePositions_resets mid) as [m [-> [Hb [Hs _]]]].
  unfold Py.ret. intro H; injection H as <-. auto.
Qed.

(** Every run of fills of known orders and liquidations returns; its counters
    have not decreased if it holds no liquidation, and are [(0, 0)] if it
    ends with one. *)
Lemma Basic_exposure_bookkeeping (ts : list Transition) (self : Self) :
  Forall known ts ->
  exists self',
    run ts self = Ok (tt, self')
    /\ (existsb is_Liquidation ts = false ->
        openBuyLots self <= openBuyLots self'
        /\ openSellLots self <= openSellLots self')
    /\ (forall pre, ts = pre ++ [Liquidation] ->
        openBuyLots self' = 0 /\ openSellLots self' = 0).
Proof.
  intro Hk. destruct (Basic_run_returns ts self Hk) as [self' E].
  exists self'. split; [exact E | split].
  - intro Hno. now apply (Basic_run_grows ts).
  - intros pre ->. now apply (Basic_run_liquidated pre self).
Qed.

End BasicExposure.

Section EnhancedExposure.

Import TrailingStopWalkthroughExample.

Lemma Enhanced_LiquidatePositions_resets (self : Self) :
  exists self',
    LiquidatePositions self = Ok (tt, self')
    /\ openBuyLots self' = 0 /\ openSellLots self' = 0
    /\ sent self' = sent self ++ [Liquidate].
Proof.
  eexists. unfold LiquidatePositions, send. run_method.
  split; [reflexivity |]. simpl. auto.
Qed.

(** A fill of a known order adds the absolute quantity to the counter of the
    order's direction, [Buy] to the buy side and anything else to the sell
    side, and touches nothing else. *)
Lemma Enhanced_OnOrderEvent_filled (qc : Platform) (e : OrderEvent)
    (order : Order) (self : Self) :
  Status e = Filled ->
  GetOrderById qc (OrderId e) = Some order ->
  OnOrderEvent qc e self
  = Ok (tt,
        match Direction order with
        | Buy =>
            set_openBuyLots (openBuyLots self + Qabs (Quantity order)) self
        | _ =>
            set_openSellLots (openSellLots self + Qabs (Quantity order)) self
        end).
Proof.
  intros Hs Ho. unfold OnOrderEvent. rewrite Hs, Ho. simpl.
  destruct (Direction order); reflexivity.
Qed.

Lemma Enhanced_OnOrderEvent_not_filled (qc : Platform) (e : OrderEvent)
    (self : Self) :
  Status e <> Filled -> OnOrderEvent qc e self = Ok (tt, self).
Proof.
  intro Hs. unfold OnOrderEvent.
  destruct (Status e); try reflexivity. congruence.
Qed.

Lemma Enhanced_OnOrderEvent_grows (qc : Platform) (e : OrderEvent)
    (self self' : Self) :
  OnOrderEvent qc e self = Ok (tt, self') ->
  openBuyLots self <= openBuyLots self'
  /\ openSellLots self <= openSellLots self'.
Proof.
  unfold OnOrderEvent. run_method.
  destruct (OrderStatus_eqb (Status e) Filled).
  - destruct (GetOrderById qc (OrderId e)) as [order |]; [| discriminate].
    pose proof (Qabs_nonneg (Quantity order)) as Hq. unfold Py.abs.
    destruct (OrderDirection_eqb (Direction order) Buy);
      intro H; injection H as <-; simpl; split; lra.
  - intro H; injection H as <-. split; lra.
Qed.

Lemma Enhanced_OnOrderEvent_returns (qc : Platform) (e : OrderEvent) (self : Self) :
  GetOrderById qc (OrderId e) <> None ->
  exists self', OnOrderEvent qc e self = Ok (tt, self').
Proof.
  intro Hk. unfold OnOrderEvent. run_method.
  destruct (OrderStatus_eqb (Status e) Filled); [| eauto].
  destruct (GetOrderById qc (OrderId e)) as [order |]; [| congruence].
  destruct (OrderDirection_eqb (Direction order) Buy); eauto.
Qed.

Lemma Enhanced_run_app (pre post : list Transition) (self : Self) :
  run (pre ++ post) self
  = match run pre self with
    | Ok (_, mid) => run post mid
    | Raise e => Raise e
    end.
Proof.
  revert self. induction pre as [| t pre IH]; intro self; simpl.
  - reflexivity.
  - unfold Py.bind. destruct (step t self) as [[[] mid] | e]; [| reflexivity].
    apply IH.
Qed.

Lemma Enhanced_run_returns (ts : list Transition) (self : Self) :
  Forall known ts -> exists self', run ts self = Ok (tt, self').
Proof.
  intro H. revert self. induction H as [| t ts Ht _ IH]; intro self; simpl.
  - unfold Py.ret. eauto.
  - unfold Py.bind.
    assert (Hs : exists mid, step t self = Ok (tt, mid)).
    { destruct t as [qc e |]; simpl.
      - now apply Enhanced_OnOrderEvent_returns.
      - destruct (Enhanced_LiquidatePositions_resets self) as [m [E _]]. eauto. }
    destruct Hs as [mid ->]. apply IH.
Qed.

Lemma Enhanced_run_grows (ts : list Transition) (self self' : Self) :
  existsb is_Liquidation ts = false ->
  run ts self = Ok (tt, self') ->
  openBuyLots self <= openBuyLots self'
  /\ openSellLots self <= openSellLots self'.
Proof.
  revert self. induction ts as [| t ts IH]; intros self Hno; simpl.
  - unfold Py.ret. intro H; injection H as <-. split; lra.
  - simpl in Hno. apply orb_false_iff in Hno as [Ht Hts].
    unfold Py.bind. destruct (step t self) as [[[] mid] | e] eqn:E;
      [| discriminate].
    intro Hrun. destruct t as [qc ev |]; [| discriminate].
    simpl in E. apply Enhanced_OnOrderEvent_grows in E.
    destruct (IH mid Hts Hrun). split; lra.
Qed.

Lemma Enhanced_run_liquidated (pre : list Transition) (self self' : Self) :
  run (pre ++ [Liquidation]) self = Ok (tt, self') ->
  openBuyLots self' = 0 /\ openSellLots self' = 0.
Proof.
  rewrite Enhanced_run_app.
  destruct (run pre self) as [[[] mid] | e]; [| discriminate].
  simpl. unfold Py.bind.
  destruct (Enhanced_LiquidatePositions_resets mid) as [m [-> [Hb [Hs _]]]].
  unfold Py.ret. intro H; injection H as <-. auto.
Qed.

(** Every run of fills of known orders and liquidations returns; its counters
    have not decreased if it holds no liquidation, and are [(0, 0)] if it
    ends with one. *)
Lemma Enhanced_exposure_bookkeeping (ts : list Transition) (self : Self) :
  Forall known ts ->
  exists self',
    run ts self = Ok (tt, self')
    /\ (existsb is_Liquidation ts = false ->
        openBuyLots self <= openBuyLots self'
        /\ openSellLots self <= openSellLots self')
    /\ (forall pre, ts = pre ++ [Liquidation] ->
        openBuyLots self' = 0 /\ openSellLots self' = 0).
Proof.
  intro Hk. destruct (Enhanced_run_returns ts self Hk) as [self' E].
  exists self'. split; [exact E | split].
  - intro Hno. now apply (Enhanced_run_grows ts).
  - intros pre ->. now apply (Enhanced_run_liquidated pre self).
Qed.

End EnhancedExposure.

(** ** Position sizing *)

Lemma both_zero_false (x y : Q) :
  ~ (x == 0 /\ y == 0) -> Py.eq x 0 && Py.eq y 0 = false.
Proof.
  intro H. destruct (Py.eq x 0) eqn:Ex; [| reflexivity].
  destruct (Py.eq y 0) eqn:Ey; [| reflexivity].
  apply eq_true_iff in Ex, Ey. tauto.
Qed.

Lemma both_zero_true (x y : Q) :
  x == 0 -> y == 0 -> Py.eq x 0 && Py.eq y 0 = true.
Proof.
  intros Hx Hy. apply eq_true_iff in Hx, Hy. now rewrite Hx, Hy.
Qed.

Section BasicSizing.

Import PipsAndLotsExample.

Variable qc : Platform.
Variable self : Self.

Let cap := TotalPortfolioValue (portfolio qc) * positionSize self.

Lemma Basic_bootstrap :
  openBuyLots self == 0 -> openSellLots self == 0 ->
  CalculateBuyLots qc self = Ok cap /\ CalculateSellLots qc self = Ok cap.
Proof.
  intros Hb Hs. unfold CalculateBuyLots, CalculateSellLots.
  now rewrite (both_zero_true _ _ Hb Hs).
Qed.

Lemma Basic_rebalance :
  ~ r2r self == 0 ->
  ~ (openBuyLots self == 0 /\ openSellLots self == 0) ->
  CalculateBuyLots qc self
  = Ok (Py.min (((r2r self + 1) / r2r self * openSellLots self
                 - openBuyLots self) * 1.1) cap)
  /\ CalculateSellLots qc self
     = Ok (Py.min (((r2r self + 1) / r2r self * openBuyLots self
                    - openSellLots self) * 1.1) cap).
Proof.
  intros Hr Hnz. unfold CalculateBuyLots, CalculateSellLots.
  rewrite (both_zero_false _ _ Hnz), (div_nonzero _ _ Hr). now split.
Qed.

End BasicSizing.

Section EnhancedSizing.

Import TrailingStopWalkthroughExample.

Variable qc : Platform.
Variable self : Self.

Let base_size := TotalPortfolioValue (portfolio qc) * 0.02.

Lemma Enhanced_bootstrap :
  openBuyLots self == 0 -> openSellLots self == 0 ->
  CalculateBuyLots qc self = Ok base_size
  /\ CalculateSellLots qc self = Ok base_size.
Proof.
  intros Hb Hs. unfold CalculateBuyLots, CalculateSellLots.
  now rewrite (both_zero_true _ _ Hb Hs).
Qed.

Lemma Enhanced_rebalance :
  ~ r2r self == 0 ->
  ~ (openBuyLots self == 0 /\ openSellLots self == 0) ->
  CalculateBuyLots qc self
  = Ok (Py.min (((r2r self + 1) / r2r self * openSellLots self
                 - openBuyLots self) * 1.1) base_size)
  /\ CalculateSellLots qc self
     = Ok (Py.min (((r2r self + 1) / r2r self * openBuyLots self
                    - openSellLots self) * 1.1) base_size).
Proof.
  intros Hr Hnz. unfold CalculateBuyLots, CalculateSellLots.
  rewrite (both_zero_false _ _ Hnz), (div_nonzero _ _ Hr). now split.
Qed.

(** Neither method reads [positionSize]. *)
Lemma Enhanced_sizing_ignores_positionSize (v : Q) :
  CalculateBuyLots qc (set_positionSize v self) = CalculateBuyLots qc self
  /\ CalculateSellLots qc (set_positionSize v self)
     = CalculateSellLots qc self.
Proof. split; reflexivity. Qed.

End EnhancedSizing.

(** Scenario B, basic variant: 10,000 lots bought, none sold, [r2r = 2],
    an account of 1,000,000 at [positionSize = 0.01]. *)
Lemma Basic_scenario_B :
  exists lots,
    Basic.CalculateSellLots (Scenario.account 1000000 0)
                            Scenario.basic_long_10000 = Ok lots
    /\ lots == 10000
    /\ ((2 + 1) / 2 * 10000 - 0) * 1.1 == 16500.
Proof.
  eexists. split; [vm_compute; reflexivity |].
  split; vm_compute; reflexivity.
Qed.




(** C4, as stated, fails on the enhanced variant.  Right after [Initialize]
    both counters are zero, the account holds the 100,000 of [SetCash] and
    the configured [positionSize] is 0.1; [CalculateBuyLots] and
    [CalculateSellLots] return 2,000, not 100,000 * 0.1 = 10,000. *)
Lemma enhanced_bootstrap_is_not_configured_fraction :
  let qc := Scenario.account Enhanced.Initialize_Cash 0 in
  Enhanced.openBuyLots Enhanced.Initialize == 0
  /\ Enhanced.openSellLots Enhanced.Initialize == 0
  /\ Enhanced.positionSize Enhanced.Initialize == 0.1
  /\ exists lots,
       Enhanced.CalculateBuyLots qc Enhanced.Initialize = Ok lots
       /\ Enhanced.CalculateSellLots qc Enhanced.Initialize = Ok lots
       /\ lots == 2000
       /\ ~ lots == TotalPortfolioValue (portfolio qc)
                    * Enhanced.positionSize Enhanced.Initialize.
Proof.
  cbv zeta. split; [reflexivity |]. split; [reflexivity |].
  split; [reflexivity |]. eexists.
  split; [vm_compute; reflexivity |]. split; [vm_compute; reflexivity |].
  split; [vm_compute; reflexivity |]. vm_compute. discriminate.
Qed.

(** C4, amended (bootstrap sizing).  With both counters zero,
    [CalculateBuyLots] and [CalculateSellLots] return exactly
    [TotalPortfolioValue * positionSize] in the basic variant, and exactly
    [TotalPortfolioValue * 0.02] in the enhanced variant, whatever its
    [positionSize].  In the basic variant, with [positionSize = 0.01] and a
    portfolio of 1,000,000, [CalculateBuyLots] returns 10,000. *)
Theorem bootstrap_size :
  (forall qc (self : Basic.Self),
     Basic.openBuyLots self == 0 -> Basic.openSellLots self == 0 ->
     Basic.CalculateBuyLots qc self
     = Ok (TotalPortfolioValue (portfolio qc) * Basic.positionSize self)
     /\ Basic.CalculateSellLots qc self
        = Ok (TotalPortfolioValue (portfolio qc) * Basic.positionSize self))
  /\ (forall qc (self : Enhanced.Self) (fraction : Q),
     Enhanced.openBuyLots self == 0 -> Enhanced.openSellLots self == 0 ->
     Enhanced.CalculateBuyLots qc (Enhanced.set_positionSize fraction self)
     = Ok (TotalPortfolioValue (portfolio qc) * 0.02)
     /\ Enhanced.CalculateSellLots qc
          (Enhanced.set_positionSize fraction self)
        = Ok (TotalPortfolioValue (portfolio qc) * 0.02))
  /\ (exists lots,
        Basic.CalculateBuyLots (Scenario.account 1000000 0) Basic.Initialize
        = Ok lots
        /\ Basic.positionSize Basic.Initialize == 0.01
        /\ lots == 10000).
Proof.
  split; [| split].
  - intros qc self Hb Hs. now apply Basic_bootstrap.
  - intros qc self fraction Hb Hs.
    destruct (Enhanced_sizing_ignores_positionSize qc self fraction)
      as [-> ->].
    now apply Enhanced_bootstrap.
  - eexists. split; [vm_compute; reflexivity |].
    split; vm_compute; reflexivity.
Qed.

Lemma bootstrap_size_witness :
  Basic.openBuyLots Basic.Initialize == 0
  /\ Basic.openSellLots Basic.Initialize == 0
  /\ Basic.CalculateBuyLots (Scenario.account 1000000 0) Basic.Initialize
     = Ok (1000000 * 0.01)
  /\ Basic.CalculateSellLots (Scenario.account 1000000 0) Basic.Initialize
     = Ok (1000000 * 0.01).
Proof.
  split; [reflexivity |]. split; [reflexivity |].
  apply (proj1 bootstrap_size (Scenario.account 1000000 0) Basic.Initialize);
    reflexivity.
Defined.

(** ** The range tracker *)

Lemma range_ordered (lo hi range factor : Q) :
  lo <= hi -> 0 <= range -> 0 <= factor ->
  lo - range * factor <= hi + range * factor.
Proof.
  intros Hlh Hr Hf. assert (0 <= range * factor) by now apply Qmult_le_0_compat.
  lra.
Qed.

Section BasicRange.

Import PipsAndLotsExample.

Variable qc : Platform.
Variable self : Self.

Hypothesis high_ready : IsReady (high qc) = true.
Hypothesis low_ready : IsReady (low qc) = true.
Hypothesis atr_ready : IsReady (atr qc) = true.

Lemma Basic_UpdateRangeLevels_recomputes :
  buyLine self = None \/ sellLine self = None ->
  exists self',
    UpdateRangeLevels qc self = Ok (tt, self')
    /\ buyLine self'
       = Some (Current_Value (low qc) - Current_Value (atr qc) * 0.5)
    /\ sellLine self'
       = Some (Current_Value (high qc) + Current_Value (atr qc) * 0.5)
    /\ openBuyLots self' = openBuyLots self
    /\ openSellLots self' = openSellLots self.
Proof.
  intro Hunset. unfold UpdateRangeLevels.
  rewrite high_ready, low_ready, atr_ready.
  cbn [forallb negb andb]. run_method.
  assert (E : is_None (buyLine self) || is_None (sellLine self) = true).
  { destruct Hunset as [-> | ->]; simpl; [reflexivity | apply orb_true_r]. }
  rewrite E. unfold send. run_method. simpl.
  eexists. split; [reflexivity |]. simpl. auto.
Qed.

(** Set-once: with both lines set the call changes nothing. *)
Lemma Basic_UpdateRangeLevels_keeps (b s : Q) :
  buyLine self = Some b -> sellLine self = Some s ->
  UpdateRangeLevels qc self = Ok (tt, self).
Proof.
  intros Hb Hs. unfold UpdateRangeLevels.
  rewrite high_ready, low_ready, atr_ready.
  cbn [forallb negb andb]. run_method. rewrite Hb, Hs. reflexivity.
Qed.

End BasicRange.

Section EnhancedRange.

Import TrailingStopWalkthroughExample.

Variable qc : Platform.
Variable self : Self.

Hypothesis high_ready : IsReady (high qc) = true.
Hypothesis low_ready : IsReady (low qc) = true.
Hypothesis atr_ready : IsReady (atr qc) = true.

Lemma Enhanced_UpdateRangeLevels_recomputes :
  buyLine self = None \/ sellLine self = None
  \/ (range_update_interval self <= Time qc - last_range_update self)%Z ->
  exists self',
    UpdateRangeLevels qc self = Ok (tt, self')
    /\ buyLine self'
       = Some (Current_Value (low qc) - Current_Value (atr qc) * 1.0)
    /\ sellLine self'
       = Some (Current_Value (high qc) + Current_Value (atr qc) * 1.0)
    /\ last_range_update self' = Time qc
    /\ openBuyLots self' = openBuyLots self
    /\ openSellLots self' = openSellLots self.
Proof.
  intro Hdue. unfold UpdateRangeLevels.
  rewrite high_ready, low_ready, atr_ready.
  cbn [forallb negb andb]. run_method.
  assert (E : is_None (buyLine self) || is_None (sellLine self)
              || (range_update_interval self
                    <=? Time qc - last_range_update self)%Z = true).
  { destruct Hdue as [-> | [-> | H]]; simpl.
    - reflexivity.
    - now rewrite orb_true_r.
    - apply Z.leb_le in H. rewrite H. apply orb_true_r. }
  rewrite E. unfold send. run_method. simpl.
  eexists. split; [reflexivity |]. simpl. auto 6.
Qed.

Lemma Enhanced_UpdateRangeLevels_keeps (b s : Q) :
  buyLine self = Some b -> sellLine self = Some s ->
  (Time qc - last_range_update self < range_update_interval self)%Z ->
  UpdateRangeLevels qc self = Ok (tt, self).
Proof.
  intros Hb Hs Hearly. unfold UpdateRangeLevels.
  rewrite high_ready, low_ready, atr_ready.
  cbn [forallb negb andb]. run_method. rewrite Hb, Hs. simpl.
  apply Z.leb_gt in Hearly. rewrite Hearly. reflexivity.
Qed.

End EnhancedRange.

(** Scenario C of the specification, on the basic variant. *)
Lemma Basic_scenario_C :
  exists self' buy sell,
    Basic.UpdateRangeLevels Scenario.ranging Basic.Initialize = Ok (tt, self')
    /\ Basic.buyLine self' = Some buy /\ Basic.sellLine self' = Some sell
    /\ buy == 1.0995 /\ sell == 1.1055.
Proof.
  do 3 eexists. split; [vm_compute; reflexivity |].
  split; [reflexivity |]. split; [reflexivity |].
  split; vm_compute; reflexivity.
Qed.

(** C5 (range refresh).  With the rolling high, the rolling low and the ATR
    ready, a call of [UpdateRangeLevels] that recomputes (basic variant: a
    line is unset; enhanced variant: a line is unset or the update interval
    has elapsed) returns with
    [buyLine = low - factor * atr] and [sellLine = high + factor * atr],
    where [factor] is 0.5 in the basic and 1.0 in the enhanced variant; and
    if [low <= high] and [0 <= atr], then [buyLine <= sellLine]. *)
Theorem range_refresh_levels :
  (forall qc (self : Basic.Self),
     IsReady (high qc) = true ->
     IsReady (low qc) = true ->
     IsReady (atr qc) = true ->
     Basic.buyLine self = None \/ Basic.sellLine self = None ->
     exists self' buy sell,
       Basic.UpdateRangeLevels qc self = Ok (tt, self')
       /\ Basic.buyLine self' = Some buy
       /\ Basic.sellLine self' = Some sell
       /\ buy == Current_Value (low qc) - 0.5 * Current_Value (atr qc)
       /\ sell == Current_Value (high qc) + 0.5 * Current_Value (atr qc)
       /\ (Current_Value (low qc) <= Current_Value (high qc) ->
           0 <= Current_Value (atr qc) ->
           buy <= sell))
  /\ (forall qc (self : Enhanced.Self),
     IsReady (high qc) = true ->
     IsReady (low qc) = true ->
     IsReady (atr qc) = true ->
     Enhanced.buyLine self = None \/ Enhanced.sellLine self = None
     \/ (Enhanced.range_update_interval self
         <= Time qc - Enhanced.last_range_update self)%Z ->
     exists self' buy sell,
       Enhanced.UpdateRangeLevels qc self = Ok (tt, self')
       /\ Enhanced.buyLine self' = Some buy
       /\ Enhanced.sellLine self' = Some sell
       /\ buy == Current_Value (low qc) - 1.0 * Current_Value (atr qc)
       /\ sell == Current_Value (high qc) + 1.0 * Current_Value (atr qc)
       /\ (Current_Value (low qc) <= Current_Value (high qc) ->
           0 <= Current_Value (atr qc) ->
           buy <= sell)).
Proof.
  split.
  - intros qc self Hh Hl Ha Hunset.
    destruct (Basic_UpdateRangeLevels_recomputes qc self Hh Hl Ha Hunset)
      as [self' [E [Hb [Hs _]]]].
    exists self'. do 2 eexists. split; [exact E |].
    split; [exact Hb |]. split; [exact Hs |].
    split; [ring |]. split; [ring |].
    intros Hlh Hatr. apply range_ordered; [assumption | assumption | lra].
  - intros qc self Hh Hl Ha Hdue.
    destruct (Enhanced_UpdateRangeLevels_recomputes qc self Hh Hl Ha Hdue)
      as [self' [E [Hb [Hs _]]]].
    exists self'. do 2 eexists. split; [exact E |].
    split; [exact Hb |]. split; [exact Hs |].
    split; [ring |]. split; [ring |].
    intros Hlh Hatr. apply range_ordered; [assumption | assumption | lra].
Qed.

Lemma range_refresh_levels_witness :
  exists self' buy sell,
    Basic.UpdateRangeLevels Scenario.ranging Basic.Initialize = Ok (tt, self')
    /\ Basic.buyLine self' = Some buy
    /\ Basic.sellLine self' = Some sell
    /\ buy == 1.1000 - 0.5 * 0.0010
    /\ sell == 1.1050 + 0.5 * 0.0010
    /\ buy <= sell.
Proof.
  destruct (proj1 range_refresh_levels Scenario.ranging Basic.Initialize
              eq_refl eq_refl eq_refl (or_introl eq_refl))
    as [self' [buy [sell [E [Hb [Hs [Eb [Es Hord]]]]]]]].
  exists self', buy, sell.
  split; [exact E |]. split; [exact Hb |]. split; [exact Hs |].
  split; [exact Eb |]. split; [exact Es |].
  apply Hord; vm_compute; discriminate.
Defined.

(** ** Volatility check of the basic variant *)

(** C6.  For every non-negative current ATR the basic [IsVolatilityHigh]
    returns [False]: [atr > atr * 1.5] cannot hold. *)
Theorem basic_IsVolatilityHigh_is_false (qc : Platform) :
  0 <= Current_Value (atr qc) -> Basic.IsVolatilityHigh qc = false.
Proof.
  intro H. unfold Basic.IsVolatilityHigh. apply gt_false_iff. lra.
Qed.

Lemma basic_IsVolatilityHigh_is_false_witness :
  0 <= Current_Value (atr Scenario.ranging)
  /\ Basic.IsVolatilityHigh Scenario.ranging = false.
Proof.
  split.
  - vm_compute. discriminate.
  - apply basic_IsVolatilityHigh_is_false. vm_compute. discriminate.
Defined.

(** Only a negative reading, which an ATR never is, would turn it on. *)
Lemma basic_IsVolatilityHigh_iff (qc : Platform) :
  Basic.IsVolatilityHigh qc = true <-> Current_Value (atr qc) < 0.
Proof.
  unfold Basic.IsVolatilityHigh. rewrite gt_true_iff. split; intro; lra.
Qed.

(** ** The range-bound filter of the enhanced variant *)

Section RangeBoundFilter.

Import TrailingStopWalkthroughExample.

Variable qc : Platform.
Variable self : Self.

Let price := Securities_Price qc (symbol self).
Let upper := UpperBand (bb qc).
Let lower := LowerBand (bb qc).
Let middle := MiddleBand (bb qc).
Let band_width := (upper - lower) / middle.
Let price_position := (price - lower) / (upper - lower).

Lemma IsRangeBound_not_ready :
  bb_IsReady (bb qc) = false -> IsRangeBound qc self = Ok false.
Proof. intro H. unfold IsRangeBound. now rewrite H. Qed.

Lemma IsRangeBound_flat_bands :
  Qabs (upper - lower) < 0.00001 -> IsRangeBound qc self = Ok false.
Proof.
  intro H. unfold IsRangeBound. destruct (bb_IsReady (bb qc)); [| reflexivity].
  simpl negb. cbv iota. apply lt_true_iff in H. unfold Py.abs.
  fold upper. fold lower. now rewrite H.
Qed.

(** Past the two guards the three tests are evaluated and conjoined. *)
Lemma IsRangeBound_tests :
  bb_IsReady (bb qc) = true ->
  0.00001 <= Qabs (upper - lower) ->
  ~ middle == 0 ->
  IsRangeBound qc self
  = Ok ((Py.lt 0.0005 band_width && Py.lt band_width 0.01)
        && (Py.lt 0.1 price_position && Py.lt price_position 0.9)
        && Py.lt (Qabs (Current_Value (sma qc) - middle))
                 (Current_Value (atr qc) * 0.5)).
Proof.
  intros Hready Hwide Hmid. unfold IsRangeBound. rewrite Hready.
  simpl negb. cbv iota. unfold Py.abs.
  fold upper. fold lower. fold middle. fold price.
  apply lt_false_iff in Hwide. rewrite Hwide.
  rewrite (div_nonzero _ _ Hmid).
  assert (Hdiff : ~ upper - lower == 0).
  { intro E. apply lt_false_iff in Hwide. rewrite E in Hwide.
    vm_compute in Hwide. now apply Hwide. }
  unfold Py.and_then. rewrite (div_nonzero _ _ Hdiff). reflexivity.
Qed.

(** The one way not to return: ready bands at least [0.00001] apart around
    a middle band of zero. *)
Lemma IsRangeBound_zero_middle :
  bb_IsReady (bb qc) = true ->
  0.00001 <= Qabs (upper - lower) ->
  middle == 0 ->
  IsRangeBound qc self = Raise ZeroDivisionError.
Proof.
  intros Hready Hwide Hmid. unfold IsRangeBound. rewrite Hready.
  simpl negb. cbv iota. unfold Py.abs.
  fold upper. fold lower. fold middle.
  apply lt_false_iff in Hwide. rewrite Hwide.
  now rewrite (div_zero _ _ Hmid).
Qed.

Lemma IsRangeBound_returns :
  ~ middle == 0 -> exists b, IsRangeBound qc self = Ok b.
Proof.
  intro Hmid. destruct (bb_IsReady (bb qc)) eqn:Hready.
  - destruct (Qlt_le_dec (Qabs (upper - lower)) 0.00001) as [H | H].
    + eexists. now apply IsRangeBound_flat_bands.
    + eexists. now apply IsRangeBound_tests.
  - eexists. now apply IsRangeBound_not_ready.
Qed.




End RangeBoundFilter.



(** ** Entries *)

Section BasicEntries.

Import PipsAndLotsExample.

Variable qc : Platform.
Variable lots : Q.
Variable self : Self.

Lemma Basic_ExecuteBuyOrder_spec (line : Q) :
  buyLine self = Some line ->
  exists self',
    ExecuteBuyOrder qc lots self = Ok (tt, self')
    /\ openSellLots self' = openSellLots self
    /\ match MarketOrder_Status qc (symbol self) lots with
       | Filled =>
           openBuyLots self' = openBuyLots self + lots
           /\ sent self'
              = sent self
                ++ [MarketOrder (symbol self) lots;
                    StopMarketOrder (symbol self) (- lots)
                      (line - Current_Value (atr qc));
                    LimitOrder (symbol self) (- lots)
                      (line + Current_Value (atr qc) * r2r self)]
       | _ =>
           openBuyLots self' = openBuyLots self
           /\ sent self' = sent self ++ [MarketOrder (symbol self) lots]
       end.
Proof.
  intro Hline. unfold ExecuteBuyOrder, send. run_method. rewrite Hline.
  simpl. destruct (MarketOrder_Status qc (symbol self) lots); simpl;
    eexists; (split; [reflexivity |]); simpl;
    rewrite <- ?app_assoc; simpl; auto.
Qed.

Lemma Basic_ExecuteSellOrder_spec (line : Q) :
  sellLine self = Some line ->
  exists self',
    ExecuteSellOrder qc lots self = Ok (tt, self')
    /\ openBuyLots self' = openBuyLots self
    /\ match MarketOrder_Status qc (symbol self) (- lots) with
       | Filled =>
           openSellLots self' = openSellLots self + lots
           /\ sent self'
              = sent self
                ++ [MarketOrder (symbol self) (- lots);
                    StopMarketOrder (symbol self) lots
                      (line + Current_Value (atr qc));
                    LimitOrder (symbol self) lots
                      (line - Current_Value (atr qc) * r2r self)]
       | _ =>
           openSellLots self' = openSellLots self
           /\ sent self' = sent self ++ [MarketOrder (symbol self) (- lots)]
       end.
Proof.
  intro Hline. unfold ExecuteSellOrder, send. run_method. rewrite Hline.
  simpl. destruct (MarketOrder_Status qc (symbol self) (- lots)); simpl;
    eexists; (split; [reflexivity |]); simpl;
    rewrite <- ?app_assoc; simpl; auto.
Qed.

(** Without a line to anchor the prices the call raises before any order. *)
Lemma Basic_ExecuteBuyOrder_unset :
  buyLine self = None -> ExecuteBuyOrder qc lots self = Raise TypeError.
Proof.
  intro Hline. unfold ExecuteBuyOrder. run_method. now rewrite Hline.
Qed.

Lemma Basic_ExecuteSellOrder_unset :
  sellLine self = None -> ExecuteSellOrder qc lots self = Raise TypeError.
Proof.
  intro Hline. unfold ExecuteSellOrder. run_method. now rewrite Hline.
Qed.

End BasicEntries.

Section EnhancedEntries.

Import TrailingStopWalkthroughExample.

Variable qc : Platform.
Variable lots : Q.
Variable self : Self.

Lemma Enhanced_ExecuteBuyOrder_spec (line : Q) :
  buyLine self = Some line ->
  exists self',
    ExecuteBuyOrder qc lots self = Ok (tt, self')
    /\ openSellLots self' = openSellLots self
    /\ match MarketOrder_Status qc (symbol self) lots with
       | Filled =>
           openBuyLots self' = openBuyLots self + lots
           /\ sent self'
              = sent self
                ++ [MarketOrder (symbol self) lots;
                    StopMarketOrder (symbol self) (- lots)
                      (line - Current_Value (atr qc));
                    LimitOrder (symbol self) (- lots)
                      (line + Current_Value (atr qc) * r2r self)]
       | _ =>
           openBuyLots self' = openBuyLots self
           /\ sent self' = sent self ++ [MarketOrder (symbol self) lots]
       end.
Proof.
  intro Hline. unfold ExecuteBuyOrder, send. run_method. rewrite Hline.
  simpl. destruct (MarketOrder_Status qc (symbol self) lots); simpl;
    eexists; (split; [reflexivity |]); simpl;
    rewrite <- ?app_assoc; simpl; auto.
Qed.

Lemma Enhanced_ExecuteSellOrder_spec (line : Q) :
  sellLine self = Some line ->
  exists self',
    ExecuteSellOrder qc lots self = Ok (tt, self')
    /\ openBuyLots self' = openBuyLots self
    /\ match MarketOrder_Status qc (symbol self) (- lots) with
       | Filled =>
           openSellLots self' = openSellLots self + lots
           /\ sent self'
              = sent self
                ++ [MarketOrder (symbol self) (- lots);
                    StopMarketOrder (symbol self) lots
                      (line + Current_Value (atr qc));
                    LimitOrder (symbol self) lots
                      (line - Current_Value (atr qc) * r2r self)]
       | _ =>
           openSellLots self' = openSellLots self
           /\ sent self' = sent self ++ [MarketOrder (symbol self) (- lots)]
       end.
Proof.
  intro Hline. unfold ExecuteSellOrder, send. run_method. rewrite Hline.
  simpl. destruct (MarketOrder_Status qc (symbol self) (- lots)); simpl;
    eexists; (split; [reflexivity |]); simpl;
    rewrite <- ?app_assoc; simpl; auto.
Qed.

(** Without a line to anchor the prices the call raises before any order. *)
Lemma Enhanced_ExecuteBuyOrder_unset :
  buyLine self = None -> ExecuteBuyOrder qc lots self = Raise TypeError.
Proof.
  intro Hline. unfold ExecuteBuyOrder. run_method. now rewrite Hline.
Qed.

Lemma Enhanced_ExecuteSellOrder_unset :
  sellLine self = None -> ExecuteSellOrder qc lots self = Raise TypeError.
Proof.
  intro Hline. unfold ExecuteSellOrder. run_method. now rewrite Hline.
Qed.

End EnhancedEntries.

(** C8 (entries and unfilled market orders).  In both variants, a call of
    [ExecuteBuyOrder] with the buy line set places the market order and
    returns; [openSellLots] is untouched.  If the ticket's status is not
    [Filled], [openBuyLots] is unchanged and the market order is the only
    request made: no stop-market and no limit order.  If it is [Filled],
    [openBuyLots] grows by [lots] and the call goes on to place a stop-market
    order of [-lots] at [buyLine - atr] and a limit order of [-lots] at
    [buyLine + atr * r2r].  [ExecuteSellOrder] mirrors this around the sell
    line: stop at [sellLine + atr], limit at [sellLine - atr * r2r]. *)
Theorem entry_orders_follow_the_fill :
  (forall qc lots (self : Basic.Self) line,
     Basic.buyLine self = Some line ->
     exists self',
       Basic.ExecuteBuyOrder qc lots self = Ok (tt, self')
       /\ Basic.openSellLots self' = Basic.openSellLots self
       /\ match MarketOrder_Status qc (Basic.symbol self) lots with
          | Filled =>
              Basic.openBuyLots self' = Basic.openBuyLots self + lots
              /\ Basic.sent self'
                 = Basic.sent self
                   ++ [MarketOrder (Basic.symbol self) lots;
                       StopMarketOrder (Basic.symbol self) (- lots)
                         (line - Current_Value (atr qc));
                       LimitOrder (Basic.symbol self) (- lots)
                         (line + Current_Value (atr qc) * Basic.r2r self)]
          | _ =>
              Basic.openBuyLots self' = Basic.openBuyLots self
              /\ Basic.sent self'
                 = Basic.sent self ++ [MarketOrder (Basic.symbol self) lots]
          end)
  /\ (forall qc lots (self : Basic.Self) line,
     Basic.sellLine self = Some line ->
     exists self',
       Basic.ExecuteSellOrder qc lots self = Ok (tt, self')
       /\ Basic.openBuyLots self' = Basic.openBuyLots self
       /\ match MarketOrder_Status qc (Basic.symbol self) (- lots) with
          | Filled =>
              Basic.openSellLots self' = Basic.openSellLots self + lots
              /\ Basic.sent self'
                 = Basic.sent self
                   ++ [MarketOrder (Basic.symbol self) (- lots);
                       StopMarketOrder (Basic.symbol self) lots
                         (line + Current_Value (atr qc));
                       LimitOrder (Basic.symbol self) lots
                         (line - Current_Value (atr qc) * Basic.r2r self)]
          | _ =>
              Basic.openSellLots self' = Basic.openSellLots self
              /\ Basic.sent self'
                 = Basic.sent self
                   ++ [MarketOrder (Basic.symbol self) (- lots)]
          end)
  /\ (forall qc lots (self : Enhanced.Self) line,
     Enhanced.buyLine self = Some line ->
     exists self',
       Enhanced.ExecuteBuyOrder qc lots self = Ok (tt, self')
       /\ Enhanced.openSellLots self' = Enhanced.openSellLots self
       /\ match MarketOrder_Status qc (Enhanced.symbol self) lots with
          | Filled =>
              Enhanced.openBuyLots self' = Enhanced.openBuyLots self + lots
              /\ Enhanced.sent self'
                 = Enhanced.sent self
                   ++ [MarketOrder (Enhanced.symbol self) lots;
                       StopMarketOrder (Enhanced.symbol self) (- lots)
                         (line - Current_Value (atr qc));
                       LimitOrder (Enhanced.symbol self) (- lots)
                         (line + Current_Value (atr qc) * Enhanced.r2r self)]
          | _ =>
              Enhanced.openBuyLots self' = Enhanced.openBuyLots self
              /\ Enhanced.sent self'
                 = Enhanced.sent self
                   ++ [MarketOrder (Enhanced.symbol self) lots]
          end)
  /\ (forall qc lots (self : Enhanced.Self) line,
     Enhanced.sellLine self = Some line ->
     exists self',
       Enhanced.ExecuteSellOrder qc lots self = Ok (tt, self')
       /\ Enhanced.openBuyLots self' = Enhanced.openBuyLots self
       /\ match MarketOrder_Status qc (Enhanced.symbol self) (- lots) with
          | Filled =>
              Enhanced.openSellLots self' = Enhanced.openSellLots self + lots
              /\ Enhanced.sent self'
                 = Enhanced.sent self
                   ++ [MarketOrder (Enhanced.symbol self) (- lots);
                       StopMarketOrder (Enhanced.symbol self) lots
                         (line + Current_Value (atr qc));
                       LimitOrder (Enhanced.symbol self) lots
                         (line - Current_Value (atr qc) * Enhanced.r2r self)]
          | _ =>
              Enhanced.openSellLots self' = Enhanced.openSellLots self
              /\ Enhanced.sent self'
                 = Enhanced.sent self
                   ++ [MarketOrder (Enhanced.symbol self) (- lots)]
          end).
Proof.
  split; [exact Basic_ExecuteBuyOrder_spec |].
  split; [exact Basic_ExecuteSellOrder_spec |].
  split; [exact Enhanced_ExecuteBuyOrder_spec |].
  exact Enhanced_ExecuteSellOrder_spec.
Qed.

(** A rejected and a filled buy of 10,000 lots at the lines of Scenario C. *)
Lemma entry_orders_follow_the_fill_witness :
  (exists self',
     Basic.ExecuteBuyOrder Scenario.ranging 10000 Scenario.basic_ranged
     = Ok (tt, self')
     /\ Basic.openSellLots self' = 0
     /\ Basic.openBuyLots self' = 0
     /\ Basic.sent self' = [MarketOrder "EURUSD" 10000])
  /\ (exists self',
     Basic.ExecuteBuyOrder Scenario.filling 10000 Scenario.basic_ranged
     = Ok (tt, self')
     /\ Basic.openSellLots self' = 0
     /\ Basic.openBuyLots self' = 0 + 10000
     /\ Basic.sent self'
        = [MarketOrder "EURUSD" 10000;
           StopMarketOrder "EURUSD" (- 10000) (1.0995 - 0.0010);
           LimitOrder "EURUSD" (- 10000) (1.0995 + 0.0010 * 2)]).
Proof.
  split.
  - destruct (proj1 entry_orders_follow_the_fill
                Scenario.ranging 10000 Scenario.basic_ranged 1.0995 eq_refl)
      as [self' [E [Hs H]]].
    exists self'. split; [exact E |]. split; [exact Hs |]. exact H.
  - destruct (proj1 entry_orders_follow_the_fill
                Scenario.filling 10000 Scenario.basic_ranged 1.0995 eq_refl)
      as [self' [E [Hs H]]].
    exists self'. split; [exact E |]. split; [exact Hs |]. exact H.
Defined.

(** ** A filled entry is counted twice *)

Section BasicDoubleCount.

Import PipsAndLotsExample.

Variables qc qc' : Platform.
Variable e : OrderEvent.
Variable lots : Q.
Variable self : Self.

Hypothesis positive : 0 < lots.
Hypothesis event_filled : Status e = Filled.

Lemma Basic_buy_counted_twice (line : Q) :
  buyLine self = Some line ->
  MarketOrder_Status qc (symbol self) lots = Filled ->
  GetOrderById qc' (OrderId e) = Some {| Direction := Buy; Quantity := lots |} ->
  exists self',
    (ExecuteBuyOrder qc lots ;;; OnOrderEvent qc' e)%py self = Ok (tt, self')
    /\ openBuyLots self' == openBuyLots self + 2 * lots
    /\ openSellLots self' = openSellLots self.
Proof.
  intros Hline Hfill Horder.
  destruct (Basic_ExecuteBuyOrder_spec qc lots self line Hline)
    as [mid [E [Hs Hb]]].
  rewrite Hfill in Hb. destruct Hb as [Hb _].
  unfold Py.bind. rewrite E.
  rewrite (Basic_OnOrderEvent_filled qc' e _ mid event_filled Horder).
  eexists. split; [reflexivity |]. simpl. rewrite Hb, Hs.
  split; [| reflexivity]. rewrite Qabs_pos by lra. ring.
Qed.

Lemma Basic_sell_counted_twice (line : Q) :
  sellLine self = Some line ->
  MarketOrder_Status qc (symbol self) (- lots) = Filled ->
  GetOrderById qc' (OrderId e)
  = Some {| Direction := Sell; Quantity := - lots |} ->
  exists self',
    (ExecuteSellOrder qc lots ;;; OnOrderEvent qc' e)%py self = Ok (tt, self')
    /\ openSellLots self' == openSellLots self + 2 * lots
    /\ openBuyLots self' = openBuyLots self.
Proof.
  intros Hline Hfill Horder.
  destruct (Basic_ExecuteSellOrder_spec qc lots self line Hline)
    as [mid [E [Hb Hs]]].
  rewrite Hfill in Hs. destruct Hs as [Hs _].
  unfold Py.bind. rewrite E.
  rewrite (Basic_OnOrderEvent_filled qc' e _ mid event_filled Horder).
  eexists. split; [reflexivity |]. simpl. rewrite Hb, Hs.
  split; [| reflexivity].
  assert (Ha : Qabs (- lots) == lots).
  { rewrite Qabs_opp. apply Qabs_pos. lra. }
  rewrite Ha. ring.
Qed.

End BasicDoubleCount.

Section EnhancedDoubleCount.

Import TrailingStopWalkthroughExample.

Variables qc qc' : Platform.
Variable e : OrderEvent.
Variable lots : Q.
Variable self : Self.

Hypothesis positive : 0 < lots.
Hypothesis event_filled : Status e = Filled.

Lemma Enhanced_buy_counted_twice (line : Q) :
  buyLine self = Some line ->
  MarketOrder_Status qc (symbol self) lots = Filled ->
  GetOrderById qc' (OrderId e) = Some {| Direction := Buy; Quantity := lots |} ->
  exists self',
    (ExecuteBuyOrder qc lots ;;; OnOrderEvent qc' e)%py self = Ok (tt, self')
    /\ openBuyLots self' == openBuyLots self + 2 * lots
    /\ openSellLots self' = openSellLots self.
Proof.
  intros Hline Hfill Horder.
  destruct (Enhanced_ExecuteBuyOrder_spec qc lots self line Hline)
    as [mid [E [Hs Hb]]].
  rewrite Hfill in Hb. destruct Hb as [Hb _].
  unfold Py.bind. rewrite E.
  rewrite (Enhanced_OnOrderEvent_filled qc' e _ mid event_filled Horder).
  eexists. split; [reflexivity |]. simpl. rewrite Hb, Hs.
  split; [| reflexivity]. rewrite Qabs_pos by lra. ring.
Qed.

Lemma Enhanced_sell_counted_twice (line : Q) :
  sellLine self = Some line ->
  MarketOrder_Status qc (symbol self) (- lots) = Filled ->
  GetOrderById qc' (OrderId e)
  = Some {| Direction := Sell; Quantity := - lots |} ->
  exists self',
    (ExecuteSellOrder qc lots ;;; OnOrderEvent qc' e)%py self = Ok (tt, self')
    /\ openSellLots self' == openSellLots self + 2 * lots
    /\ openBuyLots self' = openBuyLots self.
Proof.
  intros Hline Hfill Horder.
  destruct (Enhanced_ExecuteSellOrder_spec qc lots self line Hline)
    as [mid [E [Hb Hs]]].
  rewrite Hfill in Hs. destruct Hs as [Hs _].
  unfold Py.bind. rewrite E.
  rewrite (Enhanced_OnOrderEvent_filled qc' e _ mid event_filled Horder).
  eexists. split; [reflexivity |]. simpl. rewrite Hb, Hs.
  split; [| reflexivity].
  assert (Ha : Qabs (- lots) == lots).
  { rewrite Qabs_opp. apply Qabs_pos. lra. }
  rewrite Ha. ring.
Qed.

End EnhancedDoubleCount.

(** C9 (double counting).  A buy entry of [lots > 0] whose market order
    fills adds [lots] to [openBuyLots] in [ExecuteBuyOrder]; the fill event
    of that same order (direction [Buy], quantity [lots]) adds [|lots|]
    again in [OnOrderEvent].  After both, [openBuyLots] has grown by
    [2 * lots], and [openSellLots] not at all.  Symmetrically for a sell
    entry, whose order has direction [Sell] and quantity [-lots].  Both
    variants. *)
Theorem filled_entry_is_counted_twice :
  (forall qc qc' e lots (self : Basic.Self) line,
     0 < lots ->
     Status e = Filled ->
     Basic.buyLine self = Some line ->
     MarketOrder_Status qc (Basic.symbol self) lots = Filled ->
     GetOrderById qc' (OrderId e)
     = Some {| Direction := Buy; Quantity := lots |} ->
     exists self',
       (Basic.ExecuteBuyOrder qc lots ;;; Basic.OnOrderEvent qc' e)%py self
       = Ok (tt, self')
       /\ Basic.openBuyLots self' == Basic.openBuyLots self + 2 * lots
       /\ Basic.openSellLots self' = Basic.openSellLots self)
  /\ (forall qc qc' e lots (self : Basic.Self) line,
     0 < lots ->
     Status e = Filled ->
     Basic.sellLine self = Some line ->
     MarketOrder_Status qc (Basic.symbol self) (- lots) = Filled ->
     GetOrderById qc' (OrderId e)
     = Some {| Direction := Sell; Quantity := - lots |} ->
     exists self',
       (Basic.ExecuteSellOrder qc lots ;;; Basic.OnOrderEvent qc' e)%py self
       = Ok (tt, self')
       /\ Basic.openSellLots self' == Basic.openSellLots self + 2 * lots
       /\ Basic.openBuyLots self' = Basic.openBuyLots self)
  /\ (forall qc qc' e lots (self : Enhanced.Self) line,
     0 < lots ->
     Status e = Filled ->
     Enhanced.buyLine self = Some line ->
     MarketOrder_Status qc (Enhanced.symbol self) lots = Filled ->
     GetOrderById qc' (OrderId e)
     = Some {| Direction := Buy; Quantity := lots |} ->
     exists self',
       (Enhanced.ExecuteBuyOrder qc lots ;;; Enhanced.OnOrderEvent qc' e)%py
         self = Ok (tt, self')
       /\ Enhanced.openBuyLots self' == Enhanced.openBuyLots self + 2 * lots
       /\ Enhanced.openSellLots self' = Enhanced.openSellLots self)
  /\ (forall qc qc' e lots (self : Enhanced.Self) line,
     0 < lots ->
     Status e = Filled ->
     Enhanced.sellLine self = Some line ->
     MarketOrder_Status qc (Enhanced.symbol self) (- lots) = Filled ->
     GetOrderById qc' (OrderId e)
     = Some {| Direction := Sell; Quantity := - lots |} ->
     exists self',
       (Enhanced.ExecuteSellOrder qc lots ;;; Enhanced.OnOrderEvent qc' e)%py
         self = Ok (tt, self')
       /\ Enhanced.openSellLots self' == Enhanced.openSellLots self + 2 * lots
       /\ Enhanced.openBuyLots self' = Enhanced.openBuyLots self).
Proof.
  split; [| split; [| split]];
    intros qc qc' e lots self line Hpos He Hline Hfill Horder.
  - now apply Basic_buy_counted_twice with (line := line).
  - now apply Basic_sell_counted_twice with (line := line).
  - now apply Enhanced_buy_counted_twice with (line := line).
  - now apply Enhanced_sell_counted_twice with (line := line).
Qed.

(** One filled buy of 10,000 lots from the initial exposure leaves
    [openBuyLots] at 20,000. *)
Lemma filled_entry_is_counted_twice_witness :
  0 < 10000
  /\ exists self',
       (Basic.ExecuteBuyOrder Scenario.filling 10000 ;;;
        Basic.OnOrderEvent (Scenario.knowing Scenario.buy_of_10000)
                           Scenario.filled)%py Scenario.basic_ranged
       = Ok (tt, self')
       /\ Basic.openBuyLots self' == 0 + 2 * 10000
       /\ Basic.openSellLots self' = 0.
Proof.
  split; [reflexivity |].
  apply (proj1 filled_entry_is_counted_twice
           Scenario.filling (Scenario.knowing Scenario.buy_of_10000)
           Scenario.filled 10000 Scenario.basic_ranged 1.0995);
    reflexivity.
Defined.

(** ** The enhanced sizing and [positionSize] *)

(** C10.  Two enhanced objects that differ only in [positionSize] get the
    same answer from [CalculateBuyLots] and from [CalculateSellLots],
    whatever the platform reports: the bootstrap size and the cap are both
    [TotalPortfolioValue * 0.02], and [positionSize] is not read. *)
Theorem enhanced_sizing_is_blind_to_positionSize
    (qc : Platform) (s1 s2 : Enhanced.Self) :
  Enhanced.differ_only_in_positionSize s1 s2 ->
  Enhanced.CalculateBuyLots qc s1 = Enhanced.CalculateBuyLots qc s2
  /\ Enhanced.CalculateSellLots qc s1 = Enhanced.CalculateSellLots qc s2.
Proof.
  unfold Enhanced.differ_only_in_positionSize. intros ->.
  destruct (Enhanced_sizing_ignores_positionSize
              qc s1 (Enhanced.positionSize s2)) as [-> ->].
  now split.
Qed.

(** [Initialize] sets [positionSize] to 0.1; at 0.5 instead the sizes are
    the same. *)
Lemma enhanced_sizing_is_blind_to_positionSize_witness :
  Enhanced.positionSize Enhanced.Initialize == 0.1
  /\ Enhanced.positionSize Scenario.enhanced_half == 0.5
  /\ Enhanced.differ_only_in_positionSize
       Enhanced.Initialize Scenario.enhanced_half
  /\ Enhanced.CalculateBuyLots (Scenario.account 100000 0)
                               Enhanced.Initialize
     = Enhanced.CalculateBuyLots (Scenario.account 100000 0)
                                 Scenario.enhanced_half
  /\ Enhanced.CalculateSellLots (Scenario.account 100000 0)
                                Enhanced.Initialize
     = Enhanced.CalculateSellLots (Scenario.account 100000 0)
                                  Scenario.enhanced_half.
Proof.
  split; [reflexivity |]. split; [reflexivity |].
  split; [reflexivity |].
  apply enhanced_sizing_is_blind_to_positionSize. reflexivity.
Defined.

(** The basic sizing, by contrast, reads it. *)
Lemma basic_sizing_reads_positionSize :
  exists small large,
    Basic.CalculateBuyLots (Scenario.account 1000000 0) Basic.Initialize
    = Ok small
    /\ Basic.CalculateBuyLots (Scenario.account 1000000 0)
         (Basic.set_positionSize 0.1 Basic.Initialize) = Ok large
    /\ small == 10000 /\ large == 100000.
Proof.
  do 2 eexists. split; [vm_compute; reflexivity |].
  split; [vm_compute; reflexivity |]. split; vm_compute; reflexivity.
Qed.

(** ** The tick handler and the exposure counters *)

Section BasicTick.

Import PipsAndLotsExample.

Lemma Basic_UpdateRangeLevels_exposure (qc : Platform) (self self' : Self) :
  UpdateRangeLevels qc self = Ok (tt, self') ->
  openBuyLots self' = openBuyLots self
  /\ openSellLots self' = openSellLots self.
Proof.
  unfold UpdateRangeLevels, send. run_method.
  destruct (negb (forallb (fun b => b)
              [IsReady (high qc); IsReady (low qc); IsReady (atr qc)])).
  - intro H; injection H as <-. auto.
  - destruct (is_None (buyLine self) || is_None (sellLine self)); simpl;
      intro H; injection H as <-; auto.
Qed.

(** A tick that returns has either liquidated, leaving both counters at 0,
    or left neither counter lower than it found it. *)
Lemma Basic_OnData_exposure (qc : Platform) (data : Slice)
    (self self' : Self) :
  OnData qc data self = Ok (tt, self') ->
  (openBuyLots self' = 0 /\ openSellLots self' = 0)
  \/ (openBuyLots self <= openBuyLots self'
      /\ openSellLots self <= openSellLots self').
Proof.
  unfold OnData. unfold Py.bind at 1. unfold Py.get at 1.
  destruct (IsWarmingUp qc || negb (ContainsKey data (symbol self))).
  { intro H; injection H as <-. right. split; lra. }
  unfold Py.bind at 1.
  destruct (UpdateRangeLevels qc self) as [[[] s1] | ex] eqn:Eu;
    [| discriminate].
  apply Basic_UpdateRangeLevels_exposure in Eu. destruct Eu as [Eb Es].
  unfold Py.bind at 1. unfold Py.get at 1.
  destruct (buyLine s1) as [buy |] eqn:Hbuy;
    [| intro H; injection H as <-; right; rewrite Eb, Es; split; lra].
  destruct (sellLine s1) as [sell |] eqn:Hsell;
    [| intro H; injection H as <-; right; rewrite Eb, Es; split; lra].
  unfold Py.bind at 1. unfold Py.lift at 1.
  destruct (Close data (symbol s1)) as [current_price | ex]; [| discriminate].
  unfold Py.bind at 1. unfold Py.call at 1. unfold Py.lift at 1.
  destruct (IsExcessiveDrawdown qc s1) as [drawdown | ex]; [| discriminate].
  destruct (drawdown || IsVolatilityHigh qc).
  { destruct (Basic_LiquidatePositions_resets s1) as [s2 [-> [Hb [Hs _]]]].
    intro H; injection H as <-. left. auto. }
  destruct (Py.le current_price buy).
  - unfold Py.bind at 1. unfold Py.call at 1. unfold Py.lift at 1.
    destruct (CalculateBuyLots qc s1) as [buy_lots | ex]; [| discriminate].
    destruct (Py.gt buy_lots 0) eqn:Hpos;
      [| intro H; injection H as <-; right; rewrite Eb, Es; split; lra].
    unfold Py.bind at 1. unfold Py.call at 1. unfold Py.lift at 1.
    destruct (CanTrade qc s1) as [[] | ex];
      [| intro H; injection H as <-; right; rewrite Eb, Es; split; lra
       | discriminate].
    destruct (Basic_ExecuteBuyOrder_spec qc buy_lots s1 buy Hbuy)
      as [s2 [-> [Hs Hb]]].
    intro H; injection H as <-. right. apply gt_true_iff in Hpos.
    rewrite Hs, <- Eb, <- Es.
    destruct (MarketOrder_Status qc (symbol s1) buy_lots);
      destruct Hb as [-> _]; split; lra.
  - destruct (Py.ge current_price sell);
      [| intro H; injection H as <-; right; rewrite Eb, Es; split; lra].
    unfold Py.bind at 1. unfold Py.call at 1. unfold Py.lift at 1.
    destruct (CalculateSellLots qc s1) as [sell_lots | ex]; [| discriminate].
    destruct (Py.gt sell_lots 0) eqn:Hpos;
      [| intro H; injection H as <-; right; rewrite Eb, Es; split; lra].
    unfold Py.bind at 1. unfold Py.call at 1. unfold Py.lift at 1.
    destruct (CanTrade qc s1) as [[] | ex];
      [| intro H; injection H as <-; right; rewrite Eb, Es; split; lra
       | discriminate].
    destruct (Basic_ExecuteSellOrder_spec qc sell_lots s1 sell Hsell)
      as [s2 [-> [Hb Hs]]].
    intro H; injection H as <-. right. apply gt_true_iff in Hpos.
    rewrite Hb, <- Eb, <- Es.
    destruct (MarketOrder_Status qc (symbol s1) (- sell_lots));
      destruct Hs as [-> _]; split; lra.
Qed.

End BasicTick.

Section EnhancedTick.

Import TrailingStopWalkthroughExample.

Lemma Enhanced_UpdateRangeLevels_exposure (qc : Platform) (self self' : Self) :
  UpdateRangeLevels qc self = Ok (tt, self') ->
  openBuyLots self' = openBuyLots self
  /\ openSellLots self' = openSellLots self.
Proof.
  unfold UpdateRangeLevels, send. run_method.
  destruct (negb (forallb (fun b => b)
              [IsReady (high qc); IsReady (low qc); IsReady (atr qc)])).
  - intro H; injection H as <-. auto.
  - destruct (is_None (buyLine self) || is_None (sellLine self)
              || (range_update_interval self
                    <=? Time qc - last_range_update self)%Z); simpl;
      intro H; injection H as <-; auto.
Qed.

(** A tick that returns has either liquidated, leaving both counters at 0,
    or left neither counter lower than it found it. *)
Lemma Enhanced_OnData_exposure (qc : Platform) (data : Slice)
    (self self' : Self) :
  OnData qc data self = Ok (tt, self') ->
  (openBuyLots self' = 0 /\ openSellLots self' = 0)
  \/ (openBuyLots self <= openBuyLots self'
      /\ openSellLots self <= openSellLots self').
Proof.
  unfold OnData. unfold Py.bind at 1. unfold Py.get at 1.
  destruct (IsWarmingUp qc || negb (ContainsKey data (symbol self))).
  { intro H; injection H as <-. right. split; lra. }
  unfold Py.bind at 1. unfold Py.call at 1. unfold Py.lift at 1.
  destruct (IsRangeBound qc self) as [range_bound | ex]; [| discriminate].
  destruct (negb range_bound).
  { intro H; injection H as <-. right. split; lra. }
  unfold Py.bind at 1.
  destruct (UpdateRangeLevels qc self) as [[[] s1] | ex] eqn:Eu;
    [| discriminate].
  apply Enhanced_UpdateRangeLevels_exposure in Eu. destruct Eu as [Eb Es].
  unfold Py.bind at 1. unfold Py.get at 1.
  destruct (buyLine s1) as [buy |] eqn:Hbuy;
    [| intro H; injection H as <-; right; rewrite Eb, Es; split; lra].
  destruct (sellLine s1) as [sell |] eqn:Hsell;
    [| intro H; injection H as <-; right; rewrite Eb, Es; split; lra].
  unfold Py.bind at 1. unfold Py.lift at 1.
  destruct (Close data (symbol s1)) as [current_price | ex]; [| discriminate].
  unfold Py.bind at 1. unfold Py.call at 1. unfold Py.lift at 1.
  destruct (IsExcessiveDrawdown qc s1) as [drawdown | ex]; [| discriminate].
  destruct (drawdown || IsVolatilityHigh qc).
  { destruct (Enhanced_LiquidatePositions_resets s1) as [s2 [-> [Hb [Hs _]]]].
    intro H; injection H as <-. left. auto. }
  destruct (Py.le current_price buy).
  - unfold Py.bind at 1. unfold Py.call at 1. unfold Py.lift at 1.
    destruct (CalculateBuyLots qc s1) as [buy_lots | ex]; [| discriminate].
    destruct (Py.gt buy_lots 0) eqn:Hpos;
      [| intro H; injection H as <-; right; rewrite Eb, Es; split; lra].
    unfold Py.bind at 1. unfold Py.call at 1. unfold Py.lift at 1.
    destruct (CanTrade qc s1) as [[] | ex];
      [| intro H; injection H as <-; right; rewrite Eb, Es; split; lra
       | discriminate].
    destruct (Enhanced_ExecuteBuyOrder_spec qc buy_lots s1 buy Hbuy)
      as [s2 [-> [Hs Hb]]].
    intro H; injection H as <-. right. apply gt_true_iff in Hpos.
    rewrite Hs, <- Eb, <- Es.
    destruct (MarketOrder_Status qc (symbol s1) buy_lots);
      destruct Hb as [-> _]; split; lra.
  - destruct (Py.ge current_price sell);
      [| intro H; injection H as <-; right; rewrite Eb, Es; split; lra].
    unfold Py.bind at 1. unfold Py.call at 1. unfold Py.lift at 1.
    destruct (CalculateSellLots qc s1) as [sell_lots | ex]; [| discriminate].
    destruct (Py.gt sell_lots 0) eqn:Hpos;
      [| intro H; injection H as <-; right; rewrite Eb, Es; split; lra].
    unfold Py.bind at 1. unfold Py.call at 1. unfold Py.lift at 1.
    destruct (CanTrade qc s1) as [[] | ex];
      [| intro H; injection H as <-; right; rewrite Eb, Es; split; lra
       | discriminate].
    destruct (Enhanced_ExecuteSellOrder_spec qc sell_lots s1 sell Hsell)
      as [s2 [-> [Hb Hs]]].
    intro H; injection H as <-. right. apply gt_true_iff in Hpos.
    rewrite Hb, <- Eb, <- Es.
    destruct (MarketOrder_Status qc (symbol s1) (- sell_lots));
      destruct Hs as [-> _]; split; lra.
Qed.

End EnhancedTick.

(** C2 (exposure bookkeeping).  In both variants: every sequence of fill
    events (of orders the platform knows) and liquidation calls runs to
    completion; if it holds no liquidation, [openBuyLots] and [openSellLots]
    at its end are not below their values at its start; if it ends with a
    liquidation, both are exactly 0.  A fill adds the absolute filled
    quantity to one counter and leaves the other as it is.  The start state
    is arbitrary, so the statement covers every segment of a longer run.
    The tick handler, the one other caller that touches the counters, either
    liquidates, which leaves them at (0, 0), or leaves neither lower. *)
Theorem exposure_counters_grow_until_liquidation :
  (forall (ts : list Basic.Transition) (self : Basic.Self),
     Forall Basic.known ts ->
     exists self',
       Basic.run ts self = Ok (tt, self')
       /\ (existsb Basic.is_Liquidation ts = false ->
           Basic.openBuyLots self <= Basic.openBuyLots self'
           /\ Basic.openSellLots self <= Basic.openSellLots self')
       /\ (forall pre, ts = pre ++ [Basic.Liquidation] ->
           Basic.openBuyLots self' = 0 /\ Basic.openSellLots self' = 0))
  /\ (forall (ts : list Enhanced.Transition) (self : Enhanced.Self),
     Forall Enhanced.known ts ->
     exists self',
       Enhanced.run ts self = Ok (tt, self')
       /\ (existsb Enhanced.is_Liquidation ts = false ->
           Enhanced.openBuyLots self <= Enhanced.openBuyLots self'
           /\ Enhanced.openSellLots self <= Enhanced.openSellLots self')
       /\ (forall pre, ts = pre ++ [Enhanced.Liquidation] ->
           Enhanced.openBuyLots self' = 0 /\ Enhanced.openSellLots self' = 0))
  /\ (forall qc e order (self : Basic.Self),
     Status e = Filled ->
     GetOrderById qc (OrderId e) = Some order ->
     exists self',
       Basic.OnOrderEvent qc e self = Ok (tt, self')
       /\ Basic.openBuyLots self' + Basic.openSellLots self'
          == Basic.openBuyLots self + Basic.openSellLots self
             + Qabs (Quantity order)
       /\ (Basic.openBuyLots self' = Basic.openBuyLots self
           \/ Basic.openSellLots self' = Basic.openSellLots self))
  /\ (forall qc e order (self : Enhanced.Self),
     Status e = Filled ->
     GetOrderById qc (OrderId e) = Some order ->
     exists self',
       Enhanced.OnOrderEvent qc e self = Ok (tt, self')
       /\ Enhanced.openBuyLots self' + Enhanced.openSellLots self'
          == Enhanced.openBuyLots self + Enhanced.openSellLots self
             + Qabs (Quantity order)
       /\ (Enhanced.openBuyLots self' = Enhanced.openBuyLots self
           \/ Enhanced.openSellLots self' = Enhanced.openSellLots self))
  /\ (forall qc data (self self' : Basic.Self),
     Basic.OnData qc data self = Ok (tt, self') ->
     (Basic.openBuyLots self' = 0 /\ Basic.openSellLots self' = 0)
     \/ (Basic.openBuyLots self <= Basic.openBuyLots self'
         /\ Basic.openSellLots self <= Basic.openSellLots self'))
  /\ (forall qc data (self self' : Enhanced.Self),
     Enhanced.OnData qc data self = Ok (tt, self') ->
     (Enhanced.openBuyLots self' = 0 /\ Enhanced.openSellLots self' = 0)
     \/ (Enhanced.openBuyLots self <= Enhanced.openBuyLots self'
         /\ Enhanced.openSellLots self <= Enhanced.openSellLots self')).
Proof.
  split; [exact Basic_exposure_bookkeeping |].
  split; [exact Enhanced_exposure_bookkeeping |].
  split; [| split; [| split]].
  - intros qc e order self Hs Ho. eexists.
    split; [now apply Basic_OnOrderEvent_filled with (order := order) |].
    destruct (Direction order); simpl; split; auto; ring.
  - intros qc e order self Hs Ho. eexists.
    split; [now apply Enhanced_OnOrderEvent_filled with (order := order) |].
    destruct (Direction order); simpl; split; auto; ring.
  - exact Basic_OnData_exposure.
  - exact Enhanced_OnData_exposure.
Qed.

Lemma exposure_counters_grow_until_liquidation_witness :
  Forall Basic.known Scenario.two_fills
  /\ existsb Basic.is_Liquidation Scenario.two_fills = false
  /\ (exists self',
        Basic.run Scenario.two_fills Basic.Initialize = Ok (tt, self')
        /\ Basic.openBuyLots Basic.Initialize <= Basic.openBuyLots self'
        /\ Basic.openSellLots Basic.Initialize <= Basic.openSellLots self')
  /\ (exists self',
        Basic.run (Scenario.two_fills ++ [Basic.Liquidation]) Basic.Initialize
        = Ok (tt, self')
        /\ Basic.openBuyLots self' = 0 /\ Basic.openSellLots self' = 0).
Proof.
  assert (Hk : Forall Basic.known Scenario.two_fills).
  { repeat constructor; simpl; discriminate. }
  split; [exact Hk |]. split; [reflexivity |]. split.
  - destruct (proj1 exposure_counters_grow_until_liquidation
                _ Basic.Initialize Hk) as [self' [E [Hgrow _]]].
    exists self'. split; [exact E |]. apply Hgrow. reflexivity.
  - destruct (proj1 exposure_counters_grow_until_liquidation
                (Scenario.two_fills ++ [Basic.Liquidation]) Basic.Initialize)
      as [self' [E [_ Hzero]]].
    + apply Forall_app. split; [exact Hk | repeat constructor].
    + exists self'. split; [exact E |]. now apply (Hzero Scenario.two_fills).
Defined.

(** ** Two ticks, end to end *)

(** Basic variant, first tick after warm-up, close below the support: the
    lines are set and plotted, 1% of the portfolio is bought at market, the
    order fills, and the stop and the limit follow. *)
Lemma Basic_OnData_first_entry :
  exists self',
    Basic.OnData Scenario.filling (Scenario.bar 1.0990) Basic.Initialize
    = Ok (tt, self')
    /\ Basic.buyLine self' = Some (1.1000 - 0.0010 * 0.5)
    /\ Basic.sellLine self' = Some (1.1050 + 0.0010 * 0.5)
    /\ Basic.openBuyLots self' = 0 + 1000000 * 0.01
    /\ Basic.openSellLots self' = 0
    /\ Basic.sent self'
       = [Plot "Range Levels" "Support" (1.1000 - 0.0010 * 0.5);
          Plot "Range Levels" "Resistance" (1.1050 + 0.0010 * 0.5);
          MarketOrder "EURUSD" (1000000 * 0.01);
          StopMarketOrder "EURUSD" (- (1000000 * 0.01))
            (1.1000 - 0.0010 * 0.5 - 0.0010);
          LimitOrder "EURUSD" (- (1000000 * 0.01))
            (1.1000 - 0.0010 * 0.5 + 0.0010 * 2)].
Proof.
  eexists. split; [vm_compute; reflexivity |].
  repeat split; vm_compute; reflexivity.
Qed.

(** Enhanced variant, same situation in a quiet market: 2% of the portfolio,
    lines one ATR outside the rolling range. *)
Lemma Enhanced_OnData_first_entry :
  exists self',
    Enhanced.OnData Scenario.quiet_market (Scenario.bar 0.9975)
                    Enhanced.Initialize
    = Ok (tt, self')
    /\ Enhanced.buyLine self' = Some (0.9990 - 0.0010 * 1.0)
    /\ Enhanced.sellLine self' = Some (1.0010 + 0.0010 * 1.0)
    /\ Enhanced.openBuyLots self' = 0 + 100000 * 0.02
    /\ Enhanced.openSellLots self' = 0
    /\ Enhanced.sent self'
       = [Plot "Range Levels" "Support" (0.9990 - 0.0010 * 1.0);
          Plot "Range Levels" "Resistance" (1.0010 + 0.0010 * 1.0);
          MarketOrder "EURUSD" (100000 * 0.02);
          StopMarketOrder "EURUSD" (- (100000 * 0.02))
            (0.9990 - 0.0010 * 1.0 - 0.0010);
          LimitOrder "EURUSD" (- (100000 * 0.02))
            (0.9990 - 0.0010 * 1.0 + 0.0010 * 2)].
Proof.
  eexists. split; [vm_compute; reflexivity |].
  repeat split; vm_compute; reflexivity.
Qed.

(** A drawdown beyond 2% liquidates instead and resets the counters. *)
Lemma Basic_OnData_liquidates_on_drawdown :
  exists self',
    Basic.OnData (Scenario.platform 1000000 (-25000) 1000000
                    (Scenario.ready 1.1050) (Scenario.ready 1.1000)
                    (Scenario.ready 0.0010) Scenario.no_bands 0 0
                    Filled None 0)
                 (Scenario.bar 1.0990) Scenario.basic_long_10000
    = Ok (tt, self')
    /\ Basic.openBuyLots self' = 0
    /\ Basic.openSellLots self' = 0
    /\ In Liquidate (Basic.sent self').
Proof.
  eexists. split; [vm_compute; reflexivity |].
  split; [reflexivity |]. split; [reflexivity |].
  simpl. auto.
Qed.

(** * Further properties of the code *)

(** ** The overlay, call by call *)





(** What [ManageRisk] answers does not depend on [exit_triggered]: two
    overlays with the same threshold give the same answer, an exception
    included. *)
Theorem ManageRisk_answer_ignores_exit_triggered
    (algorithm : Platform) (targets : list PortfolioTarget) (s1 s2 : Risk.t) :
  Risk.maximum_drawdown_percent s1 = Risk.maximum_drawdown_percent s2 ->
  answer (Risk.ManageRisk algorithm targets s1)
  = answer (Risk.ManageRisk algorithm targets s2).
Proof.
  intro Hthr. unfold Risk.ManageRisk, Py.bind, Py.lift, Py.get.
  destruct (Py.div (TotalUnrealizedProfit (portfolio algorithm))
                   (TotalPortfolioValue (portfolio algorithm)))
    as [ratio | ex]; [| reflexivity].
  rewrite Hthr.
  destruct (Py.lt ratio (- Risk.maximum_drawdown_percent s2));
    [reflexivity |].
  destruct (Risk.exit_triggered s1 && Py.ge ratio 0);
    destruct (Risk.exit_triggered s2 && Py.ge ratio 0); reflexivity.
Qed.

Lemma ManageRisk_answer_ignores_exit_triggered_witness :
  Risk.exit_triggered Scenario.latched = true
  /\ Risk.exit_triggered Basic.Initialize_RiskManagement = false
  /\ answer (Risk.ManageRisk (Scenario.account 1000000 (-10000))
                             Scenario.proposed Scenario.latched)
     = answer (Risk.ManageRisk (Scenario.account 1000000 (-10000))
                               Scenario.proposed
                               Basic.Initialize_RiskManagement).
Proof.
  split; [reflexivity |]. split; [reflexivity |].
  apply ManageRisk_answer_ignores_exit_triggered. reflexivity.
Defined.



(** ** The risk gate *)




(** With a zero [TotalPortfolioValue] the division raises: in [ManageRisk],
    in [IsExcessiveDrawdown] of both variants, and in [CanTrade] once the
    margin test has passed. *)
Theorem zero_portfolio_value_raises (qc : Platform) :
  TotalPortfolioValue (portfolio qc) == 0 ->
  (forall targets self,
     Risk.ManageRisk qc targets self = Raise ZeroDivisionError)
  /\ (forall self : Basic.Self,
        Basic.IsExcessiveDrawdown qc self = Raise ZeroDivisionError)
  /\ (forall self : Enhanced.Self,
        Enhanced.IsExcessiveDrawdown qc self = Raise ZeroDivisionError)
  /\ (forall self : Basic.Self,
        0 < MarginRemaining (portfolio qc) ->
        Basic.CanTrade qc self = Raise ZeroDivisionError)
  /\ (forall self : Enhanced.Self,
        0 < MarginRemaining (portfolio qc) ->
        Enhanced.CanTrade qc self = Raise ZeroDivisionError).
Proof.
  intro Hz. split; [| split; [| split; [| split]]].
  - intros targets self. unfold Risk.ManageRisk, Py.bind, Py.lift.
    now rewrite (div_zero _ _ Hz).
  - intro self. unfold Basic.IsExcessiveDrawdown.
    now rewrite (div_zero _ _ Hz).
  - intro self. unfold Enhanced.IsExcessiveDrawdown.
    now rewrite (div_zero _ _ Hz).
  - intros self Hm. unfold Basic.CanTrade, Basic.IsExcessiveDrawdown.
    assert (E : Py.gt (MarginRemaining (portfolio qc))
                      (TotalPortfolioValue (portfolio qc) * 0.25) = true).
    { apply gt_true_iff. rewrite Hz. lra. }
    rewrite E. now rewrite (div_zero _ _ Hz).
  - intros self Hm. unfold Enhanced.CanTrade, Enhanced.IsExcessiveDrawdown.
    assert (E : Py.gt (MarginRemaining (portfolio qc))
                      (TotalPortfolioValue (portfolio qc) * 0.4) = true).
    { apply gt_true_iff. rewrite Hz. lra. }
    rewrite E. now rewrite (div_zero _ _ Hz).
Qed.

Lemma zero_portfolio_value_raises_witness :
  Risk.ManageRisk (Scenario.account 0 (-10)) Scenario.proposed
                  Scenario.latched = Raise ZeroDivisionError
  /\ Basic.IsExcessiveDrawdown (Scenario.account 0 (-10)) Basic.Initialize
     = Raise ZeroDivisionError.
Proof.
  split.
  - apply (proj1 (zero_portfolio_value_raises
                    (Scenario.account 0 (-10)) (Qeq_refl 0))).
  - apply (proj1 (proj2 (zero_portfolio_value_raises
                           (Scenario.account 0 (-10)) (Qeq_refl 0)))).
Defined.





(** ** The volatility check of the enhanced variant *)

Section EnhancedVolatility.

Import TrailingStopWalkthroughExample.

Lemma sum_from (xs : list Q) (start : Q) :
  fold_left Qplus xs start == start + sum xs.
Proof.
  unfold sum. revert start. induction xs as [| x xs IH]; intro start; simpl.
  - ring.
  - rewrite IH, (IH (0 + x)). ring.
Qed.

Lemma sum_cons (x : Q) (xs : list Q) : sum (x :: xs) == x + sum xs.
Proof. unfold sum at 1. simpl. rewrite sum_from. ring. Qed.

Lemma sum_steady (c : Q) (xs : list Q) :
  Forall (fun x => x == c) xs ->
  sum xs == inject_Z (Z.of_nat (List.length xs)) * c.
Proof.
  induction 1 as [| x xs Hx _ IH].
  - unfold sum. simpl. ring.
  - cbv beta in Hx. rewrite sum_cons, IH. simpl List.length.
    rewrite Nat2Z.inj_succ. unfold Z.succ. rewrite inject_Z_plus.
    setoid_rewrite Hx. ring.
Qed.


Lemma IsVolatilityHigh_unfold (qc : Platform) :
  IsReady (atr qc) = true ->
  (20 <= List.length (window_values (atr_Window qc)))%nat ->
  IsVolatilityHigh qc
  = Py.gt (Current_Value (atr qc))
          (sum (firstn 20 (window_values (atr_Window qc))) / 20 * 1.2).
Proof.
  intros Hready Hlen. unfold IsVolatilityHigh. rewrite Hready. simpl negb.
  cbv iota. apply Nat.ltb_ge in Hlen. rewrite Hlen.
  rewrite div_nonzero by (vm_compute; discriminate). reflexivity.
Qed.

End EnhancedVolatility.

Lemma IsVolatilityHigh_not_ready (qc : Platform) :
  IsReady (atr qc) = false -> Enhanced.IsVolatilityHigh qc = false.
Proof. intro H. unfold Enhanced.IsVolatilityHigh. now rewrite H. Qed.

(** The enhanced [IsVolatilityHigh] says [False] while the ATR is not ready
    and while its window holds fewer than 20 readings that are not [None]. *)
Theorem IsVolatilityHigh_needs_twenty_readings (qc : Platform) :
  IsReady (atr qc) = false
  \/ (List.length (Enhanced.window_values (atr_Window qc)) < 20)%nat ->
  Enhanced.IsVolatilityHigh qc = false.
Proof.
  intros [H | H]; unfold Enhanced.IsVolatilityHigh.
  - now rewrite H.
  - destruct (IsReady (atr qc)); [| reflexivity]. simpl negb. cbv iota.
    apply Nat.ltb_lt in H. now rewrite H.
Qed.

Lemma IsVolatilityHigh_needs_twenty_readings_witness :
  (List.length (Enhanced.window_values
     (atr_Window (Scenario.with_atr_Window
                    Scenario.short_window Scenario.quiet_market)))
   < 20)%nat
  /\ Enhanced.IsVolatilityHigh
       (Scenario.with_atr_Window Scenario.short_window
                                 Scenario.quiet_market) = false.
Proof.
  split; [simpl; lia |].
  apply IsVolatilityHigh_needs_twenty_readings. right. simpl. lia.
Defined.



(** A steady ATR is never high: if the first 20 readings all equal the
    current ATR, which is not negative, the answer is [False]. *)
Theorem IsVolatilityHigh_steady_is_false (qc : Platform) :
  0 <= Current_Value (atr qc) ->
  (20 <= List.length (Enhanced.window_values (atr_Window qc)))%nat ->
  Forall (fun x => x == Current_Value (atr qc))
         (firstn 20 (Enhanced.window_values (atr_Window qc))) ->
  Enhanced.IsVolatilityHigh qc = false.
Proof.
  intros Hpos Hlen Hsteady.
  destruct (IsReady (atr qc)) eqn:Hready;
    [| now apply IsVolatilityHigh_not_ready].
  rewrite (IsVolatilityHigh_unfold qc Hready Hlen). apply gt_false_iff.
  rewrite (sum_steady _ _ Hsteady), length_firstn.
  replace (Nat.min 20 (List.length (Enhanced.window_values (atr_Window qc))))
    with 20%nat by lia.
  change (inject_Z (Z.of_nat 20)) with (20 # 1).
  set (c := Current_Value (atr qc)) in *.
  assert (E : (20 # 1) * c / 20 * 1.2 == 1.2 * c) by (field).
  rewrite E. lra.
Qed.

Lemma IsVolatilityHigh_steady_is_false_witness :
  Enhanced.IsVolatilityHigh
    (Scenario.with_atr_Window Scenario.calm_window Scenario.quiet_market)
  = false.
Proof.
  apply IsVolatilityHigh_steady_is_false.
  - vm_compute. discriminate.
  - simpl. lia.
  - simpl. repeat constructor.
Defined.

(** ** More on the position sizer *)

Lemma min_le_r (a b : Q) : Py.min a b <= b.
Proof. rewrite min_Qmin. apply Q.le_min_r. Qed.

Lemma min_pos_iff (a b : Q) : 0 < Py.min a b <-> 0 < a /\ 0 < b.
Proof. rewrite min_Qmin. apply Q.min_glb_lt_iff. Qed.

(** [(r + 1) / r * x - y] is positive exactly when [y * r < (r + 1) * x],
    for a positive [r]. *)
Lemma target_pos_iff (r x y : Q) :
  0 < r -> (0 < ((r + 1) / r * x - y) * 1.1 <-> y * r < (r + 1) * x).
Proof.
  intro Hr.
  assert (E : ((r + 1) / r * x - y) * r == (r + 1) * x - y * r).
  { field. intro H. rewrite H in Hr. lra. }
  split; intro H.
  - assert (H1 : 0 < (r + 1) / r * x - y) by lra.
    assert (H2 : 0 * r < ((r + 1) / r * x - y) * r)
      by (apply Qmult_lt_r; assumption).
    rewrite E in H2. lra.
  - assert (H2 : 0 * r < ((r + 1) / r * x - y) * r) by (rewrite E; lra).
    apply Qmult_lt_r in H2; [lra | assumption].
Qed.

Lemma sizes_le_cap :
  (forall qc (self : Basic.Self) lots,
     Basic.CalculateBuyLots qc self = Ok lots
     \/ Basic.CalculateSellLots qc self = Ok lots ->
     lots <= TotalPortfolioValue (portfolio qc) * Basic.positionSize self)
  /\ (forall qc (self : Enhanced.Self) lots,
     Enhanced.CalculateBuyLots qc self = Ok lots
     \/ Enhanced.CalculateSellLots qc self = Ok lots ->
     lots <= TotalPortfolioValue (portfolio qc) * 0.02).
Proof.
  split; intros qc self lots [H | H]; revert H.
  - unfold Basic.CalculateBuyLots.
    destruct (Py.eq _ 0 && Py.eq _ 0).
    + intro H; injection H as <-. lra.
    + destruct (Py.div _ _); simpl; [| discriminate].
      intro H; injection H as <-. apply min_le_r.
  - unfold Basic.CalculateSellLots.
    destruct (Py.eq _ 0 && Py.eq _ 0).
    + intro H; injection H as <-. lra.
    + destruct (Py.div _ _); simpl; [| discriminate].
      intro H; injection H as <-. apply min_le_r.
  - unfold Enhanced.CalculateBuyLots.
    destruct (Py.eq _ 0 && Py.eq _ 0).
    + intro H; injection H as <-. lra.
    + destruct (Py.div _ _); simpl; [| discriminate].
      intro H; injection H as <-. apply min_le_r.
  - unfold Enhanced.CalculateSellLots.
    destruct (Py.eq _ 0 && Py.eq _ 0).
    + intro H; injection H as <-. lra.
    + destruct (Py.div _ _); simpl; [| discriminate].
      intro H; injection H as <-. apply min_le_r.
Qed.

(** Whatever the exposure, a size that [CalculateBuyLots] or
    [CalculateSellLots] returns is at most the per-trade cap:
    [TotalPortfolioValue * positionSize] in the basic variant,
    [TotalPortfolioValue * 0.02] in the enhanced one. *)
Theorem size_never_exceeds_cap :
  (forall qc (self : Basic.Self) lots,
     Basic.CalculateBuyLots qc self = Ok lots
     \/ Basic.CalculateSellLots qc self = Ok lots ->
     lots <= TotalPortfolioValue (portfolio qc) * Basic.positionSize self)
  /\ (forall qc (self : Enhanced.Self) lots,
     Enhanced.CalculateBuyLots qc self = Ok lots
     \/ Enhanced.CalculateSellLots qc self = Ok lots ->
     lots <= TotalPortfolioValue (portfolio qc) * 0.02).
Proof. exact sizes_le_cap. Qed.

Lemma size_never_exceeds_cap_witness :
  exists lots,
    Basic.CalculateSellLots (Scenario.account 1000000 0)
                            Scenario.basic_long_10000 = Ok lots
    /\ lots <= 1000000 * 0.01.
Proof.
  destruct Basic_scenario_B as [lots [E _]]. exists lots.
  split; [exact E |].
  apply (proj1 size_never_exceeds_cap
           (Scenario.account 1000000 0) Scenario.basic_long_10000 lots).
  right. exact E.
Defined.

Section BasicSizeSign.

Import PipsAndLotsExample.

Variable qc : Platform.
Variable self : Self.

Let cap := TotalPortfolioValue (portfolio qc) * positionSize self.

Hypothesis r2r_positive : 0 < r2r self.

Lemma Basic_buy_size_positive_iff :
  exists lots,
    CalculateBuyLots qc self = Ok lots
    /\ (0 < lots <->
        0 < cap
        /\ ((openBuyLots self == 0 /\ openSellLots self == 0)
            \/ openBuyLots self * r2r self
               < (r2r self + 1) * openSellLots self)).
Proof.
  assert (Hr : ~ r2r self == 0) by (intro H; rewrite H in r2r_positive; lra).
  destruct (Py.eq (openBuyLots self) 0 && Py.eq (openSellLots self) 0) eqn:Hz.
  - apply andb_true_iff in Hz as [Hb Hs]. apply eq_true_iff in Hb, Hs.
    destruct (Basic_bootstrap qc self Hb Hs) as [E _].
    eexists. split; [exact E |]. fold cap. tauto.
  - assert (Hnz : ~ (openBuyLots self == 0 /\ openSellLots self == 0)).
    { intros [Hb Hs]. rewrite (both_zero_true _ _ Hb Hs) in Hz.
      discriminate. }
    destruct (Basic_rebalance qc self Hr Hnz) as [E _].
    eexists. split; [exact E |]. fold cap.
    rewrite min_pos_iff, (target_pos_iff _ _ _ r2r_positive). tauto.
Qed.

Lemma Basic_sell_size_positive_iff :
  exists lots,
    CalculateSellLots qc self = Ok lots
    /\ (0 < lots <->
        0 < cap
        /\ ((openBuyLots self == 0 /\ openSellLots self == 0)
            \/ openSellLots self * r2r self
               < (r2r self + 1) * openBuyLots self)).
Proof.
  assert (Hr : ~ r2r self == 0) by (intro H; rewrite H in r2r_positive; lra).
  destruct (Py.eq (openBuyLots self) 0 && Py.eq (openSellLots self) 0) eqn:Hz.
  - apply andb_true_iff in Hz as [Hb Hs]. apply eq_true_iff in Hb, Hs.
    destruct (Basic_bootstrap qc self Hb Hs) as [_ E].
    eexists. split; [exact E |]. fold cap. tauto.
  - assert (Hnz : ~ (openBuyLots self == 0 /\ openSellLots self == 0)).
    { intros [Hb Hs]. rewrite (both_zero_true _ _ Hb Hs) in Hz.
      discriminate. }
    destruct (Basic_rebalance qc self Hr Hnz) as [_ E].
    eexists. split; [exact E |]. fold cap.
    rewrite min_pos_iff, (target_pos_iff _ _ _ r2r_positive). tauto.
Qed.

End BasicSizeSign.

Section EnhancedSizeSign.

Import TrailingStopWalkthroughExample.

Variable qc : Platform.
Variable self : Self.

Let cap := TotalPortfolioValue (portfolio qc) * 0.02.

Hypothesis r2r_positive : 0 < r2r self.

Lemma Enhanced_buy_size_positive_iff :
  exists lots,
    CalculateBuyLots qc self = Ok lots
    /\ (0 < lots <->
        0 < cap
        /\ ((openBuyLots self == 0 /\ openSellLots self == 0)
            \/ openBuyLots self * r2r self
               < (r2r self + 1) * openSellLots self)).
Proof.
  assert (Hr : ~ r2r self == 0) by (intro H; rewrite H in r2r_positive; lra).
  destruct (Py.eq (openBuyLots self) 0 && Py.eq (openSellLots self) 0) eqn:Hz.
  - apply andb_true_iff in Hz as [Hb Hs]. apply eq_true_iff in Hb, Hs.
    destruct (Enhanced_bootstrap qc self Hb Hs) as [E _].
    eexists. split; [exact E |]. fold cap. tauto.
  - assert (Hnz : ~ (openBuyLots self == 0 /\ openSellLots self == 0)).
    { intros [Hb Hs]. rewrite (both_zero_true _ _ Hb Hs) in Hz.
      discriminate. }
    destruct (Enhanced_rebalance qc self Hr Hnz) as [E _].
    eexists. split; [exact E |]. fold cap.
    rewrite min_pos_iff, (target_pos_iff _ _ _ r2r_positive). tauto.
Qed.

Lemma Enhanced_sell_size_positive_iff :
  exists lots,
    CalculateSellLots qc self = Ok lots
    /\ (0 < lots <->
        0 < cap
        /\ ((openBuyLots self == 0 /\ openSellLots self == 0)
            \/ openSellLots self * r2r self
               < (r2r self + 1) * openBuyLots self)).
Proof.
  assert (Hr : ~ r2r self == 0) by (intro H; rewrite H in r2r_positive; lra).
  destruct (Py.eq (openBuyLots self) 0 && Py.eq (openSellLots self) 0) eqn:Hz.
  - apply andb_true_iff in Hz as [Hb Hs]. apply eq_true_iff in Hb, Hs.
    destruct (Enhanced_bootstrap qc self Hb Hs) as [_ E].
    eexists. split; [exact E |]. fold cap. tauto.
  - assert (Hnz : ~ (openBuyLots self == 0 /\ openSellLots self == 0)).
    { intros [Hb Hs]. rewrite (both_zero_true _ _ Hb Hs) in Hz.
      discriminate. }
    destruct (Enhanced_rebalance qc self Hr Hnz) as [_ E].
    eexists. split; [exact E |]. fold cap.
    rewrite min_pos_iff, (target_pos_iff _ _ _ r2r_positive). tauto.
Qed.

End EnhancedSizeSign.



(** Right after a liquidation the next size, bought or sold, is the bootstrap
    size again, whatever the exposure was. *)
Theorem size_after_liquidation_is_bootstrap :
  (forall qc (self : Basic.Self),
     exists self',
       Basic.LiquidatePositions self = Ok (tt, self')
       /\ Basic.CalculateBuyLots qc self'
          = Ok (TotalPortfolioValue (portfolio qc) * Basic.positionSize self)
       /\ Basic.CalculateSellLots qc self'
          = Ok (TotalPortfolioValue (portfolio qc) * Basic.positionSize self))
  /\ (forall qc (self : Enhanced.Self),
     exists self',
       Enhanced.LiquidatePositions self = Ok (tt, self')
       /\ Enhanced.CalculateBuyLots qc self'
          = Ok (TotalPortfolioValue (portfolio qc) * 0.02)
       /\ Enhanced.CalculateSellLots qc self'
          = Ok (TotalPortfolioValue (portfolio qc) * 0.02)).
Proof.
  split; intros qc self; eexists; (split; [reflexivity |]);
    split; reflexivity.
Qed.

(** ** The prices of the protective orders *)

Lemma bracket_long (line range ratio : Q) :
  0 <= range -> 0 <= ratio ->
  line - range <= line <= line + range * ratio
  /\ (line + range * ratio) - line == ratio * (line - (line - range)).
Proof.
  intros Hr Hk. assert (0 <= range * ratio) by now apply Qmult_le_0_compat.
  split; [split; lra | ring].
Qed.

Lemma bracket_short (line range ratio : Q) :
  0 <= range -> 0 <= ratio ->
  line - range * ratio <= line <= line + range
  /\ line - (line - range * ratio) == ratio * ((line + range) - line).
Proof.
  intros Hr Hk. assert (0 <= range * ratio) by now apply Qmult_le_0_compat.
  split; [split; lra | ring].
Qed.

(** A filled buy entry is bracketed: with a non-negative ATR and [r2r], its
    stop is at or below the buy line and its limit at or above, and the
    distance to the limit is [r2r] times the distance to the stop.  A filled
    sell entry is bracketed the other way round about the sell line.  Both
    variants. *)
Theorem filled_entry_is_bracketed :
  (forall qc lots (self : Basic.Self) line,
     Basic.buyLine self = Some line ->
     MarketOrder_Status qc (Basic.symbol self) lots = Filled ->
     0 <= Current_Value (atr qc) -> 0 <= Basic.r2r self ->
     exists self' stop limit,
       Basic.ExecuteBuyOrder qc lots self = Ok (tt, self')
       /\ Basic.sent self'
          = Basic.sent self
            ++ [MarketOrder (Basic.symbol self) lots;
                StopMarketOrder (Basic.symbol self) (- lots) stop;
                LimitOrder (Basic.symbol self) (- lots) limit]
       /\ stop <= line <= limit
       /\ limit - line == Basic.r2r self * (line - stop))
  /\ (forall qc lots (self : Basic.Self) line,
     Basic.sellLine self = Some line ->
     MarketOrder_Status qc (Basic.symbol self) (- lots) = Filled ->
     0 <= Current_Value (atr qc) -> 0 <= Basic.r2r self ->
     exists self' stop limit,
       Basic.ExecuteSellOrder qc lots self = Ok (tt, self')
       /\ Basic.sent self'
          = Basic.sent self
            ++ [MarketOrder (Basic.symbol self) (- lots);
                StopMarketOrder (Basic.symbol self) lots stop;
                LimitOrder (Basic.symbol self) lots limit]
       /\ limit <= line <= stop
       /\ line - limit == Basic.r2r self * (stop - line))
  /\ (forall qc lots (self : Enhanced.Self) line,
     Enhanced.buyLine self = Some line ->
     MarketOrder_Status qc (Enhanced.symbol self) lots = Filled ->
     0 <= Current_Value (atr qc) -> 0 <= Enhanced.r2r self ->
     exists self' stop limit,
       Enhanced.ExecuteBuyOrder qc lots self = Ok (tt, self')
       /\ Enhanced.sent self'
          = Enhanced.sent self
            ++ [MarketOrder (Enhanced.symbol self) lots;
                StopMarketOrder (Enhanced.symbol self) (- lots) stop;
                LimitOrder (Enhanced.symbol self) (- lots) limit]
       /\ stop <= line <= limit
       /\ limit - line == Enhanced.r2r self * (line - stop))
  /\ (forall qc lots (self : Enhanced.Self) line,
     Enhanced.sellLine self = Some line ->
     MarketOrder_Status qc (Enhanced.symbol self) (- lots) = Filled ->
     0 <= Current_Value (atr qc) -> 0 <= Enhanced.r2r self ->
     exists self' stop limit,
       Enhanced.ExecuteSellOrder qc lots self = Ok (tt, self')
       /\ Enhanced.sent self'
          = Enhanced.sent self
            ++ [MarketOrder (Enhanced.symbol self) (- lots);
                StopMarketOrder (Enhanced.symbol self) lots stop;
                LimitOrder (Enhanced.symbol self) lots limit]
       /\ limit <= line <= stop
       /\ line - limit == Enhanced.r2r self * (stop - line)).
Proof.
  split; [| split; [| split]]; intros qc lots self line Hline Hfill Ha Hr.
  - destruct (Basic_ExecuteBuyOrder_spec qc lots self line Hline)
      as [self' [E [_ H]]].
    rewrite Hfill in H. destruct H as [_ Hsent].
    exists self'. do 2 eexists. split; [exact E |]. split; [exact Hsent |].
    now apply bracket_long.
  - destruct (Basic_ExecuteSellOrder_spec qc lots self line Hline)
      as [self' [E [_ H]]].
    rewrite Hfill in H. destruct H as [_ Hsent].
    exists self'. do 2 eexists. split; [exact E |]. split; [exact Hsent |].
    now apply bracket_short.
  - destruct (Enhanced_ExecuteBuyOrder_spec qc lots self line Hline)
      as [self' [E [_ H]]].
    rewrite Hfill in H. destruct H as [_ Hsent].
    exists self'. do 2 eexists. split; [exact E |]. split; [exact Hsent |].
    now apply bracket_long.
  - destruct (Enhanced_ExecuteSellOrder_spec qc lots self line Hline)
      as [self' [E [_ H]]].
    rewrite Hfill in H. destruct H as [_ Hsent].
    exists self'. do 2 eexists. split; [exact E |]. split; [exact Hsent |].
    now apply bracket_short.
Qed.

Lemma filled_entry_is_bracketed_witness :
  exists self' stop limit,
    Basic.ExecuteBuyOrder Scenario.filling 10000 Scenario.basic_ranged
    = Ok (tt, self')
    /\ Basic.sent self'
       = [MarketOrder "EURUSD" 10000;
          StopMarketOrder "EURUSD" (- 10000) stop;
          LimitOrder "EURUSD" (- 10000) limit]
    /\ stop <= 1.0995 <= limit
    /\ limit - 1.0995 == 2 * (1.0995 - stop).
Proof.
  apply (proj1 filled_entry_is_bracketed
           Scenario.filling 10000 Scenario.basic_ranged 1.0995).
  - reflexivity.
  - reflexivity.
  - vm_compute. discriminate.
  - vm_compute. discriminate.
Defined.

(** ** What the handlers keep *)

Lemma Forall_always {A : Type} (xs : list A) : Forall (fun _ => True) xs.
Proof. induction xs; constructor; auto. Qed.

Section BasicHandlers.

Import PipsAndLotsExample.
Import BasicCalls.

Ltac unfold_handlers :=
  unfold OnData, OnOrderEvent, UpdateRangeLevels, LiquidatePositions,
    ExecuteBuyOrder, ExecuteSellOrder, send, Py.call,
    Py.bind, Py.ret, Py.modify, Py.get, Py.lift, Py.raise, Py.num,
    Close in *.

Ltac reduce_fields :=
  cbn [symbol r2r buyLine sellLine maxDrawdown positionSize openBuyLots
       openSellLots sent set_buyLine set_sellLine set_openBuyLots
       set_openSellLots set_positionSize is_None orb andb negb] in *.

Ltac break_once :=
  match goal with
  | |- context [match ?x with _ => _ end] =>
      lazymatch x with
      | context [match _ with _ => _ end] => fail
      | _ => destruct x eqn:?
      end
  end.

Ltac split_handler := unfold_handlers; repeat (reduce_fields; break_once);
  reduce_fields.

Ltac recall_lines :=
  repeat match goal with
         | E : buyLine _ = _ |- _ => rewrite E
         | E : sellLine _ = _ |- _ => rewrite E
         end.

Ltac tidy_options :=
  repeat match goal with
         | E : Some ?a = Some ?b |- _ =>
             injection E as E; first [subst a | subst b | clear E]
         | E : None = Some _ |- _ => discriminate E
         | E : Some _ = None |- _ => discriminate E
         end.

Ltac finished H :=
  try discriminate H; injection H as <-; reduce_fields; tidy_options;
  recall_lines; reduce_fields.

Lemma Basic_handle_configuration (c : Call) (self self' : Self) :
  handle c self = Ok (tt, self') -> same_configuration self self'.
Proof.
  unfold same_configuration. destruct c as [qc data | qc e]; simpl handle;
    split_handler; intro H; finished H; auto.
Qed.

Lemma Basic_handle_lines_kept (c : Call) (self self' : Self) (b s : Q) :
  buyLine self = Some b -> sellLine self = Some s ->
  handle c self = Ok (tt, self') ->
  buyLine self' = Some b /\ sellLine self' = Some s.
Proof.
  intros Hb Hs. destruct c as [qc data | qc e]; simpl handle;
    unfold_handlers; rewrite ?Hb, ?Hs; reduce_fields;
    repeat (reduce_fields; break_once); reduce_fields;
    intro H; finished H;
    try (rewrite Hb in *); try (rewrite Hs in *); reduce_fields;
    try discriminate; try (split; congruence).
Qed.

Lemma Basic_handle_lines_paired (c : Call) (self self' : Self) :
  lines_paired (buyLine self) (sellLine self) ->
  handle c self = Ok (tt, self') ->
  lines_paired (buyLine self') (sellLine self').
Proof.
  unfold lines_paired. intro Hp. destruct c as [qc data | qc e]; simpl handle;
    split_handler; intro H; finished H; auto.
Qed.

Lemma Basic_handle_lines_ordered (c : Call) (self self' : Self) :
  sound c ->
  lines_ordered (buyLine self) (sellLine self) ->
  handle c self = Ok (tt, self') ->
  lines_ordered (buyLine self') (sellLine self').
Proof.
  intros Hc Ho. destruct c as [qc data | qc e]; simpl handle; simpl in Hc;
    split_handler; intro H; finished H; try exact Ho.
  all: destruct Hc; apply range_ordered; [assumption | assumption | lra].
Qed.

Lemma Basic_handle_counters (c : Call) (self self' : Self) :
  0 <= openBuyLots self -> 0 <= openSellLots self ->
  handle c self = Ok (tt, self') ->
  0 <= openBuyLots self' /\ 0 <= openSellLots self'.
Proof.
  intros Hb Hs. destruct c as [qc data | qc e]; simpl handle; intro H.
  - destruct (Basic_OnData_exposure qc data self self' H) as [[-> ->] | [? ?]];
      split; lra.
  - destruct (Basic_OnOrderEvent_grows qc e self self' H). split; lra.
Qed.

Lemma Basic_buy_quantity (qc : Platform) (s : Self) (lots : Q) :
  CalculateBuyLots qc s = Ok lots -> Py.gt lots 0 = true ->
  0 < Qabs lots <= TotalPortfolioValue (portfolio qc) * positionSize s.
Proof.
  intros E Hpos. apply gt_true_iff in Hpos.
  rewrite Qabs_pos by lra. split; [exact Hpos |].
  apply (proj1 sizes_le_cap qc s lots). now left.
Qed.

Lemma Basic_sell_quantity (qc : Platform) (s : Self) (lots : Q) :
  CalculateSellLots qc s = Ok lots -> Py.gt lots 0 = true ->
  0 < Qabs (- lots) <= TotalPortfolioValue (portfolio qc) * positionSize s.
Proof.
  intros E Hpos. apply gt_true_iff in Hpos.
  rewrite Qabs_opp, Qabs_pos by lra. split; [exact Hpos |].
  apply (proj1 sizes_le_cap qc s lots). now right.
Qed.

Ltac note_quantity :=
  try match goal with
      | Hc : CalculateBuyLots ?qc ?s = Ok ?l, Hp : Py.gt ?l 0 = true |- _ =>
          pose proof (Basic_buy_quantity qc s l Hc Hp)
      end;
  try match goal with
      | Hc : CalculateSellLots ?qc ?s = Ok ?l, Hp : Py.gt ?l 0 = true |- _ =>
          pose proof (Basic_sell_quantity qc s l Hc Hp)
      end;
  reduce_fields.

Ltac give_requests :=
  rewrite <- ?app_assoc; cbn [app];
  lazymatch goal with
  | |- exists plots action,
         ?l ++ Plot ?c1 ?s1 ?v1 :: Plot ?c2 ?s2 ?v2 :: ?rest = _ /\ _ =>
      exists [Plot c1 s1 v1; Plot c2 s2 v2], rest
  | |- exists plots action, ?l ++ ?rest = _ /\ _ => exists [], rest
  | |- exists plots action, ?l = _ /\ _ => exists [], []
  end;
  split; [cbn [app]; rewrite ?app_nil_r; reflexivity | split].

Ltac show_plots :=
  first [left; reflexivity | right; do 2 eexists; reflexivity].

Ltac show_entry :=
  first [left; reflexivity
        | right; do 3 eexists; split; cycle 1; [reflexivity | ring]].

Ltac show_action :=
  first [left; reflexivity
        | right; left; reflexivity
        | right; right; eexists; split; cycle 1;
          [show_entry | eassumption]].

Lemma Basic_OnData_requests (qc : Platform) (data : Slice)
    (self self' : Self) :
  OnData qc data self = Ok (tt, self') ->
  exists plots action,
    sent self' = sent self ++ plots ++ action
    /\ tick_plots plots
    /\ tick_action (symbol self)
         (TotalPortfolioValue (portfolio qc) * positionSize self) action.
Proof.
  split_handler; intro H; finished H; note_quantity;
    (give_requests; [show_plots | show_action]).
Qed.

Lemma Basic_serve_preserves (R : Self -> Self -> Prop) (good : Call -> Prop) :
  (forall s, R s s) ->
  (forall s1 s2 s3, R s1 s2 -> R s2 s3 -> R s1 s3) ->
  (forall c s s', good c -> handle c s = Ok (tt, s') -> R s s') ->
  forall cs s s', Forall good cs -> serve cs s = Ok (tt, s') -> R s s'.
Proof.
  intros Hrefl Htrans Hstep cs. induction cs as [| c cs IH]; intros s s' Hg.
  - simpl. unfold Py.ret. intro H; injection H as <-. apply Hrefl.
  - simpl. unfold Py.bind. inversion Hg as [| ? ? Hc Hcs]; subst.
    destruct (handle c s) as [[[] mid] | ex] eqn:E; [| discriminate].
    intro H. apply Htrans with mid; [now apply (Hstep c) | now apply IH].
Qed.

Lemma Basic_handle_appends (c : Call) (self self' : Self) :
  handle c self = Ok (tt, self') ->
  exists requests, sent self' = sent self ++ requests.
Proof.
  destruct c as [qc data | qc e]; simpl handle.
  - intro H. destruct (Basic_OnData_requests qc data self self' H)
      as [plots [action [E _]]]. now exists (plots ++ action).
  - split_handler; intro H; finished H; exists []; now rewrite app_nil_r.
Qed.

Lemma Basic_no_buy_when_long (qc : Platform) (s : Self) (lots : Q) :
  0 < r2r s -> openSellLots s == 0 -> 0 < openBuyLots s ->
  CalculateBuyLots qc s = Ok lots -> Py.gt lots 0 = false.
Proof.
  intros Hr Hs Hb E.
  destruct (Basic_buy_size_positive_iff qc s Hr) as [lots' [E' Hiff]].
  rewrite E in E'. injection E' as <-.
  apply gt_false_iff. destruct (Qlt_le_dec 0 lots) as [H | H]; [| exact H].
  apply Hiff in H. destruct H as [_ [[H _] | H]].
  - rewrite H in Hb. lra.
  - rewrite Hs in H. assert (0 < openBuyLots s * r2r s)
      by (apply Qmult_lt_0_compat; assumption). lra.
Qed.

Lemma Basic_no_sell_when_short (qc : Platform) (s : Self) (lots : Q) :
  0 < r2r s -> openBuyLots s == 0 -> 0 < openSellLots s ->
  CalculateSellLots qc s = Ok lots -> Py.gt lots 0 = false.
Proof.
  intros Hr Hb Hs E.
  destruct (Basic_sell_size_positive_iff qc s Hr) as [lots' [E' Hiff]].
  rewrite E in E'. injection E' as <-.
  apply gt_false_iff. destruct (Qlt_le_dec 0 lots) as [H | H]; [| exact H].
  apply Hiff in H. destruct H as [_ [[_ H] | H]].
  - rewrite H in Hs. lra.
  - rewrite Hb in H. assert (0 < openSellLots s * r2r s)
      by (apply Qmult_lt_0_compat; assumption). lra.
Qed.

Ltac refute_entry Hr Hzero Hpos :=
  try match goal with
      | Hc : CalculateBuyLots ?qc ?s = Ok ?l, Hp : Py.gt ?l 0 = true |- _ =>
          rewrite (Basic_no_buy_when_long qc s l Hr Hzero Hpos Hc) in Hp;
          discriminate Hp
      end;
  try match goal with
      | Hc : CalculateSellLots ?qc ?s = Ok ?l, Hp : Py.gt ?l 0 = true |- _ =>
          rewrite (Basic_no_sell_when_short qc s l Hr Hzero Hpos Hc) in Hp;
          discriminate Hp
      end.

Lemma Basic_OnData_long_only (qc : Platform) (data : Slice)
    (self self' : Self) :
  0 < r2r self -> openSellLots self == 0 -> 0 < openBuyLots self ->
  OnData qc data self = Ok (tt, self') ->
  openBuyLots self' = openBuyLots self
  \/ (openBuyLots self' = 0 /\ openSellLots self' = 0).
Proof.
  intros Hr Hs Hb. split_handler; intro H; finished H;
    refute_entry Hr Hs Hb; auto.
Qed.

Lemma Basic_OnData_short_only (qc : Platform) (data : Slice)
    (self self' : Self) :
  0 < r2r self -> openBuyLots self == 0 -> 0 < openSellLots self ->
  OnData qc data self = Ok (tt, self') ->
  openSellLots self' = openSellLots self
  \/ (openBuyLots self' = 0 /\ openSellLots self' = 0).
Proof.
  intros Hr Hb Hs. split_handler; intro H; finished H;
    refute_entry Hr Hb Hs; auto.
Qed.

Lemma Basic_OnData_idle (qc : Platform) (data : Slice) (self : Self) :
  IsWarmingUp qc = true
  \/ data (symbol self) = None
  \/ ((buyLine self = None \/ sellLine self = None)
      /\ (IsReady (high qc) = false \/ IsReady (low qc) = false
          \/ IsReady (atr qc) = false)) ->
  OnData qc data self = Ok (tt, self).
Proof.
  intros [H | [H | [Hl Hr]]]; unfold OnData, Py.bind, Py.get.
  - now rewrite H.
  - unfold ContainsKey. rewrite H. simpl. now rewrite orb_true_r.
  - destruct (IsWarmingUp qc || negb (ContainsKey data (symbol self)));
      [reflexivity |].
    unfold UpdateRangeLevels.
    assert (E : forallb (fun b : bool => b)
                  [IsReady (high qc); IsReady (low qc); IsReady (atr qc)]
                = false).
    { destruct Hr as [-> | [-> | ->]]; simpl; rewrite ?andb_false_r;
        reflexivity. }
    rewrite E. cbn [negb]. unfold Py.ret. cbv beta iota.
    destruct Hl as [-> | ->]; [reflexivity |].
    now destruct (buyLine self).
Qed.

Lemma Basic_UpdateRangeLevels_set_once (qc : Platform) (self : Self)
    (b s : Q) :
  buyLine self = Some b -> sellLine self = Some s ->
  UpdateRangeLevels qc self = Ok (tt, self).
Proof.
  intros Hb Hs. unfold UpdateRangeLevels, Py.bind, Py.get, Py.ret.
  destruct (negb _); [reflexivity |]. now rewrite Hb, Hs.
Qed.

Lemma Basic_OnData_liquidates (qc : Platform) (data : Slice) (self : Self)
    (b s close : Q) :
  IsWarmingUp qc = false ->
  data (symbol self) = Some close ->
  buyLine self = Some b -> sellLine self = Some s ->
  IsExcessiveDrawdown qc self = Ok true
  \/ (IsExcessiveDrawdown qc self = Ok false /\ IsVolatilityHigh qc = true) ->
  exists self',
    OnData qc data self = Ok (tt, self')
    /\ openBuyLots self' = 0 /\ openSellLots self' = 0
    /\ sent self' = sent self ++ [Liquidate]
    /\ buyLine self' = Some b /\ sellLine self' = Some s.
Proof.
  intros Hw Hd Hb Hs Hrisk.
  pose proof (Basic_UpdateRangeLevels_set_once qc self b s Hb Hs) as Hu.
  unfold OnData, Py.bind, Py.get, Py.call, Py.lift, Close, ContainsKey.
  rewrite Hw, Hd. simpl. rewrite Hu. cbv beta iota.
  rewrite Hb, Hs, Hd. cbv beta iota.
  assert (E : exists d, IsExcessiveDrawdown qc self = Ok d
                        /\ d || IsVolatilityHigh qc = true).
  { destruct Hrisk as [H | [H Hv]]; eexists; (split; [exact H |]);
      [reflexivity | now rewrite Hv]. }
  destruct E as [d [-> ->]].
  eexists. split; [reflexivity |]. simpl. auto 6.
Qed.

Lemma Basic_OnData_zero_value (qc : Platform) (data : Slice) (self : Self)
    (b s close : Q) :
  TotalPortfolioValue (portfolio qc) == 0 ->
  IsWarmingUp qc = false ->
  data (symbol self) = Some close ->
  buyLine self = Some b -> sellLine self = Some s ->
  OnData qc data self = Raise ZeroDivisionError.
Proof.
  intros Hz Hw Hd Hb Hs.
  pose proof (Basic_UpdateRangeLevels_set_once qc self b s Hb Hs) as Hu.
  unfold OnData, Py.bind, Py.get, Py.call, Py.lift, Close, ContainsKey.
  rewrite Hw, Hd. simpl. rewrite Hu. cbv beta iota.
  rewrite Hb, Hs, Hd. cbv beta iota.
  unfold IsExcessiveDrawdown. now rewrite (div_zero _ _ Hz).
Qed.

End BasicHandlers.

Section EnhancedHandlers.

Import TrailingStopWalkthroughExample.
Import EnhancedCalls.

Ltac unfold_handlers :=
  unfold OnData, OnOrderEvent, UpdateRangeLevels, LiquidatePositions,
    ExecuteBuyOrder, ExecuteSellOrder, send, Py.call,
    Py.bind, Py.ret, Py.modify, Py.get, Py.lift, Py.raise, Py.num,
    Close in *.

Ltac reduce_fields :=
  cbn [symbol r2r buyLine sellLine maxDrawdown positionSize openBuyLots
       openSellLots sent range_bound_threshold range_period
       last_range_update range_update_interval set_buyLine set_sellLine
       set_openBuyLots set_openSellLots set_positionSize
       set_last_range_update is_None orb andb negb] in *.

Ltac break_once :=
  match goal with
  | |- context [match ?x with _ => _ end] =>
      lazymatch x with
      | context [match _ with _ => _ end] => fail
      | _ => destruct x eqn:?
      end
  end.

Ltac split_handler := unfold_handlers; repeat (reduce_fields; break_once);
  reduce_fields.

Ltac recall_lines :=
  repeat match goal with
         | E : buyLine _ = _ |- _ => rewrite E
         | E : sellLine _ = _ |- _ => rewrite E
         end.

Ltac tidy_options :=
  repeat match goal with
         | E : Some ?a = Some ?b |- _ =>
             injection E as E; first [subst a | subst b | clear E]
         | E : None = Some _ |- _ => discriminate E
         | E : Some _ = None |- _ => discriminate E
         end.

Ltac finished H :=
  try discriminate H; injection H as <-; reduce_fields; tidy_options;
  recall_lines; reduce_fields.

Lemma Enhanced_handle_configuration (c : Call) (self self' : Self) :
  handle c self = Ok (tt, self') -> same_configuration self self'.
Proof.
  unfold same_configuration. destruct c as [qc data | qc e]; simpl handle;
    split_handler; intro H; finished H; repeat split; reflexivity.
Qed.

Lemma Enhanced_handle_lines_paired (c : Call) (self self' : Self) :
  lines_paired (buyLine self) (sellLine self) ->
  handle c self = Ok (tt, self') ->
  lines_paired (buyLine self') (sellLine self').
Proof.
  unfold lines_paired. intro Hp. destruct c as [qc data | qc e]; simpl handle;
    split_handler; intro H; finished H; auto.
Qed.

Lemma Enhanced_handle_lines_ordered (c : Call) (self self' : Self) :
  sound c ->
  lines_ordered (buyLine self) (sellLine self) ->
  handle c self = Ok (tt, self') ->
  lines_ordered (buyLine self') (sellLine self').
Proof.
  intros Hc Ho. destruct c as [qc data | qc e]; simpl handle; simpl in Hc;
    split_handler; intro H; finished H; try exact Ho.
  all: destruct Hc; apply range_ordered; [assumption | assumption | lra].
Qed.

Lemma Enhanced_handle_counters (c : Call) (self self' : Self) :
  0 <= openBuyLots self -> 0 <= openSellLots self ->
  handle c self = Ok (tt, self') ->
  0 <= openBuyLots self' /\ 0 <= openSellLots self'.
Proof.
  intros Hb Hs. destruct c as [qc data | qc e]; simpl handle; intro H.
  - destruct (Enhanced_OnData_exposure qc data self self' H) as [[-> ->] | [? ?]];
      split; lra.
  - destruct (Enhanced_OnOrderEvent_grows qc e self self' H). split; lra.
Qed.

Lemma Enhanced_buy_quantity (qc : Platform) (s : Self) (lots : Q) :
  CalculateBuyLots qc s = Ok lots -> Py.gt lots 0 = true ->
  0 < Qabs lots <= TotalPortfolioValue (portfolio qc) * 0.02.
Proof.
  intros E Hpos. apply gt_true_iff in Hpos.
  rewrite Qabs_pos by lra. split; [exact Hpos |].
  apply (proj2 sizes_le_cap qc s lots). now left.
Qed.

Lemma Enhanced_sell_quantity (qc : Platform) (s : Self) (lots : Q) :
  CalculateSellLots qc s = Ok lots -> Py.gt lots 0 = true ->
  0 < Qabs (- lots) <= TotalPortfolioValue (portfolio qc) * 0.02.
Proof.
  intros E Hpos. apply gt_true_iff in Hpos.
  rewrite Qabs_opp, Qabs_pos by lra. split; [exact Hpos |].
  apply (proj2 sizes_le_cap qc s lots). now right.
Qed.

Ltac note_quantity :=
  try match goal with
      | Hc : CalculateBuyLots ?qc ?s = Ok ?l, Hp : Py.gt ?l 0 = true |- _ =>
          pose proof (Enhanced_buy_quantity qc s l Hc Hp)
      end;
  try match goal with
      | Hc : CalculateSellLots ?qc ?s = Ok ?l, Hp : Py.gt ?l 0 = true |- _ =>
          pose proof (Enhanced_sell_quantity qc s l Hc Hp)
      end;
  reduce_fields.

Ltac give_requests :=
  rewrite <- ?app_assoc; cbn [app];
  lazymatch goal with
  | |- exists plots action,
         ?l ++ Plot ?c1 ?s1 ?v1 :: Plot ?c2 ?s2 ?v2 :: ?rest = _ /\ _ =>
      exists [Plot c1 s1 v1; Plot c2 s2 v2], rest
  | |- exists plots action, ?l ++ ?rest = _ /\ _ => exists [], rest
  | |- exists plots action, ?l = _ /\ _ => exists [], []
  end;
  split; [cbn [app]; rewrite ?app_nil_r; reflexivity | split].

Ltac show_plots :=
  first [left; reflexivity | right; do 2 eexists; reflexivity].

Ltac show_entry :=
  first [left; reflexivity
        | right; do 3 eexists; split; cycle 1; [reflexivity | ring]].

Ltac show_action :=
  first [left; reflexivity
        | right; left; reflexivity
        | right; right; eexists; split; cycle 1;
          [show_entry | eassumption]].

Lemma Enhanced_OnData_requests (qc : Platform) (data : Slice)
    (self self' : Self) :
  OnData qc data self = Ok (tt, self') ->
  exists plots action,
    sent self' = sent self ++ plots ++ action
    /\ tick_plots plots
    /\ tick_action (symbol self)
         (TotalPortfolioValue (portfolio qc) * 0.02) action.
Proof.
  split_handler; intro H; finished H; note_quantity;
    (give_requests; [show_plots | show_action]).
Qed.

Lemma Enhanced_serve_preserves (R : Self -> Self -> Prop) (good : Call -> Prop) :
  (forall s, R s s) ->
  (forall s1 s2 s3, R s1 s2 -> R s2 s3 -> R s1 s3) ->
  (forall c s s', good c -> handle c s = Ok (tt, s') -> R s s') ->
  forall cs s s', Forall good cs -> serve cs s = Ok (tt, s') -> R s s'.
Proof.
  intros Hrefl Htrans Hstep cs. induction cs as [| c cs IH]; intros s s' Hg.
  - simpl. unfold Py.ret. intro H; injection H as <-. apply Hrefl.
  - simpl. unfold Py.bind. inversion Hg as [| ? ? Hc Hcs]; subst.
    destruct (handle c s) as [[[] mid] | ex] eqn:E; [| discriminate].
    intro H. apply Htrans with mid; [now apply (Hstep c) | now apply IH].
Qed.

Lemma Enhanced_handle_appends (c : Call) (self self' : Self) :
  handle c self = Ok (tt, self') ->
  exists requests, sent self' = sent self ++ requests.
Proof.
  destruct c as [qc data | qc e]; simpl handle.
  - intro H. destruct (Enhanced_OnData_requests qc data self self' H)
      as [plots [action [E _]]]. now exists (plots ++ action).
  - split_handler; intro H; finished H; exists []; now rewrite app_nil_r.
Qed.

Lemma Enhanced_no_buy_when_long (qc : Platform) (s : Self) (lots : Q) :
  0 < r2r s -> openSellLots s == 0 -> 0 < openBuyLots s ->
  CalculateBuyLots qc s = Ok lots -> Py.gt lots 0 = false.
Proof.
  intros Hr Hs Hb E.
  destruct (Enhanced_buy_size_positive_iff qc s Hr) as [lots' [E' Hiff]].
  rewrite E in E'. injection E' as <-.
  apply gt_false_iff. destruct (Qlt_le_dec 0 lots) as [H | H]; [| exact H].
  apply Hiff in H. destruct H as [_ [[H _] | H]].
  - rewrite H in Hb. lra.
  - rewrite Hs in H. assert (0 < openBuyLots s * r2r s)
      by (apply Qmult_lt_0_compat; assumption). lra.
Qed.

Lemma Enhanced_no_sell_when_short (qc : Platform) (s : Self) (lots : Q) :
  0 < r2r s -> openBuyLots s == 0 -> 0 < openSellLots s ->
  CalculateSellLots qc s = Ok lots -> Py.gt lots 0 = false.
Proof.
  intros Hr Hb Hs E.
  destruct (Enhanced_sell_size_positive_iff qc s Hr) as [lots' [E' Hiff]].
  rewrite E in E'. injection E' as <-.
  apply gt_false_iff. destruct (Qlt_le_dec 0 lots) as [H | H]; [| exact H].
  apply Hiff in H. destruct H as [_ [[_ H] | H]].
  - rewrite H in Hs. lra.
  - rewrite Hb in H. assert (0 < openSellLots s * r2r s)
      by (apply Qmult_lt_0_compat; assumption). lra.
Qed.

Ltac refute_entry Hr Hzero Hpos :=
  try match goal with
      | Hc : CalculateBuyLots ?qc ?s = Ok ?l, Hp : Py.gt ?l 0 = true |- _ =>
          rewrite (Enhanced_no_buy_when_long qc s l Hr Hzero Hpos Hc) in Hp;
          discriminate Hp
      end;
  try match goal with
      | Hc : CalculateSellLots ?qc ?s = Ok ?l, Hp : Py.gt ?l 0 = true |- _ =>
          rewrite (Enhanced_no_sell_when_short qc s l Hr Hzero Hpos Hc) in Hp;
          discriminate Hp
      end.

Lemma Enhanced_OnData_long_only (qc : Platform) (data : Slice)
    (self self' : Self) :
  0 < r2r self -> openSellLots self == 0 -> 0 < openBuyLots self ->
  OnData qc data self = Ok (tt, self') ->
  openBuyLots self' = openBuyLots self
  \/ (openBuyLots self' = 0 /\ openSellLots self' = 0).
Proof.
  intros Hr Hs Hb. split_handler; intro H; finished H;
    refute_entry Hr Hs Hb; auto.
Qed.

Lemma Enhanced_OnData_short_only (qc : Platform) (data : Slice)
    (self self' : Self) :
  0 < r2r self -> openBuyLots self == 0 -> 0 < openSellLots self ->
  OnData qc data self = Ok (tt, self') ->
  openSellLots self' = openSellLots self
  \/ (openBuyLots self' = 0 /\ openSellLots self' = 0).
Proof.
  intros Hr Hb Hs. split_handler; intro H; finished H;
    refute_entry Hr Hb Hs; auto.
Qed.

Lemma Enhanced_UpdateRangeLevels_returns (qc : Platform) (self : Self) :
  exists self' plots,
    UpdateRangeLevels qc self = Ok (tt, self')
    /\ sent self' = sent self ++ plots
    /\ tick_plots plots
    /\ symbol self' = symbol self
    /\ maxDrawdown self' = maxDrawdown self
    /\ (forall b s, buyLine self = Some b -> sellLine self = Some s ->
        exists b' s', buyLine self' = Some b' /\ sellLine self' = Some s').
Proof.
  unfold UpdateRangeLevels, send, Py.call, Py.bind, Py.get, Py.ret,
    Py.modify, Py.lift, Py.num.
  destruct (negb _).
  - exists self, []. rewrite app_nil_r. split; [reflexivity |].
    split; [reflexivity |]. split; [now left |]. split; [reflexivity |].
    split; [reflexivity |]. intros b s Hb Hs. eauto.
  - destruct (is_None (buyLine self) || is_None (sellLine self)
              || (range_update_interval self
                    <=? Time qc - last_range_update self)%Z).
    + reduce_fields. do 2 eexists. split; [reflexivity |]. reduce_fields.
      rewrite <- app_assoc. split; [reflexivity |].
      split; [right; do 2 eexists; reflexivity |].
      split; [reflexivity |]. split; [reflexivity |]. intros. eauto.
    + exists self, []. rewrite app_nil_r. split; [reflexivity |].
      split; [reflexivity |]. split; [now left |]. split; [reflexivity |].
      split; [reflexivity |]. intros b s Hb Hs. eauto.
Qed.

Lemma Enhanced_IsExcessiveDrawdown_frame (qc : Platform) (s s' : Self) :
  maxDrawdown s' = maxDrawdown s ->
  IsExcessiveDrawdown qc s' = IsExcessiveDrawdown qc s.
Proof. intro H. unfold IsExcessiveDrawdown. now rewrite H. Qed.

Lemma Enhanced_OnData_idle (qc : Platform) (data : Slice) (self : Self) :
  IsWarmingUp qc = true
  \/ data (symbol self) = None
  \/ IsRangeBound qc self = Ok false
  \/ (IsRangeBound qc self = Ok true
      /\ (buyLine self = None \/ sellLine self = None)
      /\ (IsReady (high qc) = false \/ IsReady (low qc) = false
          \/ IsReady (atr qc) = false)) ->
  OnData qc data self = Ok (tt, self).
Proof.
  intros [H | [H | [H | [Hrb [Hl Hr]]]]];
    unfold OnData, Py.bind, Py.get, Py.call, Py.lift.
  - now rewrite H.
  - unfold ContainsKey. rewrite H. simpl. now rewrite orb_true_r.
  - destruct (IsWarmingUp qc || negb (ContainsKey data (symbol self)));
      [reflexivity |]. now rewrite H.
  - destruct (IsWarmingUp qc || negb (ContainsKey data (symbol self)));
      [reflexivity |]. rewrite Hrb. cbn [negb].
    unfold UpdateRangeLevels.
    assert (E : forallb (fun b : bool => b)
                  [IsReady (high qc); IsReady (low qc); IsReady (atr qc)]
                = false).
    { destruct Hr as [-> | [-> | ->]]; simpl; rewrite ?andb_false_r;
        reflexivity. }
    rewrite E. cbn [negb]. unfold Py.ret. cbv beta iota.
    destruct Hl as [-> | ->]; [reflexivity |].
    now destruct (buyLine self).
Qed.

Lemma Enhanced_OnData_liquidates (qc : Platform) (data : Slice) (self : Self)
    (b s close : Q) :
  IsWarmingUp qc = false ->
  data (symbol self) = Some close ->
  IsRangeBound qc self = Ok true ->
  buyLine self = Some b -> sellLine self = Some s ->
  IsExcessiveDrawdown qc self = Ok true
  \/ (IsExcessiveDrawdown qc self = Ok false /\ IsVolatilityHigh qc = true) ->
  exists self' plots,
    OnData qc data self = Ok (tt, self')
    /\ openBuyLots self' = 0 /\ openSellLots self' = 0
    /\ sent self' = sent self ++ plots ++ [Liquidate]
    /\ tick_plots plots.
Proof.
  intros Hw Hd Hrb Hb Hs Hrisk.
  destruct (Enhanced_UpdateRangeLevels_returns qc self)
    as [s1 [plots [Hu [Hsent [Hplots [Hsym [Hmax Hlines]]]]]]].
  destruct (Hlines b s Hb Hs) as [b' [s' [Hb' Hs']]].
  unfold OnData, Py.bind, Py.get, Py.call, Py.lift, Close, ContainsKey.
  rewrite Hw, Hd. simpl. rewrite Hrb. cbn [negb]. rewrite Hu.
  cbv beta iota. rewrite Hb', Hs', Hsym, Hd. cbv beta iota.
  rewrite (Enhanced_IsExcessiveDrawdown_frame qc self s1 Hmax).
  assert (E : exists d, IsExcessiveDrawdown qc self = Ok d
                        /\ d || IsVolatilityHigh qc = true).
  { destruct Hrisk as [H | [H Hv]]; eexists; (split; [exact H |]);
      [reflexivity | now rewrite Hv]. }
  destruct E as [d [-> ->]].
  unfold LiquidatePositions, send, Py.bind, Py.modify.
  eexists. exists plots. split; [reflexivity |]. reduce_fields.
  split; [reflexivity |]. split; [reflexivity |].
  rewrite Hsent, <- app_assoc. split; [reflexivity | exact Hplots].
Qed.

Lemma Enhanced_OnData_zero_value (qc : Platform) (data : Slice) (self : Self)
    (b s close : Q) :
  TotalPortfolioValue (portfolio qc) == 0 ->
  IsWarmingUp qc = false ->
  data (symbol self) = Some close ->
  IsRangeBound qc self = Ok true ->
  buyLine self = Some b -> sellLine self = Some s ->
  OnData qc data self = Raise ZeroDivisionError.
Proof.
  intros Hz Hw Hd Hrb Hb Hs.
  destruct (Enhanced_UpdateRangeLevels_returns qc self)
    as [s1 [plots [Hu [Hsent [Hplots [Hsym [Hmax Hlines]]]]]]].
  destruct (Hlines b s Hb Hs) as [b' [s' [Hb' Hs']]].
  unfold OnData, Py.bind, Py.get, Py.call, Py.lift, Close, ContainsKey.
  rewrite Hw, Hd. simpl. rewrite Hrb. cbn [negb]. rewrite Hu.
  cbv beta iota. rewrite Hb', Hs', Hsym, Hd. cbv beta iota.
  unfold IsExcessiveDrawdown. now rewrite (div_zero _ _ Hz).
Qed.

(** A refresh is followed by a pause: after a call that recomputed the
    lines, a call less than [range_update_interval] later changes nothing. *)
Lemma Enhanced_refresh_then_pause (qc qc' : Platform) (self s1 : Self) :
  IsReady (high qc) = true -> IsReady (low qc) = true ->
  IsReady (atr qc) = true ->
  buyLine self = None \/ sellLine self = None
  \/ (range_update_interval self <= Time qc - last_range_update self)%Z ->
  UpdateRangeLevels qc self = Ok (tt, s1) ->
  (Time qc' - Time qc < range_update_interval self)%Z ->
  UpdateRangeLevels qc' s1 = Ok (tt, s1).
Proof.
  intros Hh Hl Ha Hdue Hu Hsoon.
  assert (Hs1 : exists b s, buyLine s1 = Some b /\ sellLine s1 = Some s
                            /\ last_range_update s1 = Time qc
                            /\ range_update_interval s1
                               = range_update_interval self).
  { revert Hu. unfold UpdateRangeLevels, send, Py.call, Py.bind, Py.get,
      Py.ret, Py.modify, Py.lift, Py.num.
    rewrite Hh, Hl, Ha. cbn [forallb negb andb].
    assert (E : is_None (buyLine self) || is_None (sellLine self)
                || (range_update_interval self
                      <=? Time qc - last_range_update self)%Z = true).
    { destruct Hdue as [-> | [-> | H]]; simpl.
      - reflexivity.
      - now rewrite orb_true_r.
      - apply Z.leb_le in H. rewrite H. apply orb_true_r. }
    rewrite E. reduce_fields. intro H. injection H as <-. reduce_fields.
    eauto 6. }
  destruct Hs1 as [b [s [Hb [Hs [Hlast Hint]]]]].
  unfold UpdateRangeLevels, Py.bind, Py.get, Py.ret.
  destruct (negb _); [reflexivity |].
  rewrite Hb, Hs, Hlast, Hint. simpl.
  apply Z.leb_gt in Hsoon. now rewrite Hsoon.
Qed.

End EnhancedHandlers.

(** ** Over any sequence of platform calls *)

Lemma basic_calls_return :
  exists self',
    BasicCalls.serve Replay.basic_calls Basic.Initialize = Ok (tt, self').
Proof. eexists. vm_compute. reflexivity. Qed.

Lemma enhanced_calls_return :
  exists self',
    EnhancedCalls.serve Replay.enhanced_calls Enhanced.Initialize
    = Ok (tt, self').
Proof. eexists. vm_compute. reflexivity. Qed.

Lemma basic_calls_sound : Forall BasicCalls.sound Replay.basic_calls.
Proof.
  assert (H : sound_range Scenario.filling)
    by (split; vm_compute; discriminate).
  repeat (constructor; [first [exact H | exact I] |]). constructor.
Qed.

(** No handler assigns the strategy parameters: after any sequence of
    [OnData] and [OnOrderEvent] calls that returns, [symbol], [r2r],
    [maxDrawdown] and [positionSize] (and, in the enhanced variant,
    [range_bound_threshold], [range_period] and [range_update_interval]) are
    what they were. *)
Theorem handlers_keep_configuration :
  (forall cs (self self' : Basic.Self),
     BasicCalls.serve cs self = Ok (tt, self') ->
     BasicCalls.same_configuration self self')
  /\ (forall cs (self self' : Enhanced.Self),
     EnhancedCalls.serve cs self = Ok (tt, self') ->
     EnhancedCalls.same_configuration self self').
Proof.
  split; intros cs self self' H.
  - apply (Basic_serve_preserves BasicCalls.same_configuration
             (fun _ => True)) with (cs := cs).
    + intro s. repeat split.
    + intros s1 s2 s3 [? [? [? ?]]] [? [? [? ?]]].
      repeat split; congruence.
    + intros c s s' _. apply Basic_handle_configuration.
    + apply Forall_always.
    + exact H.
  - apply (Enhanced_serve_preserves EnhancedCalls.same_configuration
             (fun _ => True)) with (cs := cs).
    + intro s. repeat split.
    + intros s1 s2 s3 [? [? [? [? [? [? ?]]]]]] [? [? [? [? [? [? ?]]]]]].
      repeat split; congruence.
    + intros c s s' _. apply Enhanced_handle_configuration.
    + apply Forall_always.
    + exact H.
Qed.

Lemma handlers_keep_configuration_witness :
  exists self',
    BasicCalls.serve Replay.basic_calls Basic.Initialize = Ok (tt, self')
    /\ Basic.r2r self' = 2
    /\ Basic.positionSize self' = 0.01.
Proof.
  destruct basic_calls_return as [self' E]. exists self'.
  split; [exact E |].
  destruct (proj1 handlers_keep_configuration _ _ _ E) as [_ [Hr [_ Hp]]].
  split; [exact Hr | exact Hp].
Defined.

(** The requests made of the platform are only ever added to: after any
    sequence of calls the log starts with what it held before. *)
Theorem requests_are_only_appended :
  (forall cs (self self' : Basic.Self),
     BasicCalls.serve cs self = Ok (tt, self') ->
     exists requests, Basic.sent self' = Basic.sent self ++ requests)
  /\ (forall cs (self self' : Enhanced.Self),
     EnhancedCalls.serve cs self = Ok (tt, self') ->
     exists requests, Enhanced.sent self' = Enhanced.sent self ++ requests).
Proof.
  split; intros cs self self' H.
  - apply (Basic_serve_preserves
             (fun s s' => exists requests,
                  Basic.sent s' = Basic.sent s ++ requests)
             (fun _ => True)) with (cs := cs).
    + intro s. exists []. now rewrite app_nil_r.
    + intros s1 s2 s3 [r1 E1] [r2 E2]. exists (r1 ++ r2).
      now rewrite E2, E1, app_assoc.
    + intros c s s' _. apply Basic_handle_appends.
    + apply Forall_always.
    + exact H.
  - apply (Enhanced_serve_preserves
             (fun s s' => exists requests,
                  Enhanced.sent s' = Enhanced.sent s ++ requests)
             (fun _ => True)) with (cs := cs).
    + intro s. exists []. now rewrite app_nil_r.
    + intros s1 s2 s3 [r1 E1] [r2 E2]. exists (r1 ++ r2).
      now rewrite E2, E1, app_assoc.
    + intros c s s' _. apply Enhanced_handle_appends.
    + apply Forall_always.
    + exact H.
Qed.

Lemma requests_are_only_appended_witness :
  exists self' requests,
    BasicCalls.serve Replay.basic_calls Basic.Initialize = Ok (tt, self')
    /\ Basic.sent self' = [] ++ requests.
Proof.
  destruct basic_calls_return as [self' E].
  destruct (proj1 requests_are_only_appended _ _ _ E) as [requests H].
  exists self', requests. split; [exact E | exact H].
Defined.

(** Set-once, basic variant: once both lines are set, no sequence of calls
    changes either of them. *)
Theorem basic_lines_are_set_once
    (cs : list BasicCalls.Call) (self self' : Basic.Self) (b s : Q) :
  Basic.buyLine self = Some b ->
  Basic.sellLine self = Some s ->
  BasicCalls.serve cs self = Ok (tt, self') ->
  Basic.buyLine self' = Some b /\ Basic.sellLine self' = Some s.
Proof.
  intros Hb Hs H.
  apply (Basic_serve_preserves
           (fun s1 s2 => Basic.buyLine s1 = Some b /\ Basic.sellLine s1 = Some s
                         -> Basic.buyLine s2 = Some b
                            /\ Basic.sellLine s2 = Some s)
           (fun _ => True)) with (cs := cs) (s := self); auto.
  - intros c s1 s2 _ Hstep [H1 H2].
    now apply (Basic_handle_lines_kept c s1 s2 b s).
  - apply Forall_always.
Qed.

Lemma basic_lines_are_set_once_witness :
  exists self',
    BasicCalls.serve Replay.basic_calls Scenario.basic_ranged = Ok (tt, self')
    /\ Basic.buyLine self' = Some 1.0995
    /\ Basic.sellLine self' = Some 1.1055.
Proof.
  assert (E : exists self',
             BasicCalls.serve Replay.basic_calls Scenario.basic_ranged
             = Ok (tt, self')) by (eexists; vm_compute; reflexivity).
  destruct E as [self' E]. exists self'. split; [exact E |].
  apply (basic_lines_are_set_once Replay.basic_calls Scenario.basic_ranged);
    [reflexivity | reflexivity | exact E].
Defined.

(** The two lines are set together and stay in order: if they are both set
    or both unset, and the support is not above the resistance, this is
    still so after any sequence of calls whose slices come with a rolling low
    not above the rolling high and a non-negative ATR.  Both variants; it
    holds of the object [Initialize] leaves. *)
Theorem lines_stay_paired_and_ordered :
  (forall cs (self self' : Basic.Self),
     Forall BasicCalls.sound cs ->
     lines_paired (Basic.buyLine self) (Basic.sellLine self) ->
     lines_ordered (Basic.buyLine self) (Basic.sellLine self) ->
     BasicCalls.serve cs self = Ok (tt, self') ->
     lines_paired (Basic.buyLine self') (Basic.sellLine self')
     /\ lines_ordered (Basic.buyLine self') (Basic.sellLine self'))
  /\ (forall cs (self self' : Enhanced.Self),
     Forall EnhancedCalls.sound cs ->
     lines_paired (Enhanced.buyLine self) (Enhanced.sellLine self) ->
     lines_ordered (Enhanced.buyLine self) (Enhanced.sellLine self) ->
     EnhancedCalls.serve cs self = Ok (tt, self') ->
     lines_paired (Enhanced.buyLine self') (Enhanced.sellLine self')
     /\ lines_ordered (Enhanced.buyLine self') (Enhanced.sellLine self')).
Proof.
  split; intros cs self self' Hsound Hp Ho H.
  - apply (Basic_serve_preserves
             (fun s1 s2 =>
                lines_paired (Basic.buyLine s1) (Basic.sellLine s1)
                /\ lines_ordered (Basic.buyLine s1) (Basic.sellLine s1) ->
                lines_paired (Basic.buyLine s2) (Basic.sellLine s2)
                /\ lines_ordered (Basic.buyLine s2) (Basic.sellLine s2))
             BasicCalls.sound) with (cs := cs) (s := self); auto.
    intros c s1 s2 Hc Hstep [H1 H2]. split.
    + now apply (Basic_handle_lines_paired c s1).
    + now apply (Basic_handle_lines_ordered c s1).
  - apply (Enhanced_serve_preserves
             (fun s1 s2 =>
                lines_paired (Enhanced.buyLine s1) (Enhanced.sellLine s1)
                /\ lines_ordered (Enhanced.buyLine s1) (Enhanced.sellLine s1)
                -> lines_paired (Enhanced.buyLine s2) (Enhanced.sellLine s2)
                   /\ lines_ordered (Enhanced.buyLine s2)
                                    (Enhanced.sellLine s2))
             EnhancedCalls.sound) with (cs := cs) (s := self); auto.
    intros c s1 s2 Hc Hstep [H1 H2]. split.
    + now apply (Enhanced_handle_lines_paired c s1).
    + now apply (Enhanced_handle_lines_ordered c s1).
Qed.

Lemma lines_stay_paired_and_ordered_witness :
  exists self',
    BasicCalls.serve Replay.basic_calls Basic.Initialize = Ok (tt, self')
    /\ lines_paired (Basic.buyLine self') (Basic.sellLine self')
    /\ lines_ordered (Basic.buyLine self') (Basic.sellLine self').
Proof.
  destruct basic_calls_return as [self' E]. exists self'.
  split; [exact E |].
  apply (proj1 lines_stay_paired_and_ordered
           Replay.basic_calls Basic.Initialize self').
  - exact basic_calls_sound.
  - reflexivity.
  - exact I.
  - exact E.
Defined.

(** The counters are never negative: from counters that are not negative, in
    particular from the zeros of [Initialize], no sequence of calls leads to a
    negative [openBuyLots] or [openSellLots]. *)
Theorem counters_stay_non_negative :
  (forall cs (self self' : Basic.Self),
     0 <= Basic.openBuyLots self -> 0 <= Basic.openSellLots self ->
     BasicCalls.serve cs self = Ok (tt, self') ->
     0 <= Basic.openBuyLots self' /\ 0 <= Basic.openSellLots self')
  /\ (forall cs (self self' : Enhanced.Self),
     0 <= Enhanced.openBuyLots self -> 0 <= Enhanced.openSellLots self ->
     EnhancedCalls.serve cs self = Ok (tt, self') ->
     0 <= Enhanced.openBuyLots self' /\ 0 <= Enhanced.openSellLots self').
Proof.
  split; intros cs self self' Hb Hs H.
  - apply (Basic_serve_preserves
             (fun s1 s2 =>
                0 <= Basic.openBuyLots s1 /\ 0 <= Basic.openSellLots s1 ->
                0 <= Basic.openBuyLots s2 /\ 0 <= Basic.openSellLots s2)
             (fun _ => True)) with (cs := cs) (s := self); auto.
    + intros c s1 s2 _ Hstep [H1 H2].
      now apply (Basic_handle_counters c s1).
    + apply Forall_always.
  - apply (Enhanced_serve_preserves
             (fun s1 s2 =>
                0 <= Enhanced.openBuyLots s1
                /\ 0 <= Enhanced.openSellLots s1 ->
                0 <= Enhanced.openBuyLots s2
                /\ 0 <= Enhanced.openSellLots s2)
             (fun _ => True)) with (cs := cs) (s := self); auto.
    + intros c s1 s2 _ Hstep [H1 H2].
      now apply (Enhanced_handle_counters c s1).
    + apply Forall_always.
Qed.

Lemma counters_stay_non_negative_witness :
  exists self',
    EnhancedCalls.serve Replay.enhanced_calls Enhanced.Initialize
    = Ok (tt, self')
    /\ 0 <= Enhanced.openBuyLots self'
    /\ 0 <= Enhanced.openSellLots self'.
Proof.
  destruct enhanced_calls_return as [self' E]. exists self'.
  split; [exact E |].
  apply (proj2 counters_stay_non_negative
           Replay.enhanced_calls Enhanced.Initialize self');
    [vm_compute; discriminate | vm_compute; discriminate | exact E].
Defined.

(** ** One tick *)

(** What one tick asks of the platform.  A call of [OnData] that returns has
    added to the log at most the two plots of a range refresh, followed by
    nothing, or by one [Liquidate], or by one entry: a market order of a
    non-zero quantity no larger in absolute value than the per-trade cap,
    alone or followed by its stop and its limit of the opposite quantity.
    So a tick never enters twice, never enters and liquidates, and never
    places a stop or a limit without its market order. *)
Theorem tick_requests :
  (forall qc data (self self' : Basic.Self),
     Basic.OnData qc data self = Ok (tt, self') ->
     exists plots action,
       Basic.sent self' = Basic.sent self ++ plots ++ action
       /\ tick_plots plots
       /\ tick_action (Basic.symbol self)
            (TotalPortfolioValue (portfolio qc) * Basic.positionSize self)
            action)
  /\ (forall qc data (self self' : Enhanced.Self),
     Enhanced.OnData qc data self = Ok (tt, self') ->
     exists plots action,
       Enhanced.sent self' = Enhanced.sent self ++ plots ++ action
       /\ tick_plots plots
       /\ tick_action (Enhanced.symbol self)
            (TotalPortfolioValue (portfolio qc) * 0.02) action).
Proof.
  split.
  - exact Basic_OnData_requests.
  - exact Enhanced_OnData_requests.
Qed.

Lemma tick_requests_witness :
  exists self' plots action,
    Basic.OnData Scenario.filling (Scenario.bar 1.0990) Basic.Initialize
    = Ok (tt, self')
    /\ Basic.sent self' = [] ++ plots ++ action
    /\ tick_plots plots
    /\ tick_action "EURUSD" (1000000 * 0.01) action.
Proof.
  destruct Basic_OnData_first_entry as [self' [E _]].
  destruct (proj1 tick_requests _ _ _ _ E) as [plots [action H]].
  exists self', plots, action. split; [exact E | exact H].
Defined.

(** When a tick does nothing at all: while the algorithm is warming up, when
    the slice does not hold the symbol, and when a line is still unset while
    one of the three range indicators is not ready (in the enhanced variant,
    the market being range-bound).  The object is left as it is and nothing
    is raised, whatever the account. *)
Theorem tick_does_nothing :
  (forall qc data (self : Basic.Self),
     IsWarmingUp qc = true
     \/ data (Basic.symbol self) = None
     \/ ((Basic.buyLine self = None \/ Basic.sellLine self = None)
         /\ (IsReady (high qc) = false \/ IsReady (low qc) = false
             \/ IsReady (atr qc) = false)) ->
     Basic.OnData qc data self = Ok (tt, self))
  /\ (forall qc data (self : Enhanced.Self),
     IsWarmingUp qc = true
     \/ data (Enhanced.symbol self) = None
     \/ (Enhanced.IsRangeBound qc self = Ok true
         /\ (Enhanced.buyLine self = None \/ Enhanced.sellLine self = None)
         /\ (IsReady (high qc) = false \/ IsReady (low qc) = false
             \/ IsReady (atr qc) = false)) ->
     Enhanced.OnData qc data self = Ok (tt, self)).
Proof.
  split; intros qc data self H.
  - now apply Basic_OnData_idle.
  - apply Enhanced_OnData_idle. tauto.
Qed.

(** Before the indicators are ready the tick returns even on an account of
    value zero: the division is never reached. *)
Lemma tick_does_nothing_witness :
  TotalPortfolioValue (portfolio Replay.early) == 0
  /\ Basic.OnData Replay.early (Scenario.bar 1.0990) Basic.Initialize
     = Ok (tt, Basic.Initialize).
Proof.
  split; [reflexivity |].
  apply (proj1 tick_does_nothing). right. right.
  split; [left; reflexivity | left; reflexivity].
Defined.

(** Outside a range the enhanced tick stops before everything else: when
    [IsRangeBound] says [False], [OnData] leaves the object as it is.  It
    does not refresh the lines and does not reach the drawdown check, so it
    does not liquidate however large the loss. *)
Theorem enhanced_tick_stops_outside_a_range
    (qc : Platform) (data : Slice) (self : Enhanced.Self) :
  Enhanced.IsRangeBound qc self = Ok false ->
  Enhanced.OnData qc data self = Ok (tt, self).
Proof. intro H. apply Enhanced_OnData_idle. tauto. Qed.

(** With a loss of 2.5% and the bands not ready, the enhanced tick keeps its
    10,000 lots on the books. *)
Lemma enhanced_tick_stops_outside_a_range_witness :
  Enhanced.IsExcessiveDrawdown Replay.losing Scenario.enhanced_long_10000
  = Ok true
  /\ Enhanced.OnData Replay.losing (Scenario.bar 1.0990)
                     Scenario.enhanced_long_10000
     = Ok (tt, Scenario.enhanced_long_10000).
Proof.
  split; [vm_compute; reflexivity |].
  apply enhanced_tick_stops_outside_a_range. reflexivity.
Defined.

(** At risk the tick liquidates and does nothing else.  Past warm-up, with
    the symbol in the slice and both lines set (and, enhanced, the market
    range-bound): if the drawdown is excessive, or is not but the volatility
    is high, [OnData] returns with both counters at 0 and [Liquidate] as the
    last and only request after the plots of a possible refresh; in the
    basic variant the lines stay as they are. *)
Theorem tick_liquidates_at_risk :
  (forall qc data (self : Basic.Self) b s close,
     IsWarmingUp qc = false ->
     data (Basic.symbol self) = Some close ->
     Basic.buyLine self = Some b -> Basic.sellLine self = Some s ->
     Basic.IsExcessiveDrawdown qc self = Ok true
     \/ (Basic.IsExcessiveDrawdown qc self = Ok false
         /\ Basic.IsVolatilityHigh qc = true) ->
     exists self',
       Basic.OnData qc data self = Ok (tt, self')
       /\ Basic.openBuyLots self' = 0 /\ Basic.openSellLots self' = 0
       /\ Basic.sent self' = Basic.sent self ++ [Liquidate]
       /\ Basic.buyLine self' = Some b /\ Basic.sellLine self' = Some s)
  /\ (forall qc data (self : Enhanced.Self) b s close,
     IsWarmingUp qc = false ->
     data (Enhanced.symbol self) = Some close ->
     Enhanced.IsRangeBound qc self = Ok true ->
     Enhanced.buyLine self = Some b -> Enhanced.sellLine self = Some s ->
     Enhanced.IsExcessiveDrawdown qc self = Ok true
     \/ (Enhanced.IsExcessiveDrawdown qc self = Ok false
         /\ Enhanced.IsVolatilityHigh qc = true) ->
     exists self' plots,
       Enhanced.OnData qc data self = Ok (tt, self')
       /\ Enhanced.openBuyLots self' = 0 /\ Enhanced.openSellLots self' = 0
       /\ Enhanced.sent self' = Enhanced.sent self ++ plots ++ [Liquidate]
       /\ tick_plots plots).
Proof.
  split.
  - intros qc data self b s close. apply Basic_OnData_liquidates.
  - intros qc data self b s close. apply Enhanced_OnData_liquidates.
Qed.

Lemma tick_liquidates_at_risk_witness :
  (exists self',
     Basic.OnData Replay.losing (Scenario.bar 1.0990) Replay.basic_exposed
     = Ok (tt, self')
     /\ Basic.openBuyLots self' = 0 /\ Basic.openSellLots self' = 0
     /\ Basic.sent self' = [Liquidate]
     /\ Basic.buyLine self' = Some 1.0995
     /\ Basic.sellLine self' = Some 1.1055)
  /\ (exists self' plots,
     Enhanced.OnData Replay.quiet_losing (Scenario.bar 0.9975)
                     Replay.enhanced_ranged = Ok (tt, self')
     /\ Enhanced.openBuyLots self' = 0 /\ Enhanced.openSellLots self' = 0
     /\ Enhanced.sent self' = [] ++ plots ++ [Liquidate]
     /\ tick_plots plots).
Proof.
  split.
  - apply (proj1 tick_liquidates_at_risk Replay.losing (Scenario.bar 1.0990)
             Replay.basic_exposed 1.0995 1.1055 1.0990);
      try reflexivity.
    left. vm_compute. reflexivity.
  - apply (proj2 tick_liquidates_at_risk Replay.quiet_losing
             (Scenario.bar 0.9975) Replay.enhanced_ranged
             0.9980 1.0020 0.9975);
      try reflexivity.
    left. vm_compute. reflexivity.
Defined.

(** A tick does not add to the only side that is open.  With a positive
    [r2r], lots bought and none sold, [OnData] leaves [openBuyLots] as it is
    (or liquidates); with lots sold and none bought it leaves [openSellLots]
    as it is (or liquidates).  Both variants. *)
Theorem tick_does_not_add_to_one_sided_exposure :
  (forall qc data (self self' : Basic.Self),
     0 < Basic.r2r self ->
     Basic.OnData qc data self = Ok (tt, self') ->
     (Basic.openSellLots self == 0 -> 0 < Basic.openBuyLots self ->
      Basic.openBuyLots self' = Basic.openBuyLots self
      \/ (Basic.openBuyLots self' = 0 /\ Basic.openSellLots self' = 0))
     /\ (Basic.openBuyLots self == 0 -> 0 < Basic.openSellLots self ->
         Basic.openSellLots self' = Basic.openSellLots self
         \/ (Basic.openBuyLots self' = 0 /\ Basic.openSellLots self' = 0)))
  /\ (forall qc data (self self' : Enhanced.Self),
     0 < Enhanced.r2r self ->
     Enhanced.OnData qc data self = Ok (tt, self') ->
     (Enhanced.openSellLots self == 0 -> 0 < Enhanced.openBuyLots self ->
      Enhanced.openBuyLots self' = Enhanced.openBuyLots self
      \/ (Enhanced.openBuyLots self' = 0
          /\ Enhanced.openSellLots self' = 0))
     /\ (Enhanced.openBuyLots self == 0 -> 0 < Enhanced.openSellLots self ->
         Enhanced.openSellLots self' = Enhanced.openSellLots self
         \/ (Enhanced.openBuyLots self' = 0
             /\ Enhanced.openSellLots self' = 0))).
Proof.
  split; intros qc data self self' Hr H; split; intros Hz Hp.
  - now apply (Basic_OnData_long_only qc data).
  - now apply (Basic_OnData_short_only qc data).
  - now apply (Enhanced_OnData_long_only qc data).
  - now apply (Enhanced_OnData_short_only qc data).
Qed.

(** The price is below the support again, 10,000 lots are already bought:
    the tick buys nothing. *)
Lemma tick_does_not_add_to_one_sided_exposure_witness :
  exists self',
    Basic.OnData Scenario.filling (Scenario.bar 1.0990) Replay.basic_exposed
    = Ok (tt, self')
    /\ (Basic.openBuyLots self' = 10000
        \/ (Basic.openBuyLots self' = 0 /\ Basic.openSellLots self' = 0)).
Proof.
  assert (E : exists self',
             Basic.OnData Scenario.filling (Scenario.bar 1.0990)
                          Replay.basic_exposed = Ok (tt, self'))
    by (eexists; vm_compute; reflexivity).
  destruct E as [self' E]. exists self'. split; [exact E |].
  assert (Hr : 0 < Basic.r2r Replay.basic_exposed) by reflexivity.
  apply (proj1 (proj1 tick_does_not_add_to_one_sided_exposure
                  Scenario.filling (Scenario.bar 1.0990)
                  Replay.basic_exposed self' Hr E)); reflexivity.
Defined.

(** On an account of value zero a tick that gets as far as the drawdown check
    raises [ZeroDivisionError]: past warm-up, with the symbol in the slice
    and both lines set (and, enhanced, the market range-bound). *)
Theorem tick_raises_on_zero_portfolio_value :
  (forall qc data (self : Basic.Self) b s close,
     TotalPortfolioValue (portfolio qc) == 0 ->
     IsWarmingUp qc = false ->
     data (Basic.symbol self) = Some close ->
     Basic.buyLine self = Some b -> Basic.sellLine self = Some s ->
     Basic.OnData qc data self = Raise ZeroDivisionError)
  /\ (forall qc data (self : Enhanced.Self) b s close,
     TotalPortfolioValue (portfolio qc) == 0 ->
     IsWarmingUp qc = false ->
     data (Enhanced.symbol self) = Some close ->
     Enhanced.IsRangeBound qc self = Ok true ->
     Enhanced.buyLine self = Some b -> Enhanced.sellLine self = Some s ->
     Enhanced.OnData qc data self = Raise ZeroDivisionError).
Proof.
  split.
  - intros qc data self b s close. apply Basic_OnData_zero_value.
  - intros qc data self b s close. apply Enhanced_OnData_zero_value.
Qed.

Lemma tick_raises_on_zero_portfolio_value_witness :
  Basic.OnData Replay.emptied (Scenario.bar 1.0990) Scenario.basic_ranged
  = Raise ZeroDivisionError.
Proof.
  apply (proj1 tick_raises_on_zero_portfolio_value Replay.emptied
           (Scenario.bar 1.0990) Scenario.basic_ranged 1.0995 1.1055 1.0990);
    reflexivity.
Defined.

(** ** The refresh interval of the enhanced variant *)

(** A refresh is followed by a pause.  After a call of [UpdateRangeLevels]
    that recomputed the lines, a call made less than [range_update_interval]
    later changes nothing, whatever the indicators read by then. *)
Theorem refresh_is_followed_by_a_pause
    (qc qc' : Platform) (self refreshed : Enhanced.Self) :
  IsReady (high qc) = true -> IsReady (low qc) = true ->
  IsReady (atr qc) = true ->
  Enhanced.buyLine self = None \/ Enhanced.sellLine self = None
  \/ (Enhanced.range_update_interval self
      <= Time qc - Enhanced.last_range_update self)%Z ->
  Enhanced.UpdateRangeLevels qc self = Ok (tt, refreshed) ->
  (Time qc' - Time qc < Enhanced.range_update_interval self)%Z ->
  Enhanced.UpdateRangeLevels qc' refreshed = Ok (tt, refreshed).
Proof. apply Enhanced_refresh_then_pause. Qed.

Lemma refresh_is_followed_by_a_pause_witness :
  exists refreshed,
    Enhanced.UpdateRangeLevels Scenario.quiet_market Enhanced.Initialize
    = Ok (tt, refreshed)
    /\ Enhanced.UpdateRangeLevels Replay.quiet_later refreshed
       = Ok (tt, refreshed).
Proof.
  assert (E : exists refreshed,
             Enhanced.UpdateRangeLevels Scenario.quiet_market
                                        Enhanced.Initialize
             = Ok (tt, refreshed)) by (eexists; vm_compute; reflexivity).
  destruct E as [refreshed E]. exists refreshed. split; [exact E |].
  apply (refresh_is_followed_by_a_pause
           Scenario.quiet_market Replay.quiet_later Enhanced.Initialize);
    try reflexivity; [left; reflexivity | exact E].
Defined.

(** ** Order events at the edges *)

Lemma Basic_OnOrderEvent_unknown (qc : Platform) (e : OrderEvent)
    (self : Basic.Self) :
  Status e = Filled -> GetOrderById qc (OrderId e) = None ->
  Basic.OnOrderEvent qc e self = Raise AttributeError.
Proof. intros Hs Ho. unfold Basic.OnOrderEvent. now rewrite Hs, Ho. Qed.

Lemma Enhanced_OnOrderEvent_unknown (qc : Platform) (e : OrderEvent)
    (self : Enhanced.Self) :
  Status e = Filled -> GetOrderById qc (OrderId e) = None ->
  Enhanced.OnOrderEvent qc e self = Raise AttributeError.
Proof. intros Hs Ho. unfold Enhanced.OnOrderEvent. now rewrite Hs, Ho. Qed.

(** [OnOrderEvent] counts complete fills only.  An event of any other status,
    a partial fill included, leaves the object as it is without looking the
    order up; a fill whose order the platform does not know raises
    [AttributeError]; and a fill of an order whose direction is not [Buy],
    be it [Sell] or [Hold], is booked on the sell side.  Both variants. *)
Theorem order_events_at_the_edges :
  (forall qc e (self : Basic.Self),
     Status e <> Filled -> Basic.OnOrderEvent qc e self = Ok (tt, self))
  /\ (forall qc e (self : Basic.Self),
     Status e = Filled -> GetOrderById qc (OrderId e) = None ->
     Basic.OnOrderEvent qc e self = Raise AttributeError)
  /\ (forall qc e order (self : Basic.Self),
     Status e = Filled -> GetOrderById qc (OrderId e) = Some order ->
     Direction order <> Buy ->
     exists self',
       Basic.OnOrderEvent qc e self = Ok (tt, self')
       /\ Basic.openSellLots self'
          = Basic.openSellLots self + Qabs (Quantity order)
       /\ Basic.openBuyLots self' = Basic.openBuyLots self)
  /\ (forall qc e (self : Enhanced.Self),
     Status e <> Filled -> Enhanced.OnOrderEvent qc e self = Ok (tt, self))
  /\ (forall qc e (self : Enhanced.Self),
     Status e = Filled -> GetOrderById qc (OrderId e) = None ->
     Enhanced.OnOrderEvent qc e self = Raise AttributeError)
  /\ (forall qc e order (self : Enhanced.Self),
     Status e = Filled -> GetOrderById qc (OrderId e) = Some order ->
     Direction order <> Buy ->
     exists self',
       Enhanced.OnOrderEvent qc e self = Ok (tt, self')
       /\ Enhanced.openSellLots self'
          = Enhanced.openSellLots self + Qabs (Quantity order)
       /\ Enhanced.openBuyLots self' = Enhanced.openBuyLots self).
Proof.
  split; [exact Basic_OnOrderEvent_not_filled |].
  split; [exact Basic_OnOrderEvent_unknown |].
  split.
  { intros qc e order self Hs Ho Hd. eexists.
    split; [now apply Basic_OnOrderEvent_filled with (order := order) |].
    destruct (Direction order); [congruence | |]; simpl; auto. }
  split; [exact Enhanced_OnOrderEvent_not_filled |].
  split; [exact Enhanced_OnOrderEvent_unknown |].
  intros qc e order self Hs Ho Hd. eexists.
  split; [now apply Enhanced_OnOrderEvent_filled with (order := order) |].
  destruct (Direction order); [congruence | |]; simpl; auto.
Qed.

(** A partial fill of the known buy order counts for nothing. *)
Lemma order_events_at_the_edges_witness :
  Status Replay.partial <> Filled
  /\ Basic.OnOrderEvent (Scenario.knowing Scenario.buy_of_10000)
                        Replay.partial Basic.Initialize
     = Ok (tt, Basic.Initialize).
Proof.
  split; [discriminate |].
  apply (proj1 order_events_at_the_edges). discriminate.
Defined.

(** ** The range filter, completed *)


(** The one division the filter does not guard: with the Bollinger bands
    ready and at least 0.00001 apart around a middle band of zero,
    [IsRangeBound] raises [ZeroDivisionError], and so does every tick past
    warm-up whose slice holds the symbol. *)
Theorem range_filter_raises_on_zero_middle_band
    (qc : Platform) (self : Enhanced.Self) :
  bb_IsReady (bb qc) = true ->
  0.00001 <= Qabs (UpperBand (bb qc) - LowerBand (bb qc)) ->
  MiddleBand (bb qc) == 0 ->
  Enhanced.IsRangeBound qc self = Raise ZeroDivisionError
  /\ (forall data close,
        IsWarmingUp qc = false ->
        data (Enhanced.symbol self) = Some close ->
        Enhanced.OnData qc data self = Raise ZeroDivisionError).
Proof.
  intros Hready Hwide Hmid.
  pose proof (IsRangeBound_zero_middle qc self Hready Hwide Hmid) as E.
  split; [exact E |]. intros data close Hw Hd.
  unfold Enhanced.OnData, Py.bind, Py.get, Py.call, Py.lift, ContainsKey.
  rewrite Hw, Hd. simpl. now rewrite E.
Qed.

Lemma range_filter_raises_on_zero_middle_band_witness :
  Enhanced.IsRangeBound
    (Scenario.platform 100000 0 100000 Scenario.unready Scenario.unready
       Scenario.unready
       {| bb_IsReady := true; UpperBand := 1; MiddleBand := 0;
          LowerBand := -1 |} 0 0 Invalid None 0)
    Enhanced.Initialize = Raise ZeroDivisionError.
Proof.
  apply range_filter_raises_on_zero_middle_band.
  - reflexivity.
  - vm_compute. discriminate.
  - reflexivity.
Defined.

(** ** What a tick of the basic variant decides *)

Section BasicDecision.

Import PipsAndLotsExample.

Variable qc : Platform.
Variable data : Slice.
Variable self : Self.
Variables buy sell close : Q.

Hypothesis running : IsWarmingUp qc = false.
Hypothesis quoted : data (symbol self) = Some close.
Hypothesis support : buyLine self = Some buy.
Hypothesis resistance : sellLine self = Some sell.
Hypothesis no_drawdown : IsExcessiveDrawdown qc self = Ok false.
Hypothesis calm : IsVolatilityHigh qc = false.

Lemma Basic_OnData_past_the_checks :
  OnData qc data self
  = (if Py.le close buy then
       buy_lots <- call (CalculateBuyLots qc) ;;
       if Py.gt buy_lots 0 then
         ok <- call (CanTrade qc) ;;
         if ok then ExecuteBuyOrder qc buy_lots else ret tt
       else ret tt
     else if Py.ge close sell then
       sell_lots <- call (CalculateSellLots qc) ;;
       if Py.gt sell_lots 0 then
         ok <- call (CanTrade qc) ;;
         if ok then ExecuteSellOrder qc sell_lots else ret tt
       else ret tt
     else ret tt)%py self.
Proof.
  pose proof (Basic_UpdateRangeLevels_set_once
                qc self buy sell support resistance) as Hu.
  unfold OnData, Close, ContainsKey.
  unfold Py.bind at 1. unfold Py.get at 1. rewrite running, quoted. simpl.
  unfold Py.bind at 1. rewrite Hu.
  unfold Py.bind at 1. unfold Py.get at 1. rewrite support, resistance.
  unfold Py.bind at 1. unfold Py.lift at 1. rewrite quoted.
  unfold Py.bind at 1. unfold Py.call at 1. unfold Py.lift at 1.
  rewrite no_drawdown, calm. reflexivity.
Qed.

Lemma Basic_OnData_between_the_lines :
  buy < close < sell -> OnData qc data self = Ok (tt, self).
Proof.
  intros [Hb Hs]. rewrite Basic_OnData_past_the_checks.
  assert (E1 : Py.le close buy = false).
  { destruct (Py.le close buy) eqn:E; [| reflexivity].
    apply le_true_iff in E. lra. }
  assert (E2 : Py.ge close sell = false).
  { destruct (Py.ge close sell) eqn:E; [| reflexivity].
    apply ge_true_iff in E. lra. }
  now rewrite E1, E2.
Qed.

Lemma Basic_OnData_buys (lots : Q) :
  close <= buy ->
  CalculateBuyLots qc self = Ok lots -> 0 < lots ->
  CanTrade qc self = Ok true ->
  OnData qc data self = ExecuteBuyOrder qc lots self.
Proof.
  intros Hb Hl Hpos Hc. rewrite Basic_OnData_past_the_checks.
  apply le_true_iff in Hb. rewrite Hb.
  unfold Py.bind at 1. unfold Py.call at 1. unfold Py.lift at 1. rewrite Hl.
  apply gt_true_iff in Hpos. rewrite Hpos.
  unfold Py.bind at 1. unfold Py.call at 1. unfold Py.lift at 1.
  now rewrite Hc.
Qed.

Lemma Basic_OnData_sells (lots : Q) :
  buy < close -> sell <= close ->
  CalculateSellLots qc self = Ok lots -> 0 < lots ->
  CanTrade qc self = Ok true ->
  OnData qc data self = ExecuteSellOrder qc lots self.
Proof.
  intros Hb Hs Hl Hpos Hc. rewrite Basic_OnData_past_the_checks.
  assert (E1 : Py.le close buy = false).
  { destruct (Py.le close buy) eqn:E; [| reflexivity].
    apply le_true_iff in E. lra. }
  rewrite E1. apply ge_true_iff in Hs. rewrite Hs.
  unfold Py.bind at 1. unfold Py.call at 1. unfold Py.lift at 1. rewrite Hl.
  apply gt_true_iff in Hpos. rewrite Hpos.
  unfold Py.bind at 1. unfold Py.call at 1. unfold Py.lift at 1.
  now rewrite Hc.
Qed.

(** At or below the support the sell side is not looked at, even when the
    price is also at or above the resistance. *)
Lemma Basic_OnData_buy_side_first (lots : Q) :
  close <= buy ->
  CalculateBuyLots qc self = Ok lots ->
  lots <= 0 \/ CanTrade qc self = Ok false ->
  OnData qc data self = Ok (tt, self).
Proof.
  intros Hb Hl Hno. rewrite Basic_OnData_past_the_checks.
  apply le_true_iff in Hb. rewrite Hb.
  unfold Py.bind at 1. unfold Py.call at 1. unfold Py.lift at 1. rewrite Hl.
  destruct (Py.gt lots 0) eqn:Hpos; [| reflexivity].
  apply gt_true_iff in Hpos. destruct Hno as [H | H]; [lra |].
  unfold Py.bind at 1. unfold Py.call at 1. unfold Py.lift at 1.
  now rewrite H.
Qed.

End BasicDecision.

(** What a tick of the basic variant decides once it is past its checks
    (running, symbol quoted at [close], both lines set, no excessive
    drawdown, volatility not high).  Strictly between the lines it does
    nothing.  At or below the buy line, with a positive buy size and
    [CanTrade], it is the buy entry of that size; with a non-positive size or
    without [CanTrade] it does nothing, and the sell side is not looked at.
    Above the buy line and at or above the sell line, with a positive sell
    size and [CanTrade], it is the sell entry. *)
Theorem basic_tick_decision
    (qc : Platform) (data : Slice) (self : Basic.Self) (buy sell close : Q) :
  IsWarmingUp qc = false ->
  data (Basic.symbol self) = Some close ->
  Basic.buyLine self = Some buy ->
  Basic.sellLine self = Some sell ->
  Basic.IsExcessiveDrawdown qc self = Ok false ->
  Basic.IsVolatilityHigh qc = false ->
  (buy < close < sell -> Basic.OnData qc data self = Ok (tt, self))
  /\ (forall lots,
        close <= buy ->
        Basic.CalculateBuyLots qc self = Ok lots -> 0 < lots ->
        Basic.CanTrade qc self = Ok true ->
        Basic.OnData qc data self = Basic.ExecuteBuyOrder qc lots self)
  /\ (forall lots,
        close <= buy ->
        Basic.CalculateBuyLots qc self = Ok lots ->
        lots <= 0 \/ Basic.CanTrade qc self = Ok false ->
        Basic.OnData qc data self = Ok (tt, self))
  /\ (forall lots,
        buy < close -> sell <= close ->
        Basic.CalculateSellLots qc self = Ok lots -> 0 < lots ->
        Basic.CanTrade qc self = Ok true ->
        Basic.OnData qc data self = Basic.ExecuteSellOrder qc lots self).
Proof.
  intros Hw Hd Hb Hs Hdd Hv. split; [| split; [| split]].
  - now apply (Basic_OnData_between_the_lines qc data self buy sell close).
  - intro lots.
    now apply (Basic_OnData_buys qc data self buy sell close).
  - intro lots.
    now apply (Basic_OnData_buy_side_first qc data self buy sell close).
  - intro lots.
    now apply (Basic_OnData_sells qc data self buy sell close).
Qed.

(** With the lines of Scenario C set: a close of 1.1020 does nothing; a
    close of 1.0990 with 10,000 lots already bought does nothing either. *)
Lemma basic_tick_decision_witness :
  Basic.OnData Scenario.filling (Scenario.bar 1.1020) Scenario.basic_ranged
  = Ok (tt, Scenario.basic_ranged)
  /\ Basic.OnData Scenario.filling (Scenario.bar 1.0990) Replay.basic_exposed
     = Ok (tt, Replay.basic_exposed).
Proof.
  split.
  - apply (proj1 (basic_tick_decision Scenario.filling (Scenario.bar 1.1020)
                    Scenario.basic_ranged 1.0995 1.1055 1.1020
                    eq_refl eq_refl eq_refl eq_refl eq_refl eq_refl)).
    split; vm_compute; reflexivity.
  - assert (E : exists lots,
               Basic.CalculateBuyLots Scenario.filling Replay.basic_exposed
               = Ok lots /\ lots <= 0).
    { eexists. split; [vm_compute; reflexivity | vm_compute; discriminate]. }
    destruct E as [lots [E Hneg]].
    apply (proj1 (proj2 (proj2
             (basic_tick_decision Scenario.filling (Scenario.bar 1.0990)
                Replay.basic_exposed 1.0995 1.1055 1.0990
                eq_refl eq_refl eq_refl eq_refl eq_refl eq_refl))) lots).
    + vm_compute. discriminate.
    + exact E.
    + left. exact Hneg.
Defined.
